(** * x509util: certificate templates, names and the SAN extension encoder

    A shallow embedding of [x509util/certificate.go] and [x509util/name.go],
    together with models of the Go standard-library functions these files
    call ([strings], [strconv], [math/big], [net], [encoding/asn1]).

    Conventions.
    - A Go [string] and a Go [[]byte] are both byte sequences.  Strings are
      Rocq [string]s (one [ascii] per byte); byte slices are [list Z] with
      every element in [0, 255].
    - A Go [int] is a 64-bit two's complement integer, embedded in [Z];
      where the source can overflow the wrap-around is written out.
    - A Go function returning [(T, error)] returns [result T]; a function
      that can [panic] returns an [outcome]. *)

From Stdlib Require Import ZArith List Bool Lia.
From Stdlib Require Import Strings.String Strings.Ascii.
Import ListNotations.

Local Open Scope string_scope.
Local Open Scope list_scope.
Local Open Scope Z_scope.

(** ** Bytes and strings *)

Definition bytes := list Z.

Definition byte_of_ascii (c : ascii) : Z := Z.of_N (N_of_ascii c).

(** [[]byte(s)] *)
Fixpoint bytes_of_string (s : string) : bytes :=
  match s with
  | EmptyString => []
  | String c r => byte_of_ascii c :: bytes_of_string r
  end.

(** [byte(x)]: truncation of an integer to its low eight bits. *)
Definition to_byte (x : Z) : Z := x mod 256.

(** [int64(x)]: wrap-around of an integer into the 64-bit signed range. *)
Definition wrap64 (x : Z) : Z := (x + 2 ^ 63) mod 2 ^ 64 - 2 ^ 63.

Definition maxInt : Z := 2 ^ 63 - 1.
Definition minInt : Z := - 2 ^ 63.

(** ** Package [strings] *)

Module strings.

(** [unicode.ToLower] on one byte.  Only the ASCII letters are mapped; the
    model is exact on ASCII strings, which is where it is used (Go also
    maps upper-case runes outside ASCII). *)
Definition lower_byte (c : ascii) : ascii :=
  let n := N_of_ascii c in
  if ((65 <=? n) && (n <=? 90))%N then ascii_of_N (n + 32) else c.

Fixpoint ToLower (s : string) : string :=
  match s with
  | EmptyString => EmptyString
  | String c r => String (lower_byte c) (ToLower r)
  end.

(** [strings.Contains(s, sep)] for a one-byte [sep]. *)
Fixpoint Contains (s : string) (sep : ascii) : bool :=
  match s with
  | EmptyString => false
  | String c r => if Ascii.eqb c sep then true else Contains r sep
  end.

(** [strings.Split(s, sep)] for a one-byte [sep]: the substrings between
    the separators; a string without separator yields itself, alone. *)
Fixpoint Split (s : string) (sep : ascii) : list string :=
  match s with
  | EmptyString => [EmptyString]
  | String c r =>
      if Ascii.eqb c sep then EmptyString :: Split r sep
      else match Split r sep with
           | [] => [String c EmptyString]
           | h :: t => String c h :: t
           end
  end.

(** [strings.Join(elems, sep)] for a one-byte [sep]. *)
Fixpoint Join (elems : list string) (sep : ascii) : string :=
  match elems with
  | [] => EmptyString
  | [e] => e
  | e :: rest => (e ++ String sep (Join rest sep))%string
  end.

(** The slice expression [s[n:]].  Go panics when [n > len(s)]; the model
    returns the empty string there (see [slice_from_in_range] for the one
    place the source uses it). *)
Fixpoint slice_from (n : nat) (s : string) : string :=
  match n, s with
  | O, _ => s
  | S n', String _ r => slice_from n' r
  | S _, EmptyString => EmptyString
  end.

(** All bytes below 0x80. *)
Fixpoint is_ascii (s : string) : bool :=
  match s with
  | EmptyString => true
  | String c r => (N_of_ascii c <? 128)%N && is_ascii r
  end.

End strings.

(** ** Package [strconv] *)

Module strconv.

Definition digit (c : ascii) : option Z :=
  let n := byte_of_ascii c in
  if (48 <=? n) && (n <=? 57) then Some (n - 48) else None.

(** The digit loop of [Atoi] / [ParseUint]: [n = n*10 + int(ch - '0')],
    failing on the first byte that is not a decimal digit. *)
Fixpoint parse_digits (s : string) (n : Z) : option Z :=
  match s with
  | EmptyString => Some n
  | String ch r =>
      match digit ch with
      | Some d => parse_digits r (n * 10 + d)
      | None => None
      end
  end.

(** [strconv.Atoi]: an optional sign, at least one decimal digit, nothing
    else, and a value that fits the 64-bit [int].  The fast path (fewer
    than 19 bytes) and the [ParseInt] path of the library agree on this;
    [None] stands for a non-nil error. *)
Definition Atoi (s : string) : option Z :=
  match s with
  | EmptyString => None
  | String c r =>
      let neg := Ascii.eqb c "-" in
      let body := if Ascii.eqb c "-" || Ascii.eqb c "+" then r else s in
      match body with
      | EmptyString => None
      | _ =>
          match parse_digits body 0 with
          | None => None
          | Some n =>
              let v := if neg then - n else n in
              if (minInt <=? v) && (v <=? maxInt) then Some v else None
          end
      end
  end.

Definition digit_char (d : Z) : ascii := ascii_of_N (Z.to_N (48 + d)).

(** The digit loop of [formatBits] in base 10: digits are produced from
    the least significant one and prepended.  Twenty passes cover every
    64-bit value. *)
Fixpoint format_digits (fuel : nat) (n : Z) (acc : string) : string :=
  match fuel with
  | O => acc
  | S f =>
      let acc' := String (digit_char (n mod 10)) acc in
      if n <? 10 then acc' else format_digits f (n / 10) acc'
  end.

(** [strconv.AppendInt(buf, v, 10)] / [strconv.Itoa]. *)
Definition FormatInt (v : Z) : string :=
  if v <? 0 then String "-" (format_digits 20 (- v) EmptyString)
  else format_digits 20 v EmptyString.

End strconv.

(** ** Package [math/big]: [Int.SetString(s, 0)] *)

Module big.

(** What [nat.scan] remembers about the previous byte: a digit (['0']), a
    separator (['_']) or anything else (['.']). *)
Inductive prev_kind := PrevDigit | PrevSep | PrevOther.

Definition prev_is_digit (p : prev_kind) : bool :=
  match p with PrevDigit => true | _ => false end.

Definition prev_is_sep (p : prev_kind) : bool :=
  match p with PrevSep => true | _ => false end.

(** The base prefix found by [nat.scan]: none, the bare octal [0], or one
    of [0b], [0o], [0x]. *)
Inductive prefix_kind := NoPrefix | Prefix0 | PrefixB | PrefixO | PrefixX.

Record scan_state := mkScan {
  value : Z;            (* the number read so far *)
  count : Z;            (* digits read *)
  prev : prev_kind;
  invalSep : bool
}.

(** The digit value [d1] of a byte; [63 = MaxBase + 1] marks a byte that
    is no digit in any base.  (The bases used here are at most 16, so an
    upper-case letter counts from 10 like a lower-case one.) *)
Definition digit_value (ch : ascii) : Z :=
  let n := byte_of_ascii ch in
  if (48 <=? n) && (n <=? 57) then n - 48
  else if (97 <=? n) && (n <=? 122) then n - 97 + 10
  else if (65 <=? n) && (n <=? 90) then n - 65 + 10
  else 63.

(** The conversion loop of [nat.scan] with [base == 0]: an underscore is a
    separator, valid only after a digit; a byte that is no digit of base
    [b] is pushed back and ends the loop.  Returns the state and the
    unread rest.  (The library accumulates the digits in machine words;
    the value is the same.) *)
Fixpoint scan_digits (s : string) (b : Z) (st : scan_state)
  : scan_state * string :=
  match s with
  | EmptyString => (st, EmptyString)
  | String ch r =>
      if Ascii.eqb ch "_" then
        scan_digits r b
          (mkScan (value st) (count st) PrevSep
             (invalSep st || negb (prev_is_digit (prev st))))
      else
        let d1 := digit_value ch in
        if b <=? d1 then (st, s)
        else scan_digits r b
               (mkScan (value st * b + d1) (count st + 1) PrevDigit
                  (invalSep st))
  end.

(** The end of [nat.scan]: misplaced separators and "no digits" are
    errors, except that a lone octal prefix [0] reads as zero. *)
Definition scan_finish (prefix : prefix_kind) (r : scan_state * string)
  : option (Z * string) :=
  let (st, rest) := r in
  if invalSep st || prev_is_sep (prev st) then None
  else if count st =? 0 then
    match prefix with
    | Prefix0 => Some (0, rest)
    | _ => None
    end
  else Some (value st, rest).

(** [nat.scan(r, 0, false)]: determine the base from the prefix, then
    convert.  Returns the value and the unread rest of the input. *)
Definition nat_scan (s : string) : option (Z * string) :=
  match s with
  | String "0" r =>
      match r with
      | EmptyString =>
          (* a single 0: one digit, base 10 *)
          scan_finish NoPrefix (mkScan 0 1 PrevDigit false, EmptyString)
      | String ch r' =>
          let start := mkScan 0 0 PrevDigit false in
          if Ascii.eqb ch "b" || Ascii.eqb ch "B" then
            scan_finish PrefixB (scan_digits r' 2 start)
          else if Ascii.eqb ch "o" || Ascii.eqb ch "O" then
            scan_finish PrefixO (scan_digits r' 8 start)
          else if Ascii.eqb ch "x" || Ascii.eqb ch "X" then
            scan_finish PrefixX (scan_digits r' 16 start)
          else
            (* octal prefix 0: [ch] is not consumed *)
            scan_finish Prefix0 (scan_digits r 8 start)
      end
  | _ => scan_finish NoPrefix (scan_digits s 10 (mkScan 0 0 PrevOther false))
  end.

(** [Int.SetString(s, 0)]: [scanSign], [nat.scan], and the whole input
    must have been consumed.  [None] is the [ok == false] return. *)
Definition SetString (s : string) : option Z :=
  match s with
  | EmptyString => None
  | String c r =>
      let neg := Ascii.eqb c "-" in
      let body := if Ascii.eqb c "-" || Ascii.eqb c "+" then r else s in
      match nat_scan body with
      | Some (v, EmptyString) => Some (if neg then - v else v)
      | _ => None
      end
  end.

End big.

(** ** Package [net]: [ParseIP] and [IP.To4] *)

Module net.

(** [net.IP]: a byte slice of length 4 or 16. *)
Definition IP := bytes.

Definition IPv4len : nat := 4.
Definition IPv6len : nat := 16.

Definition is_empty (s : string) : bool :=
  match s with EmptyString => true | _ => false end.

Definition starts_with (s : string) (c : ascii) : bool :=
  match s with String c' _ => Ascii.eqb c' c | EmptyString => false end.

(** The loop of [netip.parseIPv4Fields].  [first] is [i == 0], [prevDot]
    is [s[i-1] == '.']; [fields] holds the [pos] octets stored so far. *)
Fixpoint parseIPv4Fields_loop (s : string) (val : Z) (pos : nat)
    (digLen : Z) (first prevDot : bool) (fields : bytes) : option bytes :=
  match s with
  | EmptyString =>
      if (pos <? 3)%nat then None else Some (fields ++ [val])
  | String c r =>
      match strconv.digit c with
      | Some d =>
          if (digLen =? 1) && (val =? 0) then None
          else
            let val' := val * 10 + d in
            if 255 <? val' then None
            else parseIPv4Fields_loop r val' pos (digLen + 1) false false
                   fields
      | None =>
          if Ascii.eqb c "." then
            if first || is_empty r || prevDot then None
            else if (pos =? 3)%nat then None
            else parseIPv4Fields_loop r 0 (S pos) 0 false true
                   (fields ++ [val])
          else None
      end
  end.

Definition parseIPv4Fields (s : string) : option bytes :=
  parseIPv4Fields_loop s 0 0%nat 0 true false [].

Definition hex_value (c : ascii) : option Z :=
  let n := byte_of_ascii c in
  if (48 <=? n) && (n <=? 57) then Some (n - 48)
  else if (97 <=? n) && (n <=? 102) then Some (n - 97 + 10)
  else if (65 <=? n) && (n <=? 70) then Some (n - 65 + 10)
  else None.

(** The inner loop of [parseIPv6] reading one group of hex digits:
    returns the group's value, the number [off] of digits and the rest;
    [None] when the group has more than four digits. *)
Fixpoint scan_hex (s : string) (off : nat) (acc : Z)
  : option (Z * nat * string) :=
  match s with
  | EmptyString => Some (acc, off, s)
  | String c r =>
      match hex_value c with
      | Some d =>
          let acc' := acc * 16 + d in
          if (3 <? off)%nat then None
          else if 65535 <? acc' then None
          else scan_hex r (S off) acc'
      | None => Some (acc, off, s)
      end
  end.

(** The main loop of [parseIPv6], [for i < 16].  [ip] holds the [i] bytes
    stored so far ([i = length ip]); [ellipsis] is the position of [::],
    if seen.  The result is the state at the end of the loop: the unread
    rest, the bytes and the ellipsis; [None] is an error return.  Every
    pass that continues stores two bytes, so eight passes are enough. *)
Fixpoint parseIPv6_loop (fuel : nat) (s : string) (ip : bytes)
    (ellipsis : option nat) : option (string * bytes * option nat) :=
  match fuel with
  | O => Some (s, ip, ellipsis)
  | S fuel' =>
      let i := List.length ip in
      if (16 <=? i)%nat then Some (s, ip, ellipsis)
      else
        match scan_hex s 0 0 with
        | None => None
        | Some (acc, off, rest) =>
            if (off =? 0)%nat then None
            else if starts_with rest "." then
              (* trailing IPv4 *)
              if (match ellipsis with None => true | _ => false end)
                 && negb (i =? 12)%nat then None
              else if (16 <? i + 4)%nat then None
              else
                match parseIPv4Fields s with
                | None => None
                | Some f => Some (EmptyString, ip ++ f, ellipsis)
                end
            else
              let ip' := ip ++ [to_byte (Z.shiftr acc 8); to_byte acc] in
              match rest with
              | EmptyString => Some (EmptyString, ip', ellipsis)
              | String c r1 =>
                  if negb (Ascii.eqb c ":") then None
                  else
                    match r1 with
                    | EmptyString => None
                    | String c2 r2 =>
                        if Ascii.eqb c2 ":" then
                          match ellipsis with
                          | Some _ => None
                          | None =>
                              if is_empty r2
                              then Some (EmptyString, ip', Some (List.length ip'))
                              else parseIPv6_loop fuel' r2 ip'
                                     (Some (List.length ip'))
                          end
                        else parseIPv6_loop fuel' r1 ip' ellipsis
                    end
              end
        end
  end.

(** [s[:i]] and [s[i+1:]] for [i] the index of the first [%], if any. *)
Fixpoint split_zone (s : string) : string * option string :=
  match s with
  | EmptyString => (EmptyString, None)
  | String c r =>
      if Ascii.eqb c "%" then (EmptyString, Some r)
      else let (a, z) := split_zone r in (String c a, z)
  end.

(** [netip.parseIPv6]: the 16 bytes of the address and its zone. *)
Definition parseIPv6 (input : string) : option (bytes * string) :=
  let (s, z) := split_zone input in
  match z with
  | Some EmptyString => None
  | _ =>
      let zone := match z with Some zn => zn | None => EmptyString end in
      let lead :=
        match s with
        | String ":" (String ":" r) => Some r
        | _ => None
        end in
      match lead with
      | Some EmptyString => Some (repeat 0 16, zone)
      | _ =>
          let s1 := match lead with Some r => r | None => s end in
          let e0 := match lead with Some _ => Some 0%nat | None => None end in
          match parseIPv6_loop 8 s1 [] e0 with
          | None => None
          | Some (rest, ip, ellipsis) =>
              if negb (is_empty rest) then None
              else
                let i := List.length ip in
                if (i <? 16)%nat then
                  match ellipsis with
                  | None => None
                  | Some e =>
                      Some (firstn e ip ++ repeat 0 (16 - i) ++ skipn e ip,
                            zone)
                  end
                else
                  match ellipsis with
                  | Some _ => None
                  | None => Some (ip, zone)
                  end
          end
      end
  end.

Definition v4InV6Prefix : bytes := repeat 0 10 ++ [255; 255].

(** The first of the bytes [.], [:] and [%] in [s] decides how
    [netip.ParseAddr] reads it. *)
Fixpoint first_mark (s : string) : option ascii :=
  match s with
  | EmptyString => None
  | String c r =>
      if Ascii.eqb c "." || Ascii.eqb c ":" || Ascii.eqb c "%"
      then Some c else first_mark r
  end.

(** [net.ParseIP]: [netip.ParseAddr], refusing a zone, then the 16-byte
    form of the address ([Addr.As16]); [None] is the nil [IP]. *)
Definition ParseIP (s : string) : option IP :=
  match first_mark s with
  | Some "."%char =>
      match parseIPv4Fields s with
      | Some f => Some (v4InV6Prefix ++ f)
      | None => None
      end
  | Some ":"%char =>
      match parseIPv6 s with
      | Some (ip, EmptyString) => Some ip
      | _ => None
      end
  | _ => None
  end.

Definition isZeros (p : bytes) : bool := forallb (Z.eqb 0) p.

(** [IP.To4]: the 4-byte form of an IPv4 address, [None] (nil) when the
    address is not an IPv4 address. *)
Definition To4 (ip : IP) : option IP :=
  if (List.length ip =? IPv4len)%nat then Some ip
  else if (List.length ip =? IPv6len)%nat
          && isZeros (firstn 10 ip)
          && (nth 10 ip 0 =? 255) && (nth 11 ip 0 =? 255)
  then Some (firstn 4 (skipn 12 ip))
  else None.

End net.

(** ** Errors and results *)

(** A Go [error], by its [Error()] text. *)
Definition error := string.

Inductive result (A : Type) : Type :=
| Ok (a : A)
| Err (e : error).
Arguments Ok {A} a.
Arguments Err {A} e.

(** The outcome of a call that returns no error value: it returns, or it
    panics and takes the process down with the given message. *)
Inductive outcome (A : Type) : Type :=
| Returned (a : A)
| Panicked (msg : string).
Arguments Returned {A} a.
Arguments Panicked {A} msg.

(** ** Package [encoding/asn1]: DER marshalling *)

Module asn1.

Definition ObjectIdentifier := list Z.

Definition TagInteger : Z := 2.
Definition TagOID : Z := 6.
Definition TagUTF8String : Z := 12.
Definition TagSequence : Z := 16.
Definition TagNumericString : Z := 18.
Definition TagPrintableString : Z := 19.
Definition TagIA5String : Z := 22.

Definition ClassUniversal : Z := 0.
Definition ClassContextSpecific : Z := 2.

Record RawValue := mkRawValue {
  Class : Z;
  Tag : Z;
  IsCompound : bool;
  Bytes : bytes;
  FullBytes : bytes
}.

Definition StructuralError (msg : string) : error :=
  ("asn1: structure error: " ++ msg)%string.

(** [base128IntLength]: [for i := n; i > 0; i >>= 7 { l++ }]. *)
Fixpoint base128IntLength_loop (fuel : nat) (i : Z) (l : nat) : nat :=
  match fuel with
  | O => l
  | S f => if 0 <? i then base128IntLength_loop f (Z.shiftr i 7) (S l) else l
  end.

Definition base128IntLength (n : Z) : nat :=
  if n =? 0 then 1%nat else base128IntLength_loop 10 n 0.

(** [appendBase128Int], from [i] down to 0. *)
Fixpoint appendBase128Int_loop (i : nat) (n : Z) : bytes :=
  match i with
  | O => []
  | S i' =>
      let o := Z.land (to_byte (Z.shiftr n (Z.of_nat i' * 7))) 127 in
      (if (i' =? 0)%nat then o else Z.lor o 128)
        :: appendBase128Int_loop i' n
  end.

Definition appendBase128Int (n : Z) : bytes :=
  appendBase128Int_loop (base128IntLength n) n.

(** [lengthLength]: [for i > 255 { numBytes++; i >>= 8 }]. *)
Fixpoint lengthLength_loop (fuel : nat) (i : Z) (numBytes : nat) : nat :=
  match fuel with
  | O => numBytes
  | S f =>
      if 255 <? i then lengthLength_loop f (Z.shiftr i 8) (S numBytes)
      else numBytes
  end.

Definition lengthLength (i : Z) : nat := lengthLength_loop 8 i 1.

(** [appendLength], from [n] down to 1. *)
Fixpoint appendLength_loop (n : nat) (i : Z) : bytes :=
  match n with
  | O => []
  | S n' => to_byte (Z.shiftr i (Z.of_nat n' * 8)) :: appendLength_loop n' i
  end.

Definition appendLength (i : Z) : bytes :=
  appendLength_loop (lengthLength i) i.

(** [appendTagAndLength]: the identifier and length octets. *)
Definition appendTagAndLength (class tag length : Z) (isCompound : bool)
  : bytes :=
  let b := Z.lor (to_byte (Z.shiftl class 6))
                 (if isCompound then 32 else 0) in
  (if 31 <=? tag then Z.lor b 31 :: appendBase128Int tag
   else [Z.lor b (to_byte tag)])
  ++ (if 128 <=? length
      then Z.lor 128 (Z.of_nat (lengthLength length)) :: appendLength length
      else [to_byte length]).

(** A [taggedEncoder]: identifier, length, body. *)
Definition tagged (class tag : Z) (isCompound : bool) (body : bytes)
  : bytes :=
  appendTagAndLength class tag (Z.of_nat (List.length body)) isCompound
    ++ body.

(** [int64Encoder.Len]: the shortest two's complement form. *)
Fixpoint int64Len_pos (fuel : nat) (i : Z) (n : nat) : nat * Z :=
  match fuel with
  | O => (n, i)
  | S f => if 127 <? i then int64Len_pos f (Z.shiftr i 8) (S n) else (n, i)
  end.

Fixpoint int64Len_neg (fuel : nat) (i : Z) (n : nat) : nat :=
  match fuel with
  | O => n
  | S f => if i <? -128 then int64Len_neg f (Z.shiftr i 8) (S n) else n
  end.

Definition int64Len (i : Z) : nat :=
  let (n, i') := int64Len_pos 8 i 1 in int64Len_neg 8 i' n.

(** [int64Encoder.Encode]: [dst[j] = byte(i >> ((n-1-j)*8))]. *)
Fixpoint int64Encode_loop (n : nat) (i : Z) : bytes :=
  match n with
  | O => []
  | S n' => to_byte (Z.shiftr i (Z.of_nat n' * 8)) :: int64Encode_loop n' i
  end.

Definition int64Encode (i : Z) : bytes := int64Encode_loop (int64Len i) i.

(** [asn1.Marshal(i)] for an [int]: a universal INTEGER. *)
Definition Marshal_int (i : Z) : result bytes :=
  Ok (tagged ClassUniversal TagInteger false (int64Encode i)).

(** [makeObjectIdentifier] and [oidEncoder.Encode]: the body of an OBJECT
    IDENTIFIER, refused unless it has two components or more, the first
    at most 2 and the second below 40 when the first is below 2. *)
Definition makeObjectIdentifier (oid : ObjectIdentifier) : result bytes :=
  match oid with
  | o0 :: o1 :: rest =>
      if (2 <? o0) || ((o0 <? 2) && (40 <=? o1))
      then Err (StructuralError "invalid object identifier")
      else Ok (appendBase128Int (wrap64 (o0 * 40 + o1))
                 ++ flat_map appendBase128Int rest)
  | _ => Err (StructuralError "invalid object identifier")
  end.

(** [asn1.Marshal(oid)]: a universal OBJECT IDENTIFIER. *)
Definition Marshal_oid (oid : ObjectIdentifier) : result bytes :=
  match makeObjectIdentifier oid with
  | Ok body => Ok (tagged ClassUniversal TagOID false body)
  | Err e => Err e
  end.

(** [asn1.MarshalWithParams(oid, "tag:N")]: the same body under the
    context-specific implicit tag [N]. *)
Definition MarshalWithParams_oid_tag (oid : ObjectIdentifier) (tag : Z)
  : result bytes :=
  match makeObjectIdentifier oid with
  | Ok body => Ok (tagged ClassContextSpecific tag false body)
  | Err e => Err e
  end.

(** The string types a field parameter can name. *)
Inductive stringType :=
| UTF8String | IA5String | NumericString | PrintableString.

(** [parseFieldParameters] on the parameter strings that select a string
    type. *)
Definition stringParam (params : string) : option stringType :=
  if String.eqb params "utf8" then Some UTF8String
  else if String.eqb params "ia5" then Some IA5String
  else if String.eqb params "numeric" then Some NumericString
  else if String.eqb params "printable" then Some PrintableString
  else None.

Definition stringTag (t : stringType) : Z :=
  match t with
  | UTF8String => TagUTF8String
  | IA5String => TagIA5String
  | NumericString => TagNumericString
  | PrintableString => TagPrintableString
  end.

(** [isPrintable(b, allowAsterisk, rejectAmpersand)]. *)
Definition isPrintable (c : ascii) : bool :=
  let b := byte_of_ascii c in
  ((97 <=? b) && (b <=? 122)) || ((65 <=? b) && (b <=? 90))
  || ((48 <=? b) && (b <=? 57)) || ((39 <=? b) && (b <=? 41))
  || ((43 <=? b) && (b <=? 47)) || (b =? 32) || (b =? 58) || (b =? 61)
  || (b =? 63) || (b =? 42).

(** [isNumeric]: a digit or a space. *)
Definition isNumeric (c : ascii) : bool :=
  let b := byte_of_ascii c in ((48 <=? b) && (b <=? 57)) || (b =? 32).

Definition isIA5 (c : ascii) : bool := byte_of_ascii c <? 128.

Fixpoint string_forallb (p : ascii -> bool) (s : string) : bool :=
  match s with
  | EmptyString => true
  | String c r => p c && string_forallb p r
  end.

(** The character set of a string type; [makeUTF8String] checks nothing. *)
Definition validFor (t : stringType) (s : string) : bool :=
  match t with
  | UTF8String => true
  | IA5String => string_forallb isIA5 s
  | NumericString => string_forallb isNumeric s
  | PrintableString => string_forallb isPrintable s
  end.

Definition invalidCharacter (t : stringType) : error :=
  StructuralError
    match t with
    | UTF8String => "UTF8String contains invalid character"
    | IA5String => "IA5String contains invalid character"
    | NumericString => "NumericString contains invalid character"
    | PrintableString => "PrintableString contains invalid character"
    end.

(** [asn1.MarshalWithParams(s, params)] for a string [s] whose parameter
    names the string type [t]: [makePrintableString], [makeIA5String],
    [makeNumericString] or [makeUTF8String], under the universal tag of
    the type. *)
Definition MarshalWithParams_string (s : string) (t : stringType)
  : result bytes :=
  if validFor t s
  then Ok (tagged ClassUniversal (stringTag t) false (bytes_of_string s))
  else Err (invalidCharacter t).

(** [makeField] on a [RawValue]: its [FullBytes] when there are any,
    otherwise identifier and length from its fields, then its [Bytes]. *)
Definition marshal_RawValue (rv : RawValue) : bytes :=
  match FullBytes rv with
  | [] => tagged (Class rv) (Tag rv) (IsCompound rv) (Bytes rv)
  | fb => fb
  end.

(** [asn1.Marshal(vals)] for a slice of [RawValue]s held as
    [interface{}]: a universal SEQUENCE of the values.  It never fails. *)
Definition Marshal_rawValues (vals : list RawValue) : bytes :=
  tagged ClassUniversal TagSequence true (flat_map marshal_RawValue vals).

(** [ObjectIdentifier.String]: the components in decimal, joined by
    dots. *)
Definition ObjectIdentifier_String (oi : ObjectIdentifier) : string :=
  strings.Join (map strconv.FormatInt oi) ".".

End asn1.

(** ** Package [crypto/x509/pkix] *)

Module pkix.

Record AttributeTypeAndValue := mkAttributeTypeAndValue {
  Type_ : asn1.ObjectIdentifier;
  Value : asn1.RawValue
}.

Record Name := mkName {
  Country : list string;
  Organization : list string;
  OrganizationalUnit : list string;
  Locality : list string;
  Province : list string;
  StreetAddress : list string;
  PostalCode : list string;
  SerialNumber : string;
  CommonName : string;
  Names : list AttributeTypeAndValue;
  ExtraNames : list AttributeTypeAndValue
}.

(** [pkix.Name{}] *)
Definition empty : Name :=
  mkName [] [] [] [] [] [] [] EmptyString EmptyString [] [].

Definition set_ExtraNames (n : Name) (x : list AttributeTypeAndValue)
  : Name :=
  mkName (Country n) (Organization n) (OrganizationalUnit n) (Locality n)
    (Province n) (StreetAddress n) (PostalCode n) (SerialNumber n)
    (CommonName n) (Names n) x.

End pkix.

(** ** Package [crypto/x509]: the fields of [x509.Certificate] that the
    modelled functions write.  [URL] stands for [*url.URL]. *)

Module x509.

Record Certificate {URL : Type} := mkCertificate {
  Subject : pkix.Name;
  DNSNames : list string;
  EmailAddresses : list string;
  IPAddresses : list net.IP;
  URIs : list URL;
  BasicConstraintsValid : bool;
  IsCA : bool;
  MaxPathLen : Z;
  MaxPathLenZero : bool
}.
Arguments Certificate : clear implicits.
Arguments mkCertificate {URL}.

(** [new(x509.Certificate)] *)
Definition new {URL : Type} : Certificate URL :=
  mkCertificate pkix.empty [] [] [] [] false false 0 false.

Section Updates.
Context {URL : Type}.
Implicit Type c : Certificate URL.

Definition set_Subject c (x : pkix.Name) : Certificate URL :=
  mkCertificate x (DNSNames c) (EmailAddresses c) (IPAddresses c)
    (URIs c) (BasicConstraintsValid c) (IsCA c) (MaxPathLen c)
    (MaxPathLenZero c).

Definition set_DNSNames c (x : list string) : Certificate URL :=
  mkCertificate (Subject c) x (EmailAddresses c) (IPAddresses c)
    (URIs c) (BasicConstraintsValid c) (IsCA c) (MaxPathLen c)
    (MaxPathLenZero c).

Definition set_EmailAddresses c (x : list string) : Certificate URL :=
  mkCertificate (Subject c) (DNSNames c) x (IPAddresses c)
    (URIs c) (BasicConstraintsValid c) (IsCA c) (MaxPathLen c)
    (MaxPathLenZero c).

Definition set_IPAddresses c (x : list net.IP) : Certificate URL :=
  mkCertificate (Subject c) (DNSNames c) (EmailAddresses c) x
    (URIs c) (BasicConstraintsValid c) (IsCA c) (MaxPathLen c)
    (MaxPathLenZero c).

Definition set_URIs c (x : list URL) : Certificate URL :=
  mkCertificate (Subject c) (DNSNames c) (EmailAddresses c)
    (IPAddresses c) x (BasicConstraintsValid c) (IsCA c) (MaxPathLen c)
    (MaxPathLenZero c).

Definition set_BasicConstraints c (valid isCA : bool) (maxPathLen : Z)
    (maxPathLenZero : bool) : Certificate URL :=
  mkCertificate (Subject c) (DNSNames c) (EmailAddresses c)
    (IPAddresses c) (URIs c) valid isCA maxPathLen maxPathLenZero.
End Updates.

End x509.

(** ** Package [encoding/json]: the shape of a JSON value, as far as the
    decoders modelled here look at it. *)

Inductive JSON :=
| JSONNull
| JSONBool (b : bool)
| JSONNumber (literal : string)
| JSONString (s : string)
| JSONArray
| JSONObject.

(** [json.Unmarshal(data, &i)] for [i int64], starting from [i = 0]: an
    integer literal in range is stored, [null] leaves [i] as it is, anything
    else is an error. *)
Definition json_Unmarshal_int64 (data : JSON) : result Z :=
  match data with
  | JSONNull => Ok 0
  | JSONNumber literal =>
      match strconv.Atoi literal with
      | Some i => Ok i
      | None =>
          Err ("json: cannot unmarshal number " ++ literal
               ++ " into Go value of type int64")%string
      end
  | JSONBool _ => Err "json: cannot unmarshal bool into Go value of type int64"
  | JSONString _ =>
      Err "json: cannot unmarshal string into Go value of type int64"
  | JSONArray => Err "json: cannot unmarshal array into Go value of type int64"
  | JSONObject =>
      Err "json: cannot unmarshal object into Go value of type int64"
  end.

(** [json.Marshal(s)] for a string. *)
Definition json_Marshal_string (s : string) : JSON := JSONString s.

(** ** Package [x509util]: data *)

(** Names used as SubjectAlternativeName types. *)
Definition AutoType : string := "auto".
Definition EmailType : string := "email".
Definition DNSType : string := "dns".
Definition X400AddressType : string := "x400Address".
Definition DirectoryNameType : string := "dn".
Definition EDIPartyNameType : string := "ediPartyName".
Definition URIType : string := "uri".
Definition IPType : string := "ip".
Definition RegisteredIDType : string := "registeredID".

(** The type ids of RFC 5280, page 36. *)
Definition nameTypeOtherName : Z := 0.
Definition nameTypeEmail : Z := 1.
Definition nameTypeDNS : Z := 2.
Definition nameTypeURI : Z := 6.
Definition nameTypeIP : Z := 7.
Definition nameTypeRegisteredID : Z := 8.

Definition ObjectIdentifier := asn1.ObjectIdentifier.

Definition subjectAlternativeNameOID : ObjectIdentifier := [2; 5; 29; 17].

Definition oidUID : list Z := [0; 9; 2342; 19200300; 100; 1; 1].
Definition oidDC : list Z := [0; 9; 2342; 19200300; 100; 1; 25].
Definition oidCommonName : list Z := [2; 5; 4; 3].
Definition oidSurname : list Z := [2; 5; 4; 4].
Definition oidSerialNumber : list Z := [2; 5; 4; 5].
Definition oidCountry : list Z := [2; 5; 4; 6].
Definition oidLocality : list Z := [2; 5; 4; 7].
Definition oidProvince : list Z := [2; 5; 4; 8].
Definition oidStreetAddress : list Z := [2; 5; 4; 9].
Definition oidOrganization : list Z := [2; 5; 4; 10].
Definition oidOrganizationalUnit : list Z := [2; 5; 4; 11].
Definition oidTitle : list Z := [2; 5; 4; 12].
Definition oidPostalCode : list Z := [2; 5; 4; 17].
Definition oidGivenName : list Z := [2; 5; 4; 42].

Module SubjectAlternativeName.
Record t := mk {
  Type_ : string;
  Value : string
}.
End SubjectAlternativeName.

Module Extension.
Record t := mk {
  ID : ObjectIdentifier;
  Critical : bool;
  Value : bytes
}.
End Extension.

(** [OtherNameValue] makes the marshaller wrap the value in a constructed
    element; its [V] always holds an [asn1.RawValue]. *)
Module OtherNameValue.
Record t := mk {
  V : asn1.RawValue
}.
End OtherNameValue.

(** [OtherName]: the field [Value] carries the struct tag [asn1:"tag:0"]. *)
Module OtherName.
Record t := mk {
  OID : asn1.ObjectIdentifier;
  Value : OtherNameValue.t
}.
End OtherName.

Module BasicConstraints.
Record t := mk {
  IsCA : bool;
  MaxPathLen : Z
}.
End BasicConstraints.

(** [Name], and [Subject], which is a [Name]. *)
Module Name.
Record t := mk {
  Country : list string;
  Organization : list string;
  OrganizationalUnit : list string;
  DomainController : list string;
  Locality : list string;
  Province : list string;
  StreetAddress : list string;
  PostalCode : list string;
  SerialNumber : string;
  CommonName : string;
  Surname : string;
  GivenName : string;
  Title : string;
  UID : string
}.
End Name.

Module Subject.
Definition t := Name.t.
End Subject.

(** [SerialNumber] wraps a [*big.Int]; after a successful decode it is never
    nil. *)
Module SerialNumber.
Record t := mk {
  Int : Z
}.
End SerialNumber.

(** The template [Certificate]: the fields read by
    [createSubjectAltNameExtension], and the subject. *)
Module Certificate.
Record t {URL : Type} := mk {
  Subject : Subject.t;
  DNSNames : list string;
  EmailAddresses : list string;
  IPAddresses : list net.IP;
  URIs : list URL;
  SANs : list SubjectAlternativeName.t
}.
Arguments t : clear implicits.
Arguments mk {URL}.
End Certificate.

(** ** Helpers of the package that live outside the modelled files *)

(** The spec names the error of a text that does not parse [ParseError] and
    the error of a JSON value of the wrong shape [DecodeError]; their texts
    are not given, and the callers only test them for nil. *)
Definition ParseError (s : string) : error := ("ParseError: " ++ s)%string.

Definition DecodeError : error := "DecodeError".

(** Modelled from the spec: [parseObjectIdentifier] is called by
    [certificate.go] and defined in another file of the package.  The spec
    has: "ObjectIdentifier: dotted-decimal string; every component must
    parse as a non-negative integer and the sequence must be non-empty, else
    ParseError".  A component is read as a non-empty run of decimal digits
    whose value fits an [int]. *)
Definition parseObjectIdentifier_component (s : string) : option Z :=
  match s with
  | EmptyString => None
  | _ =>
      match strconv.parse_digits s 0 with
      | Some n => if n <=? maxInt then Some n else None
      | None => None
      end
  end.

(** Modelled from the spec: the loop of [parseObjectIdentifier] over the
    components ("every component must parse as a non-negative integer"). *)
Fixpoint parseObjectIdentifier_components (parts : list string)
  : option (list Z) :=
  match parts with
  | [] => Some []
  | p :: rest =>
      match parseObjectIdentifier_component p,
            parseObjectIdentifier_components rest with
      | Some n, Some ns => Some (n :: ns)
      | _, _ => None
      end
  end.

(** Modelled from the spec: [parseObjectIdentifier] itself, on the
    dot-separated components ("the sequence must be non-empty, else
    ParseError"). *)
Definition parseObjectIdentifier (oid : string)
  : result asn1.ObjectIdentifier :=
  match parseObjectIdentifier_components (strings.Split oid ".") with
  | Some (n :: ns) => Ok (n :: ns)
  | _ => Err (ParseError oid)
  end.

(** Modelled from the spec: [maybeString] is defined in another file of the
    package.  The spec has: "JSON number -> converted via a 64-bit integer
    path; JSON string -> parsed as arbitrary-precision integer": the helper
    yields the text of a JSON string and declines every other value. *)
Definition maybeString (data : JSON) : option string :=
  match data with
  | JSONString s => Some s
  | _ => None
  end.

(** Modelled from the spec: [unmarshalString] is defined in another file of
    the package.  The spec has: "JSON duck-typed fields -> explicit
    decode-time union handling that inspects the JSON shape and returns a
    typed decode error on mismatch": a JSON string yields its text, any
    other value a decode error. *)
Definition unmarshalString (data : JSON) : result string :=
  match data with
  | JSONString s => Ok s
  | _ => Err DecodeError
  end.

(** ** [ObjectIdentifier]: JSON form *)

Definition ObjectIdentifier_MarshalJSON (o : ObjectIdentifier) : result JSON :=
  Ok (json_Marshal_string (asn1.ObjectIdentifier_String o)).

Definition ObjectIdentifier_UnmarshalJSON (data : JSON)
  : result ObjectIdentifier :=
  match unmarshalString data with
  | Err e => Err e
  | Ok s =>
      match parseObjectIdentifier s with
      | Err e => Err e
      | Ok oid => Ok oid
      end
  end.

(** ** [SerialNumber]: JSON form *)

Definition SerialNumber_UnmarshalJSON (data : JSON) : result SerialNumber.t :=
  match maybeString data with
  | Some sn =>
      (* base 0 accepts the prefixes 0b, 0o, 0x and defaults to base 10 *)
      match big.SetString sn with
      | None =>
          Err ("error unmarshaling json: serialNumber " ++ sn
               ++ " is not valid")%string
      | Some b => Ok (SerialNumber.mk b)
      end
  | None =>
      (* assume a number *)
      match json_Unmarshal_int64 data with
      | Err e => Err ("error unmarshaling json: " ++ e)%string
      | Ok i => Ok (SerialNumber.mk i)
      end
  end.

(** ** The SAN extension encoder *)

(** The value of an otherName: the [valueType] prefix of the SAN value, if
    any, selects the encoding of the rest; the [switch valueType] of
    [createSubjectAltNameExtension] with its two early returns and the
    [err != nil] check after it.  [sanType] is only used in messages. *)
Definition otherNameValueBytes (sanType value : string) : result bytes :=
  let valueType :=
    if strings.Contains value ";"
    then hd EmptyString (strings.Split value ";")
    else "printable" in
  let sanValue :=
    if strings.Contains value ";"
    then strings.slice_from (String.length valueType + 1) value
    else value in
  let checked (r : result bytes) : result bytes :=
    match r with
    | Ok rawBytes => Ok rawBytes
    | Err e => Err ("could not marshal ASN1 values: " ++ e)%string
    end in
  if String.eqb valueType "int" then
    match strconv.Atoi sanValue with
    | None =>
        Err ("invalid int value for int-typed SAN OtherName " ++ sanType)%string
    | Some i => checked (asn1.Marshal_int i)
    end
  else if String.eqb valueType "oid" then
    match parseObjectIdentifier sanValue with
    | Err _ =>
        Err ("invalid OID value for OID-typed SAN OtherName " ++ sanType)%string
    | Ok oidVal => checked (asn1.Marshal_oid oidVal)
    end
  else
    match asn1.stringParam valueType with
    | Some t =>
        (* "utf8", "ia5", "numeric", "printable" *)
        checked (asn1.MarshalWithParams_string sanValue t)
    | None =>
        (* unknown type: printable, with the entire value *)
        checked (asn1.MarshalWithParams_string value asn1.PrintableString)
    end.

(** [asn1.MarshalWithParams(otherName, "tag:N")]: a constructed element
    under the context-specific tag [N] holding the OID and, under the
    context-specific tag 0 of the struct tag, the value. *)
Definition marshal_OtherName (o : OtherName.t) (tag : Z) : result bytes :=
  match asn1.Marshal_oid (OtherName.OID o) with
  | Err e => Err e
  | Ok oidField =>
      let valueField :=
        asn1.tagged asn1.ClassContextSpecific 0 true
          (asn1.marshal_RawValue (OtherNameValue.V (OtherName.Value o))) in
      Ok (asn1.tagged asn1.ClassContextSpecific tag true
            (oidField ++ valueField))
  end.

(** A primitive context-specific [asn1.RawValue{Tag, Class: 2, Bytes}]. *)
Definition contextRaw (tag : Z) (b : bytes) : asn1.RawValue :=
  asn1.mkRawValue 2 tag false b [].

(** [asn1.RawValue{FullBytes}] *)
Definition fullRaw (b : bytes) : asn1.RawValue :=
  asn1.mkRawValue 0 0 false [] b.

(** A discarded error leaves the nil byte slice. *)
Definition ignore_err (r : result bytes) : bytes :=
  match r with Ok b => b | Err _ => [] end.

(** One pass of the loop over [allSANs]: the [switch san.Type], appending
    to [rawValues] or returning an error. *)
Definition encodeSAN (san : SubjectAlternativeName.t)
    (rawValues : list asn1.RawValue) : result (list asn1.RawValue) :=
  let type := SubjectAlternativeName.Type_ san in
  let value := SubjectAlternativeName.Value san in
  if String.eqb type EmailType then
    Ok (rawValues ++ [contextRaw nameTypeEmail (bytes_of_string value)])
  else if String.eqb type DNSType then
    Ok (rawValues ++ [contextRaw nameTypeDNS (bytes_of_string value)])
  else if String.eqb type X400AddressType
          || String.eqb type DirectoryNameType
          || String.eqb type EDIPartyNameType then
    Err ("unimplemented SAN type " ++ type)%string
  else if String.eqb type URIType then
    Ok (rawValues ++ [contextRaw nameTypeURI (bytes_of_string value)])
  else if String.eqb type IPType then
    match net.ParseIP value with
    | Some rawIP =>
        let ip := match net.To4 rawIP with Some ip4 => ip4 | None => rawIP end in
        Ok (rawValues ++ [contextRaw nameTypeIP ip])
    | None => Ok rawValues
    end
  else if String.eqb type RegisteredIDType then
    if negb (String.eqb value EmptyString) then
      match parseObjectIdentifier value with
      | Ok oid =>
          let rawBytes :=
            ignore_err (asn1.MarshalWithParams_oid_tag oid nameTypeRegisteredID) in
          Ok (rawValues ++ [fullRaw rawBytes])
      | Err _ => Ok rawValues
      end
    else Ok rawValues
  else
    if negb (String.eqb type EmptyString) then
      (* a type that is a valid OID is taken as an OtherName *)
      match parseObjectIdentifier type with
      | Ok oid =>
          match otherNameValueBytes type value with
          | Err e => Err e
          | Ok rawBytes =>
              let otherNameValue := fullRaw rawBytes in
              let otherName :=
                OtherName.mk oid (OtherNameValue.mk otherNameValue) in
              let generalNameBytes :=
                ignore_err (marshal_OtherName otherName nameTypeOtherName) in
              Ok (rawValues ++ [fullRaw generalNameBytes])
          end
      | Err _ => Err ("unsupported SAN type " ++ type)%string
      end
    else Ok rawValues.

(** The loop [for _, san := range allSANs]. *)
Fixpoint encodeSANs (allSANs : list SubjectAlternativeName.t)
    (rawValues : list asn1.RawValue) : result (list asn1.RawValue) :=
  match allSANs with
  | [] => Ok rawValues
  | san :: rest =>
      match encodeSAN san rawValues with
      | Err e => Err e
      | Ok rawValues' => encodeSANs rest rawValues'
      end
  end.

(** ** Functions over certificates

    [URL] stands for [*url.URL]; [url.Parse], [URL.String], [IP.String] and
    the package's own [SplitSANs] (defined in another file) are taken as
    they come: nothing below depends on what they compute. *)

Section X509Util.

Variable URL : Type.
Variable url_Parse : string -> option URL.
Variable URL_String : URL -> string.
Variable IP_String : net.IP -> string.
Variable SplitSANs :
  list string -> list string * list net.IP * list string * list URL.

(** The complete list built at the head of
    [createSubjectAltNameExtension]: the explicit SANs, then the DNS
    names, the email addresses, the URIs and the IP addresses. *)
Definition allSANs (c : Certificate.t URL) : list SubjectAlternativeName.t :=
  Certificate.SANs c
  ++ map (fun dnsName => SubjectAlternativeName.mk DNSType dnsName)
       (Certificate.DNSNames c)
  ++ map (fun emailAddress => SubjectAlternativeName.mk EmailType emailAddress)
       (Certificate.EmailAddresses c)
  ++ map (fun uri => SubjectAlternativeName.mk URIType (URL_String uri))
       (Certificate.URIs c)
  ++ map (fun ip => SubjectAlternativeName.mk IPType (IP_String ip))
       (Certificate.IPAddresses c).

Definition createSubjectAltNameExtension (c : Certificate.t URL)
  : result Extension.t :=
  match encodeSANs (allSANs c) [] with
  | Err e => Err e
  | Ok rawValues =>
      (* marshal the rawValues into the ASN1 sequence *)
      let rawBytes := asn1.Marshal_rawValues rawValues in
      Ok (Extension.mk subjectAlternativeNameOID false rawBytes)
  end.

(** [SubjectAlternativeName.Set]: the [switch strings.ToLower(s.Type)]. *)
Definition SubjectAlternativeName_Set (s : SubjectAlternativeName.t)
    (c : x509.Certificate URL) : outcome (x509.Certificate URL) :=
  let type := strings.ToLower (SubjectAlternativeName.Type_ s) in
  let value := SubjectAlternativeName.Value s in
  if String.eqb type DNSType then
    Returned (x509.set_DNSNames c (x509.DNSNames c ++ [value]))
  else if String.eqb type EmailType then
    Returned (x509.set_EmailAddresses c (x509.EmailAddresses c ++ [value]))
  else if String.eqb type IPType then
    match net.ParseIP value with
    | Some ip => Returned (x509.set_IPAddresses c (x509.IPAddresses c ++ [ip]))
    | None => Returned c
    end
  else if String.eqb type URIType then
    match url_Parse value with
    | Some u => Returned (x509.set_URIs c (x509.URIs c ++ [u]))
    | None => Returned c
    end
  else if String.eqb type EmptyString || String.eqb type AutoType then
    let '(dnsNames, ips, emails, uris) := SplitSANs [value] in
    let c := x509.set_DNSNames c (x509.DNSNames c ++ dnsNames) in
    let c := x509.set_IPAddresses c (x509.IPAddresses c ++ ips) in
    let c := x509.set_EmailAddresses c (x509.EmailAddresses c ++ emails) in
    Returned (x509.set_URIs c (x509.URIs c ++ uris))
  else
    Panicked ("unsupported subject alternative name type "
              ++ SubjectAlternativeName.Type_ s)%string.

(** [BasicConstraints.Set] *)
Definition BasicConstraints_Set (b : BasicConstraints.t)
    (c : x509.Certificate URL) : x509.Certificate URL :=
  let isCA := BasicConstraints.IsCA b in
  if isCA then
    if BasicConstraints.MaxPathLen b =? 0 then
      x509.set_BasicConstraints c true isCA 0 true
    else if BasicConstraints.MaxPathLen b <? 0 then
      x509.set_BasicConstraints c true isCA (-1) false
    else
      x509.set_BasicConstraints c true isCA (BasicConstraints.MaxPathLen b)
        false
  else
    x509.set_BasicConstraints c true isCA 0 false.

(** The entry appended for one value: the attribute's OID and the value's
    bytes in an [asn1.RawValue] with [Tag: asn1.TagIA5String]. *)
Definition attribute (oid : list Z) (v : string)
  : pkix.AttributeTypeAndValue :=
  pkix.mkAttributeTypeAndValue oid
    (asn1.mkRawValue 0 asn1.TagIA5String false (bytes_of_string v) []).

(** [for _, v := range values { ExtraNames = append(ExtraNames, ...) }] *)
Definition appendEach (oid : list Z) (values : list string)
    (extraNames : list pkix.AttributeTypeAndValue)
  : list pkix.AttributeTypeAndValue :=
  fold_left (fun names v => names ++ [attribute oid v]) values extraNames.

(** [if v != "" { ExtraNames = append(ExtraNames, ...) }] *)
Definition appendIfSet (oid : list Z) (v : string)
    (extraNames : list pkix.AttributeTypeAndValue)
  : list pkix.AttributeTypeAndValue :=
  if String.eqb v EmptyString then extraNames
  else extraNames ++ [attribute oid v].

(** [Subject.Set] *)
Definition Subject_Set (s : Subject.t) (c : x509.Certificate URL)
  : x509.Certificate URL :=
  let names := pkix.ExtraNames pkix.empty in
  let names := appendEach oidCountry (Name.Country s) names in
  let names := appendEach oidLocality (Name.Locality s) names in
  let names := appendEach oidProvince (Name.Province s) names in
  let names := appendEach oidStreetAddress (Name.StreetAddress s) names in
  let names := appendEach oidPostalCode (Name.PostalCode s) names in
  let names := appendEach oidOrganization (Name.Organization s) names in
  let names := appendEach oidDC (Name.DomainController s) names in
  let names :=
    appendEach oidOrganizationalUnit (Name.OrganizationalUnit s) names in
  let names := appendIfSet oidTitle (Name.Title s) names in
  let names := appendIfSet oidGivenName (Name.GivenName s) names in
  let names := appendIfSet oidSurname (Name.Surname s) names in
  let names := appendIfSet oidCommonName (Name.CommonName s) names in
  let names := appendIfSet oidSerialNumber (Name.SerialNumber s) names in
  let names := appendIfSet oidUID (Name.UID s) names in
  x509.set_Subject c (pkix.set_ExtraNames pkix.empty names).

End X509Util.

Arguments allSANs {URL}.
Arguments createSubjectAltNameExtension {URL}.
Arguments SubjectAlternativeName_Set {URL}.
Arguments BasicConstraints_Set {URL}.
Arguments Subject_Set {URL}.

(** ** Reference definitions used in the statements *)

(** The value of a digit byte in base [b], if it is one. *)
Definition base_digit (b : Z) (c : ascii) : option Z :=
  let d := big.digit_value c in if d <? b then Some d else None.

(** A string read strictly as a run of base-[b] digits. *)
Fixpoint digits_in_base (b : Z) (s : string) (acc : Z) : option Z :=
  match s with
  | EmptyString => Some acc
  | String c r =>
      match base_digit b c with
      | Some d => digits_in_base b r (acc * b + d)
      | None => None
      end
  end.

Definition parse_in_base (b : Z) (s : string) : option Z :=
  match s with
  | EmptyString => None
  | _ => digits_in_base b s 0
  end.

Definition is_one_of (c : ascii) (a b : ascii) : bool :=
  Ascii.eqb c a || Ascii.eqb c b.

(** Base selection as the SerialNumber textual form is described: a prefix
    [0b/0B], [0o/0O], [0x/0X] selects base 2, 8, 16; otherwise base 10. *)
Definition select_base_prefix_only (body : string) : Z * string :=
  match body with
  | String "0" (String c r) =>
      if is_one_of c "b" "B" then (2, r)
      else if is_one_of c "o" "O" then (8, r)
      else if is_one_of c "x" "X" then (16, r)
      else (10, body)
  | _ => (10, body)
  end.

(** Base selection as the decoder does it: as above, and a leading [0]
    followed by anything else selects base 8 for what follows it. *)
Definition select_base (body : string) : Z * string :=
  match body with
  | String "0" (String c r) =>
      if is_one_of c "b" "B" then (2, r)
      else if is_one_of c "o" "O" then (8, r)
      else if is_one_of c "x" "X" then (16, r)
      else (8, String c r)
  | _ => (10, body)
  end.

(** The integer a text denotes under a base selection: an optional sign,
    then digits of the selected base, and nothing else. *)
Definition text_value (select : string -> Z * string) (s : string)
  : option Z :=
  match s with
  | EmptyString => None
  | String c r =>
      let body := if is_one_of c "-" "+" then r else s in
      let (b, digits) := select body in
      match parse_in_base b digits with
      | Some v => Some (if Ascii.eqb c "-" then - v else v)
      | None => None
      end
  end.

(** The text a decoder input carries: the contents of a JSON string, the
    literal of a JSON number. *)
Definition json_text (data : JSON) : string :=
  match data with
  | JSONString s => s
  | JSONNumber literal => literal
  | _ => EmptyString
  end.

(** Whether a text begins with a minus sign. *)
Definition leading_minus (s : string) : bool :=
  match s with
  | String c _ => Ascii.eqb c "-"
  | EmptyString => false
  end.

(** The entries a scalar attribute contributes: one when it is set. *)
Definition present (oid : list Z) (v : string)
  : list pkix.AttributeTypeAndValue :=
  if String.eqb v EmptyString then [] else [attribute oid v].

(** An entry in the IA5String form: a primitive universal element under
    that tag, given by its contents. *)
Definition isIA5Entry (a : pkix.AttributeTypeAndValue) : Prop :=
  asn1.Tag (pkix.Value a) = asn1.TagIA5String
  /\ asn1.Class (pkix.Value a) = asn1.ClassUniversal
  /\ asn1.IsCompound (pkix.Value a) = false
  /\ asn1.FullBytes (pkix.Value a) = [].

(** A component of a dotted OID in canonical decimal: digits only, no
    superfluous leading zero, within the range of an [int]. *)
Definition canonical_component (p : string) : bool :=
  match p with
  | EmptyString => false
  | String "0" EmptyString => true
  | String "0" _ => false
  | _ =>
      match strconv.parse_digits p 0 with
      | Some n => n <=? maxInt
      | None => false
      end
  end.

(** A well-formed dotted OID: canonical components separated by dots. *)
Definition well_formed_oid (s : string) : bool :=
  forallb canonical_component (strings.Split s ".").

(** A valid [ObjectIdentifier]: not empty, every component a non-negative
    [int]. *)
Definition valid_oid (oid : ObjectIdentifier) : Prop :=
  oid <> [] /\ Forall (fun c => 0 <= c <= maxInt) oid.

(** The upper-case form of a lower-case ASCII letter. *)
Definition upper_byte (c : ascii) : ascii :=
  let n := N_of_ascii c in
  if ((97 <=? n) && (n <=? 122))%N then ascii_of_N (n - 32) else c.

(** Every spelling of [tag] in upper- and lower-case letters. *)
Fixpoint case_variants (tag : string) : list string :=
  match tag with
  | EmptyString => [EmptyString]
  | String c r =>
      flat_map (fun v => [String c v; String (upper_byte c) v])
        (case_variants r)
  end.

(** The types [SubjectAlternativeName.Set] knows, in lower case. *)
Definition setTypes : list string :=
  [DNSType; EmailType; IPType; URIType; EmptyString; AutoType].

(** The types [createSubjectAltNameExtension] has a case for. *)
Definition encoderTypes : list string :=
  [EmailType; DNSType; X400AddressType; DirectoryNameType; EDIPartyNameType;
   URIType; IPType; RegisteredIDType].

Definition string_in (s : string) (l : list string) : bool :=
  existsb (String.eqb s) l.

(** The GeneralName of an otherName: a constructed context-specific
    element 0 holding the OBJECT IDENTIFIER and, under a constructed
    context-specific tag 0, the value. *)
Definition otherNameDER (oidBody value : bytes) : bytes :=
  asn1.tagged 2 0 true
    (asn1.tagged 0 6 false oidBody ++ asn1.tagged 2 0 true value).

(** ** A concrete environment for examples: URLs are kept as their text. *)

Definition textURL : Type := string.
Definition textURL_Parse (s : string) : option textURL := Some s.
Definition textURL_String (u : textURL) : string := u.
Definition noIP_String (ip : net.IP) : string := EmptyString.
Definition dnsSplitSANs (sans : list string)
  : list string * list net.IP * list string * list textURL :=
  (sans, [], [], []).

Definition emptyName : Name.t :=
  Name.mk [] [] [] [] [] [] [] [] EmptyString EmptyString EmptyString
    EmptyString EmptyString EmptyString.

(** A template holding only explicit SANs. *)
Definition sansOnly (sans : list SubjectAlternativeName.t)
  : Certificate.t textURL :=
  Certificate.mk emptyName [] [] [] [] sans.

(** ** Further functions of the package *)

(** [strings.ReplaceAll(s, old, "")] for a one-byte [old]. *)
Fixpoint strings_remove (s : string) (old : ascii) : string :=
  match s with
  | EmptyString => EmptyString
  | String c r =>
      if Ascii.eqb c old then strings_remove r old
      else String c (strings_remove r old)
  end.

Definition convertName (s : string) : string :=
  strings_remove (strings.ToLower s) "_".

(** Names used for key usages. *)
Definition KeyUsageDigitalSignature : string := convertName "DigitalSignature".
Definition KeyUsageContentCommitment : string := convertName "ContentCommitment".
Definition KeyUsageKeyEncipherment : string := convertName "KeyEncipherment".
Definition KeyUsageDataEncipherment : string := convertName "DataEncipherment".
Definition KeyUsageKeyAgreement : string := convertName "KeyAgreement".
Definition KeyUsageCertSign : string := convertName "CertSign".
Definition KeyUsageCRLSign : string := convertName "CRLSign".
Definition KeyUsageEncipherOnly : string := convertName "EncipherOnly".
Definition KeyUsageDecipherOnly : string := convertName "DecipherOnly".

(** Names used for extended key usages. *)
Definition ExtKeyUsageAny : string := convertName "Any".
Definition ExtKeyUsageServerAuth : string := convertName "ServerAuth".
Definition ExtKeyUsageClientAuth : string := convertName "ClientAuth".
Definition ExtKeyUsageCodeSigning : string := convertName "CodeSigning".
Definition ExtKeyUsageEmailProtection : string :=
  convertName "EmailProtection".
Definition ExtKeyUsageIPSECEndSystem : string := convertName "IPSECEndSystem".
Definition ExtKeyUsageIPSECTunnel : string := convertName "IPSECTunnel".
Definition ExtKeyUsageIPSECUser : string := convertName "IPSECUser".
Definition ExtKeyUsageTimeStamping : string := convertName "TimeStamping".
Definition ExtKeyUsageOCSPSigning : string := convertName "OCSPSigning".
Definition ExtKeyUsageMicrosoftServerGatedCrypto : string :=
  convertName "MicrosoftServerGatedCrypto".
Definition ExtKeyUsageNetscapeServerGatedCrypto : string :=
  convertName "NetscapeServerGatedCrypto".
Definition ExtKeyUsageMicrosoftCommercialCodeSigning : string :=
  convertName "MicrosoftCommercialCodeSigning".
Definition ExtKeyUsageMicrosoftKernelCodeSigning : string :=
  convertName "MicrosoftKernelCodeSigning".

(** [x509.KeyUsage]: a bit per usage, [1 << iota]. *)
Module x509KeyUsage.
Definition DigitalSignature : Z := 1.
Definition ContentCommitment : Z := 2.
Definition KeyEncipherment : Z := 4.
Definition DataEncipherment : Z := 8.
Definition KeyAgreement : Z := 16.
Definition CertSign : Z := 32.
Definition CRLSign : Z := 64.
Definition EncipherOnly : Z := 128.
Definition DecipherOnly : Z := 256.
End x509KeyUsage.

(** [x509.ExtKeyUsage]: the usages numbered from 0, [iota]. *)
Module x509ExtKeyUsage.
Definition Any : Z := 0.
Definition ServerAuth : Z := 1.
Definition ClientAuth : Z := 2.
Definition CodeSigning : Z := 3.
Definition EmailProtection : Z := 4.
Definition IPSECEndSystem : Z := 5.
Definition IPSECTunnel : Z := 6.
Definition IPSECUser : Z := 7.
Definition TimeStamping : Z := 8.
Definition OCSPSigning : Z := 9.
Definition MicrosoftServerGatedCrypto : Z := 10.
Definition NetscapeServerGatedCrypto : Z := 11.
Definition MicrosoftCommercialCodeSigning : Z := 12.
Definition MicrosoftKernelCodeSigning : Z := 13.
End x509ExtKeyUsage.

(** The [switch convertName(s)] of [KeyUsage.UnmarshalJSON]; [None] is its
    [default] branch. *)
Definition KeyUsage_case (s : string) : option Z :=
  let name := convertName s in
  if String.eqb name KeyUsageDigitalSignature
  then Some x509KeyUsage.DigitalSignature
  else if String.eqb name KeyUsageContentCommitment
  then Some x509KeyUsage.ContentCommitment
  else if String.eqb name KeyUsageKeyEncipherment
  then Some x509KeyUsage.KeyEncipherment
  else if String.eqb name KeyUsageDataEncipherment
  then Some x509KeyUsage.DataEncipherment
  else if String.eqb name KeyUsageKeyAgreement
  then Some x509KeyUsage.KeyAgreement
  else if String.eqb name KeyUsageCertSign
  then Some x509KeyUsage.CertSign
  else if String.eqb name KeyUsageCRLSign
  then Some x509KeyUsage.CRLSign
  else if String.eqb name KeyUsageEncipherOnly
  then Some x509KeyUsage.EncipherOnly
  else if String.eqb name KeyUsageDecipherOnly
  then Some x509KeyUsage.DecipherOnly
  else None.

(** The loop of [KeyUsage.UnmarshalJSON] over the names: [k] is the
    receiver [*k]; the result is the receiver at the return and the error
    returned, if any. *)
Fixpoint KeyUsage_loop (ms : list string) (k : Z) : Z * option error :=
  match ms with
  | [] => (k, None)
  | s :: rest =>
      match KeyUsage_case s with
      | None => (k, Some ("unsupported keyUsage " ++ s)%string)
      | Some ku => KeyUsage_loop rest (Z.lor k ku)
      end
  end.

(** The [switch convertName(s)] of [ExtKeyUsage.UnmarshalJSON]. *)
Definition ExtKeyUsage_case (s : string) : option Z :=
  let name := convertName s in
  if String.eqb name ExtKeyUsageAny
  then Some x509ExtKeyUsage.Any
  else if String.eqb name ExtKeyUsageServerAuth
  then Some x509ExtKeyUsage.ServerAuth
  else if String.eqb name ExtKeyUsageClientAuth
  then Some x509ExtKeyUsage.ClientAuth
  else if String.eqb name ExtKeyUsageCodeSigning
  then Some x509ExtKeyUsage.CodeSigning
  else if String.eqb name ExtKeyUsageEmailProtection
  then Some x509ExtKeyUsage.EmailProtection
  else if String.eqb name ExtKeyUsageIPSECEndSystem
  then Some x509ExtKeyUsage.IPSECEndSystem
  else if String.eqb name ExtKeyUsageIPSECTunnel
  then Some x509ExtKeyUsage.IPSECTunnel
  else if String.eqb name ExtKeyUsageIPSECUser
  then Some x509ExtKeyUsage.IPSECUser
  else if String.eqb name ExtKeyUsageTimeStamping
  then Some x509ExtKeyUsage.TimeStamping
  else if String.eqb name ExtKeyUsageOCSPSigning
  then Some x509ExtKeyUsage.OCSPSigning
  else if String.eqb name ExtKeyUsageMicrosoftServerGatedCrypto
  then Some x509ExtKeyUsage.MicrosoftServerGatedCrypto
  else if String.eqb name ExtKeyUsageNetscapeServerGatedCrypto
  then Some x509ExtKeyUsage.NetscapeServerGatedCrypto
  else if String.eqb name ExtKeyUsageMicrosoftCommercialCodeSigning
  then Some x509ExtKeyUsage.MicrosoftCommercialCodeSigning
  else if String.eqb name ExtKeyUsageMicrosoftKernelCodeSigning
  then Some x509ExtKeyUsage.MicrosoftKernelCodeSigning
  else None.

(** The loop of [ExtKeyUsage.UnmarshalJSON] filling [eku], one usage per
    name; it returns at the first name it does not know. *)
Fixpoint ExtKeyUsage_loop (ms : list string) : result (list Z) :=
  match ms with
  | [] => Ok []
  | s :: rest =>
      match ExtKeyUsage_case s with
      | None => Err ("unsupported extKeyUsage " ++ s)%string
      | Some ku =>
          match ExtKeyUsage_loop rest with
          | Ok eku => Ok (ku :: eku)
          | Err e => Err e
          end
      end
  end.

(** The decoders that start from the JSON text.  [Data] stands for the
    bytes handed to [UnmarshalJSON]; [shape] is the JSON value they hold;
    [unmarshalMultiString] (defined in another file of the package) and
    [json.Unmarshal] into a [Name] are taken as they come. *)
Section Decoders.

Variable Data : Type.
Variable shape : Data -> JSON.
Variable unmarshalMultiString : Data -> result (list string).
Variable json_Unmarshal_Name : Data -> result Name.t.

(** [KeyUsage.UnmarshalJSON], with the receiver [*k] passed through. *)
Definition KeyUsage_UnmarshalJSON (k : Z) (data : Data) : Z * option error :=
  match unmarshalMultiString data with
  | Err e => (k, Some e)
  | Ok ms => KeyUsage_loop ms 0
  end.

(** [ExtKeyUsage.UnmarshalJSON]: the receiver is only written at the end. *)
Definition ExtKeyUsage_UnmarshalJSON (k : list Z) (data : Data)
  : list Z * option error :=
  match unmarshalMultiString data with
  | Err e => (k, Some e)
  | Ok ms =>
      match ExtKeyUsage_loop ms with
      | Err e => (k, Some e)
      | Ok eku => (eku, None)
      end
  end.

(** [OCSPServer.UnmarshalJSON], [IssuingCertificateURL.UnmarshalJSON] and
    [CRLDistributionPoints.UnmarshalJSON] have this one body. *)
Definition MultiString_UnmarshalJSON (o : list string) (data : Data)
  : list string * option error :=
  match unmarshalMultiString data with
  | Err e => (o, Some e)
  | Ok ms => (ms, None)
  end.

Definition set_CommonName (n : Name.t) (cn : string) : Name.t :=
  Name.mk (Name.Country n) (Name.Organization n) (Name.OrganizationalUnit n)
    (Name.DomainController n) (Name.Locality n) (Name.Province n)
    (Name.StreetAddress n) (Name.PostalCode n) (Name.SerialNumber n) cn
    (Name.Surname n) (Name.GivenName n) (Name.Title n) (Name.UID n).

(** [Name.UnmarshalJSON], with the receiver [*n] passed through: a JSON
    string is stored as the common name, anything else is decoded as an
    object into a fresh value that replaces the receiver. *)
Definition Name_UnmarshalJSON (n : Name.t) (data : Data)
  : Name.t * option error :=
  match maybeString (shape data) with
  | Some cn => (set_CommonName n cn, None)
  | None =>
      match json_Unmarshal_Name data with
      | Err e => (n, Some ("error unmarshaling json: " ++ e)%string)
      | Ok nn => (nn, None)
      end
  end.

(** [Subject.UnmarshalJSON]: decodes into a zero [Name]. *)
Definition Subject_UnmarshalJSON (s : Subject.t) (data : Data)
  : Subject.t * option error :=
  match Name_UnmarshalJSON emptyName data with
  | (_, Some e) => (s, Some e)
  | (name, None) => (name, None)
  end.

(** [Issuer.UnmarshalJSON]: the same for the issuer. *)
Definition Issuer_UnmarshalJSON (i : Name.t) (data : Data)
  : Name.t * option error :=
  match Name_UnmarshalJSON emptyName data with
  | (_, Some e) => (i, Some e)
  | (name, None) => (name, None)
  end.

End Decoders.

Arguments KeyUsage_UnmarshalJSON {Data}.
Arguments ExtKeyUsage_UnmarshalJSON {Data}.
Arguments MultiString_UnmarshalJSON {Data}.
Arguments Name_UnmarshalJSON {Data}.
Arguments Subject_UnmarshalJSON {Data}.
Arguments Issuer_UnmarshalJSON {Data}.

(** [newSubject] and [newIssuer]: the nine fields taken from a
    [pkix.Name]. *)
Definition newSubject (n : pkix.Name) : Subject.t :=
  Name.mk (pkix.Country n) (pkix.Organization n) (pkix.OrganizationalUnit n)
    [] (pkix.Locality n) (pkix.Province n) (pkix.StreetAddress n)
    (pkix.PostalCode n) (pkix.SerialNumber n) (pkix.CommonName n)
    EmptyString EmptyString EmptyString EmptyString.

Definition newIssuer (n : pkix.Name) : Name.t :=
  Name.mk (pkix.Country n) (pkix.Organization n) (pkix.OrganizationalUnit n)
    [] (pkix.Locality n) (pkix.Province n) (pkix.StreetAddress n)
    (pkix.PostalCode n) (pkix.SerialNumber n) (pkix.CommonName n)
    EmptyString EmptyString EmptyString EmptyString.

(** The [pkix.Name] that [Issuer.Set] stores in [c.Issuer]. *)
Definition Issuer_name (i : Name.t) : pkix.Name :=
  pkix.mkName (Name.Country i) (Name.Organization i)
    (Name.OrganizationalUnit i) (Name.Locality i) (Name.Province i)
    (Name.StreetAddress i) (Name.PostalCode i) (Name.SerialNumber i)
    (Name.CommonName i) [] [].

(** [big.Int.MarshalJSON] on a non-nil value: the decimal text of the
    number ([nat.itoa] in base 10), a minus sign first when it is negative.
    The number of binary digits bounds the number of decimal ones. *)
Definition big_Int_text (x : Z) : string :=
  let n := Z.abs x in
  let digits :=
    strconv.format_digits (S (Z.to_nat (Z.log2 n))) n EmptyString in
  if x <? 0 then String "-" digits else digits.

(** [SerialNumber.MarshalJSON]: [None] is the nil receiver, or a receiver
    whose [Int] is nil. *)
Definition SerialNumber_MarshalJSON (s : option SerialNumber.t)
  : result JSON :=
  match s with
  | None => Ok JSONNull
  | Some sn => Ok (JSONNumber (big_Int_text (SerialNumber.Int sn)))
  end.

(** [pkix.Extension] *)
Module pkixExtension.
Record t := mk {
  Id : asn1.ObjectIdentifier;
  Critical : bool;
  Value : bytes
}.
End pkixExtension.

Definition newExtension (e : pkixExtension.t) : Extension.t :=
  Extension.mk (pkixExtension.Id e) (pkixExtension.Critical e)
    (pkixExtension.Value e).

(** [newExtensions]: a nil slice stays nil, which the list model does not
    tell from the empty one. *)
Definition newExtensions (extensions : list pkixExtension.t)
  : list Extension.t :=
  map newExtension extensions.

(** The [pkix.Extension] that [Extension.Set] appends. *)
Definition Extension_pkix (e : Extension.t) : pkixExtension.t :=
  pkixExtension.mk (Extension.ID e) (Extension.Critical e) (Extension.Value e).

(** What one entry adds to the encoder's [rawValues]. *)
Definition sanValues (san : SubjectAlternativeName.t)
  : result (list asn1.RawValue) :=
  encodeSAN san [].

(** The values of a list of entries, in order, or the error of the first
    entry that has one. *)
Fixpoint sansValues (sans : list SubjectAlternativeName.t)
  : result (list asn1.RawValue) :=
  match sans with
  | [] => Ok []
  | san :: rest =>
      match sanValues san with
      | Err e => Err e
      | Ok added =>
          match sansValues rest with
          | Err e => Err e
          | Ok more => Ok (added ++ more)
          end
      end
  end.

(** Whether [SubjectAlternativeName.Set] has a case for the type. *)
Definition knownToSet (san : SubjectAlternativeName.t) : bool :=
  string_in (strings.ToLower (SubjectAlternativeName.Type_ san)) setTypes.

Definition isAutoType (san : SubjectAlternativeName.t) : bool :=
  let type := strings.ToLower (SubjectAlternativeName.Type_ san) in
  String.eqb type EmptyString || String.eqb type AutoType.

Definition hasType (tag : string) (san : SubjectAlternativeName.t) : bool :=
  String.eqb (strings.ToLower (SubjectAlternativeName.Type_ san)) tag.

(** ** The whole certificate *)

(** [*net.IPNet]: an address and a mask. *)
Definition IPNet : Type := (bytes * bytes)%type.

(** [NameConstraints] *)
Module NameConstraints.
Record t := mk {
  Critical : bool;
  PermittedDNSDomains : list string;
  ExcludedDNSDomains : list string;
  PermittedIPRanges : list IPNet;
  ExcludedIPRanges : list IPNet;
  PermittedEmailAddresses : list string;
  ExcludedEmailAddresses : list string;
  PermittedURIDomains : list string;
  ExcludedURIDomains : list string
}.
End NameConstraints.

(** [x509.Certificate] in full, as far as [GetCertificate] writes it: the
    fields of [x509.Certificate] above are kept in [base]; the nine
    name-constraint fields ([PermittedDNSDomainsCritical],
    [PermittedDNSDomains], ...) are kept together in [NameConstraints].
    [Key] stands for the public key, [None] for the nil interface. *)
Module x509cert.

Record constraintFields := mkConstraints {
  PermittedDNSDomainsCritical : bool;
  PermittedDNSDomains : list string;
  ExcludedDNSDomains : list string;
  PermittedIPRanges : list IPNet;
  ExcludedIPRanges : list IPNet;
  PermittedEmailAddresses : list string;
  ExcludedEmailAddresses : list string;
  PermittedURIDomains : list string;
  ExcludedURIDomains : list string
}.

Definition noConstraints : constraintFields :=
  mkConstraints false [] [] [] [] [] [] [] [].

Record Certificate {URL Key : Type} := mk {
  base : x509.Certificate URL;
  Issuer : pkix.Name;
  PublicKey : option Key;
  PublicKeyAlgorithm : Z;
  ExtraExtensions : list pkixExtension.t;
  KeyUsage : Z;
  ExtKeyUsage : list Z;
  UnknownExtKeyUsage : list asn1.ObjectIdentifier;
  SubjectKeyId : bytes;
  AuthorityKeyId : bytes;
  OCSPServer : list string;
  IssuingCertificateURL : list string;
  CRLDistributionPoints : list string;
  PolicyIdentifiers : list asn1.ObjectIdentifier;
  NameConstraints : constraintFields;
  SerialNumber : option Z;
  SignatureAlgorithm : Z
}.
Arguments Certificate : clear implicits.
Arguments mk {URL Key}.

(** [new(x509.Certificate)] *)
Definition new {URL Key : Type} : Certificate URL Key :=
  mk x509.new pkix.empty None 0 [] 0 [] [] [] [] [] [] [] [] noConstraints
    None 0.

Section Updates.
Context {URL Key : Type}.
Implicit Type c : Certificate URL Key.

Definition set_base c (x : x509.Certificate URL) : Certificate URL Key :=
  mk x (Issuer c) (PublicKey c) (PublicKeyAlgorithm c) (ExtraExtensions c)
    (KeyUsage c) (ExtKeyUsage c) (UnknownExtKeyUsage c) (SubjectKeyId c)
    (AuthorityKeyId c) (OCSPServer c) (IssuingCertificateURL c)
    (CRLDistributionPoints c) (PolicyIdentifiers c) (NameConstraints c)
    (SerialNumber c) (SignatureAlgorithm c).

Definition set_Issuer c (x : pkix.Name) : Certificate URL Key :=
  mk (base c) x (PublicKey c) (PublicKeyAlgorithm c) (ExtraExtensions c)
    (KeyUsage c) (ExtKeyUsage c) (UnknownExtKeyUsage c) (SubjectKeyId c)
    (AuthorityKeyId c) (OCSPServer c) (IssuingCertificateURL c)
    (CRLDistributionPoints c) (PolicyIdentifiers c) (NameConstraints c)
    (SerialNumber c) (SignatureAlgorithm c).

Definition set_PublicKey c (x : option Key) : Certificate URL Key :=
  mk (base c) (Issuer c) x (PublicKeyAlgorithm c) (ExtraExtensions c)
    (KeyUsage c) (ExtKeyUsage c) (UnknownExtKeyUsage c) (SubjectKeyId c)
    (AuthorityKeyId c) (OCSPServer c) (IssuingCertificateURL c)
    (CRLDistributionPoints c) (PolicyIdentifiers c) (NameConstraints c)
    (SerialNumber c) (SignatureAlgorithm c).

Definition set_PublicKeyAlgorithm c (x : Z) : Certificate URL Key :=
  mk (base c) (Issuer c) (PublicKey c) x (ExtraExtensions c) (KeyUsage c)
    (ExtKeyUsage c) (UnknownExtKeyUsage c) (SubjectKeyId c) (AuthorityKeyId
    c) (OCSPServer c) (IssuingCertificateURL c) (CRLDistributionPoints c)
    (PolicyIdentifiers c) (NameConstraints c) (SerialNumber c)
    (SignatureAlgorithm c).

Definition set_ExtraExtensions c (x : list pkixExtension.t) : Certificate URL Key :=
  mk (base c) (Issuer c) (PublicKey c) (PublicKeyAlgorithm c) x (KeyUsage
    c) (ExtKeyUsage c) (UnknownExtKeyUsage c) (SubjectKeyId c)
    (AuthorityKeyId c) (OCSPServer c) (IssuingCertificateURL c)
    (CRLDistributionPoints c) (PolicyIdentifiers c) (NameConstraints c)
    (SerialNumber c) (SignatureAlgorithm c).

Definition set_KeyUsage c (x : Z) : Certificate URL Key :=
  mk (base c) (Issuer c) (PublicKey c) (PublicKeyAlgorithm c)
    (ExtraExtensions c) x (ExtKeyUsage c) (UnknownExtKeyUsage c)
    (SubjectKeyId c) (AuthorityKeyId c) (OCSPServer c)
    (IssuingCertificateURL c) (CRLDistributionPoints c) (PolicyIdentifiers
    c) (NameConstraints c) (SerialNumber c) (SignatureAlgorithm c).

Definition set_ExtKeyUsage c (x : list Z) : Certificate URL Key :=
  mk (base c) (Issuer c) (PublicKey c) (PublicKeyAlgorithm c)
    (ExtraExtensions c) (KeyUsage c) x (UnknownExtKeyUsage c) (SubjectKeyId
    c) (AuthorityKeyId c) (OCSPServer c) (IssuingCertificateURL c)
    (CRLDistributionPoints c) (PolicyIdentifiers c) (NameConstraints c)
    (SerialNumber c) (SignatureAlgorithm c).

Definition set_UnknownExtKeyUsage c (x : list asn1.ObjectIdentifier) : Certificate URL Key :=
  mk (base c) (Issuer c) (PublicKey c) (PublicKeyAlgorithm c)
    (ExtraExtensions c) (KeyUsage c) (ExtKeyUsage c) x (SubjectKeyId c)
    (AuthorityKeyId c) (OCSPServer c) (IssuingCertificateURL c)
    (CRLDistributionPoints c) (PolicyIdentifiers c) (NameConstraints c)
    (SerialNumber c) (SignatureAlgorithm c).

Definition set_SubjectKeyId c (x : bytes) : Certificate URL Key :=
  mk (base c) (Issuer c) (PublicKey c) (PublicKeyAlgorithm c)
    (ExtraExtensions c) (KeyUsage c) (ExtKeyUsage c) (UnknownExtKeyUsage c)
    x (AuthorityKeyId c) (OCSPServer c) (IssuingCertificateURL c)
    (CRLDistributionPoints c) (PolicyIdentifiers c) (NameConstraints c)
    (SerialNumber c) (SignatureAlgorithm c).

Definition set_AuthorityKeyId c (x : bytes) : Certificate URL Key :=
  mk (base c) (Issuer c) (PublicKey c) (PublicKeyAlgorithm c)
    (ExtraExtensions c) (KeyUsage c) (ExtKeyUsage c) (UnknownExtKeyUsage c)
    (SubjectKeyId c) x (OCSPServer c) (IssuingCertificateURL c)
    (CRLDistributionPoints c) (PolicyIdentifiers c) (NameConstraints c)
    (SerialNumber c) (SignatureAlgorithm c).

Definition set_OCSPServer c (x : list string) : Certificate URL Key :=
  mk (base c) (Issuer c) (PublicKey c) (PublicKeyAlgorithm c)
    (ExtraExtensions c) (KeyUsage c) (ExtKeyUsage c) (UnknownExtKeyUsage c)
    (SubjectKeyId c) (AuthorityKeyId c) x (IssuingCertificateURL c)
    (CRLDistributionPoints c) (PolicyIdentifiers c) (NameConstraints c)
    (SerialNumber c) (SignatureAlgorithm c).

Definition set_IssuingCertificateURL c (x : list string) : Certificate URL Key :=
  mk (base c) (Issuer c) (PublicKey c) (PublicKeyAlgorithm c)
    (ExtraExtensions c) (KeyUsage c) (ExtKeyUsage c) (UnknownExtKeyUsage c)
    (SubjectKeyId c) (AuthorityKeyId c) (OCSPServer c) x
    (CRLDistributionPoints c) (PolicyIdentifiers c) (NameConstraints c)
    (SerialNumber c) (SignatureAlgorithm c).

Definition set_CRLDistributionPoints c (x : list string) : Certificate URL Key :=
  mk (base c) (Issuer c) (PublicKey c) (PublicKeyAlgorithm c)
    (ExtraExtensions c) (KeyUsage c) (ExtKeyUsage c) (UnknownExtKeyUsage c)
    (SubjectKeyId c) (AuthorityKeyId c) (OCSPServer c)
    (IssuingCertificateURL c) x (PolicyIdentifiers c) (NameConstraints c)
    (SerialNumber c) (SignatureAlgorithm c).

Definition set_PolicyIdentifiers c (x : list asn1.ObjectIdentifier) : Certificate URL Key :=
  mk (base c) (Issuer c) (PublicKey c) (PublicKeyAlgorithm c)
    (ExtraExtensions c) (KeyUsage c) (ExtKeyUsage c) (UnknownExtKeyUsage c)
    (SubjectKeyId c) (AuthorityKeyId c) (OCSPServer c)
    (IssuingCertificateURL c) (CRLDistributionPoints c) x (NameConstraints
    c) (SerialNumber c) (SignatureAlgorithm c).

Definition set_NameConstraints c (x : constraintFields) : Certificate URL Key :=
  mk (base c) (Issuer c) (PublicKey c) (PublicKeyAlgorithm c)
    (ExtraExtensions c) (KeyUsage c) (ExtKeyUsage c) (UnknownExtKeyUsage c)
    (SubjectKeyId c) (AuthorityKeyId c) (OCSPServer c)
    (IssuingCertificateURL c) (CRLDistributionPoints c) (PolicyIdentifiers
    c) x (SerialNumber c) (SignatureAlgorithm c).

Definition set_SerialNumber c (x : option Z) : Certificate URL Key :=
  mk (base c) (Issuer c) (PublicKey c) (PublicKeyAlgorithm c)
    (ExtraExtensions c) (KeyUsage c) (ExtKeyUsage c) (UnknownExtKeyUsage c)
    (SubjectKeyId c) (AuthorityKeyId c) (OCSPServer c)
    (IssuingCertificateURL c) (CRLDistributionPoints c) (PolicyIdentifiers
    c) (NameConstraints c) x (SignatureAlgorithm c).

Definition set_SignatureAlgorithm c (x : Z) : Certificate URL Key :=
  mk (base c) (Issuer c) (PublicKey c) (PublicKeyAlgorithm c)
    (ExtraExtensions c) (KeyUsage c) (ExtKeyUsage c) (UnknownExtKeyUsage c)
    (SubjectKeyId c) (AuthorityKeyId c) (OCSPServer c)
    (IssuingCertificateURL c) (CRLDistributionPoints c) (PolicyIdentifiers
    c) (NameConstraints c) (SerialNumber c) x.
End Updates.

End x509cert.

(** The fields of the template [Certificate] beside those of
    [Certificate.t].  [SigAlg] stands for the package's
    [SignatureAlgorithm] type, declared in another file. *)
Module CertificateFields.
Record t {Key SigAlg : Type} := mk {
  Version : Z;
  Issuer : Name.t;
  SerialNumber : option SerialNumber.t;
  Extensions : list Extension.t;
  KeyUsage : Z;
  ExtKeyUsage : list Z;
  UnknownExtKeyUsage : list ObjectIdentifier;
  SubjectKeyID : bytes;
  AuthorityKeyID : bytes;
  OCSPServer : list string;
  IssuingCertificateURL : list string;
  CRLDistributionPoints : list string;
  PolicyIdentifiers : list ObjectIdentifier;
  BasicConstraints : option BasicConstraints.t;
  NameConstraints : option NameConstraints.t;
  SignatureAlgorithm : SigAlg;
  PublicKeyAlgorithm : Z;
  PublicKey : option Key
}.
Arguments t : clear implicits.
Arguments mk {Key SigAlg}.
End CertificateFields.

Section Assembly.

Variable URL : Type.
Variable Key : Type.
Variable SigAlg : Type.
Variable url_Parse : string -> option URL.
Variable SplitSANs :
  list string -> list string * list net.IP * list string * list URL.

(** [SignatureAlgorithm.Set] is defined in another file of the package. *)
Variable SignatureAlgorithm_Set :
  SigAlg -> x509cert.Certificate URL Key -> x509cert.Certificate URL Key.

Let cert : Type := x509cert.Certificate URL Key.

(** A function over the fields kept in [base], on the whole certificate. *)
Definition onBase (f : x509.Certificate URL -> x509.Certificate URL)
    (c : cert) : cert :=
  x509cert.set_base c (f (x509cert.base c)).

(** [Extension.Set] *)
Definition Extension_Set (e : Extension.t) (c : cert) : cert :=
  x509cert.set_ExtraExtensions c
    (x509cert.ExtraExtensions c ++ [Extension_pkix e]).

(** [KeyUsage.Set] *)
Definition KeyUsage_Set (k : Z) (c : cert) : cert :=
  x509cert.set_KeyUsage c k.

(** [ExtKeyUsage.Set] *)
Definition ExtKeyUsage_Set (k : list Z) (c : cert) : cert :=
  x509cert.set_ExtKeyUsage c k.

(** [UnknownExtKeyUsage.Set] *)
Definition UnknownExtKeyUsage_Set (u : list ObjectIdentifier) (c : cert)
  : cert :=
  x509cert.set_UnknownExtKeyUsage c u.

(** [SubjectKeyID.Set] *)
Definition SubjectKeyID_Set (id : bytes) (c : cert) : cert :=
  x509cert.set_SubjectKeyId c id.

(** [AuthorityKeyID.Set] *)
Definition AuthorityKeyID_Set (id : bytes) (c : cert) : cert :=
  x509cert.set_AuthorityKeyId c id.

(** [OCSPServer.Set] *)
Definition OCSPServer_Set (o : list string) (c : cert) : cert :=
  x509cert.set_OCSPServer c o.

(** [IssuingCertificateURL.Set] *)
Definition IssuingCertificateURL_Set (u : list string) (c : cert) : cert :=
  x509cert.set_IssuingCertificateURL c u.

(** [CRLDistributionPoints.Set] *)
Definition CRLDistributionPoints_Set (u : list string) (c : cert) : cert :=
  x509cert.set_CRLDistributionPoints c u.

(** [PolicyIdentifiers.Set] *)
Definition PolicyIdentifiers_Set (p : list ObjectIdentifier) (c : cert)
  : cert :=
  x509cert.set_PolicyIdentifiers c p.

(** [NameConstraints.Set] *)
Definition NameConstraints_Set (n : NameConstraints.t) (c : cert) : cert :=
  x509cert.set_NameConstraints c
    (x509cert.mkConstraints (NameConstraints.Critical n)
       (NameConstraints.PermittedDNSDomains n)
       (NameConstraints.ExcludedDNSDomains n)
       (NameConstraints.PermittedIPRanges n)
       (NameConstraints.ExcludedIPRanges n)
       (NameConstraints.PermittedEmailAddresses n)
       (NameConstraints.ExcludedEmailAddresses n)
       (NameConstraints.PermittedURIDomains n)
       (NameConstraints.ExcludedURIDomains n)).

(** [SerialNumber.Set]: [None] is a serial number whose [Int] is nil. *)
Definition SerialNumber_Set (s : option SerialNumber.t) (c : cert) : cert :=
  x509cert.set_SerialNumber c
    match s with
    | Some sn => Some (SerialNumber.Int sn)
    | None => None
    end.

(** [Issuer.Set] *)
Definition Issuer_Set (i : Name.t) (c : cert) : cert :=
  x509cert.set_Issuer c (Issuer_name i).

(** The loop [for _, san := range c.SANs { san.Set(cert) }]; a panic ends
    it. *)
Fixpoint setSANs (sans : list SubjectAlternativeName.t)
    (c : x509.Certificate URL) : outcome (x509.Certificate URL) :=
  match sans with
  | [] => Returned c
  | san :: rest =>
      match SubjectAlternativeName_Set url_Parse SplitSANs san c with
      | Panicked msg => Panicked msg
      | Returned c' => setSANs rest c'
      end
  end.

(** The loop [for _, e := range c.Extensions { e.Set(cert) }]. *)
Definition setExtensions (extensions : list Extension.t) (c : cert) : cert :=
  fold_left (fun c e => Extension_Set e c) extensions c.

(** [Certificate.GetCertificate], on the two parts of the template. *)
Definition GetCertificate (t : Certificate.t URL)
    (f : CertificateFields.t Key SigAlg) : outcome cert :=
  let c := x509cert.new in
  (* unparsed data *)
  let c := x509cert.set_PublicKey c (CertificateFields.PublicKey f) in
  let c :=
    x509cert.set_PublicKeyAlgorithm c (CertificateFields.PublicKeyAlgorithm f) in
  (* SANs are directly converted *)
  let c := onBase (fun b => x509.set_DNSNames b (Certificate.DNSNames t)) c in
  let c :=
    onBase (fun b => x509.set_EmailAddresses b (Certificate.EmailAddresses t))
      c in
  let c :=
    onBase (fun b => x509.set_IPAddresses b (Certificate.IPAddresses t)) c in
  let c := onBase (fun b => x509.set_URIs b (Certificate.URIs t)) c in
  (* SANs slice *)
  match setSANs (Certificate.SANs t) (x509cert.base c) with
  | Panicked msg => Panicked msg
  | Returned b =>
      let c := x509cert.set_base c b in
      (* subject *)
      let c := onBase (Subject_Set (Certificate.Subject t)) c in
      (* defined extensions *)
      let c := KeyUsage_Set (CertificateFields.KeyUsage f) c in
      let c := ExtKeyUsage_Set (CertificateFields.ExtKeyUsage f) c in
      let c :=
        UnknownExtKeyUsage_Set (CertificateFields.UnknownExtKeyUsage f) c in
      let c := SubjectKeyID_Set (CertificateFields.SubjectKeyID f) c in
      let c := AuthorityKeyID_Set (CertificateFields.AuthorityKeyID f) c in
      let c := OCSPServer_Set (CertificateFields.OCSPServer f) c in
      let c :=
        IssuingCertificateURL_Set (CertificateFields.IssuingCertificateURL f)
          c in
      let c :=
        CRLDistributionPoints_Set (CertificateFields.CRLDistributionPoints f)
          c in
      let c :=
        PolicyIdentifiers_Set (CertificateFields.PolicyIdentifiers f) c in
      let c :=
        match CertificateFields.BasicConstraints f with
        | Some b => onBase (BasicConstraints_Set b) c
        | None => c
        end in
      let c :=
        match CertificateFields.NameConstraints f with
        | Some n => NameConstraints_Set n c
        | None => c
        end in
      (* custom extensions *)
      let c := setExtensions (CertificateFields.Extensions f) c in
      (* others *)
      let c := SerialNumber_Set (CertificateFields.SerialNumber f) c in
      Returned (SignatureAlgorithm_Set (CertificateFields.SignatureAlgorithm f)
                  c)
  end.

(** What one entry of the SAN list adds to each of the four lists of the
    certificate when [SubjectAlternativeName.Set] returns. *)
Definition sanDNSNames (san : SubjectAlternativeName.t) : list string :=
  if hasType DNSType san then [SubjectAlternativeName.Value san]
  else if isAutoType san
  then let '(dnsNames, _, _, _) :=
         SplitSANs [SubjectAlternativeName.Value san] in dnsNames
  else [].

Definition sanEmailAddresses (san : SubjectAlternativeName.t) : list string :=
  if hasType EmailType san then [SubjectAlternativeName.Value san]
  else if isAutoType san
  then let '(_, _, emails, _) :=
         SplitSANs [SubjectAlternativeName.Value san] in emails
  else [].

Definition sanIPAddresses (san : SubjectAlternativeName.t) : list net.IP :=
  if hasType IPType san then
    match net.ParseIP (SubjectAlternativeName.Value san) with
    | Some ip => [ip]
    | None => []
    end
  else if isAutoType san
  then let '(_, ips, _, _) :=
         SplitSANs [SubjectAlternativeName.Value san] in ips
  else [].

Definition sanURIs (san : SubjectAlternativeName.t) : list URL :=
  if hasType URIType san then
    match url_Parse (SubjectAlternativeName.Value san) with
    | Some u => [u]
    | None => []
    end
  else if isAutoType san
  then let '(_, _, _, uris) :=
         SplitSANs [SubjectAlternativeName.Value san] in uris
  else [].

End Assembly.

Arguments onBase {URL Key}.
Arguments Extension_Set {URL Key}.
Arguments KeyUsage_Set {URL Key}.
Arguments NameConstraints_Set {URL Key}.
Arguments SerialNumber_Set {URL Key}.
Arguments Issuer_Set {URL Key}.
Arguments setSANs {URL}.
Arguments setExtensions {URL Key}.
Arguments GetCertificate {URL Key SigAlg}.
Arguments sanDNSNames {URL}.
Arguments sanEmailAddresses {URL}.
Arguments sanIPAddresses {URL}.
Arguments sanURIs {URL}.

(** A concrete environment for examples: keys and signature algorithms
    are numbers, and the signature algorithm is stored as it is. *)
Definition storeSignatureAlgorithm (s : Z)
    (c : x509cert.Certificate textURL Z) : x509cert.Certificate textURL Z :=
  x509cert.set_SignatureAlgorithm c s.

Definition noFields : CertificateFields.t Z Z :=
  CertificateFields.mk 0 emptyName None [] 0 [] [] [] [] [] [] [] [] None None
    0 0 None.

(** A text whose first byte is a decimal digit. *)
Definition starts_with_digit (s : string) : Prop :=
  exists d r, s = String (strconv.digit_char d) r /\ 0 <= d <= 9.

(** * Properties *)

Example SetString_examples :
  big.SetString "0x10" = Some 16 /\ big.SetString "0b101" = Some 5 /\
  big.SetString "0o17" = Some 15 /\ big.SetString "10" = Some 10 /\
  big.SetString "017" = Some 15 /\ big.SetString "08" = None /\
  big.SetString "-5" = Some (-5) /\ big.SetString "1_000" = Some 1000 /\
  big.SetString "0" = Some 0 /\ big.SetString "0x" = None /\
  big.SetString "" = None /\ big.SetString "1_" = None /\
  big.SetString "0_7" = Some 7 /\ big.SetString "12a" = None.
Proof. repeat split; reflexivity. Qed.
Example Atoi_examples :
  strconv.Atoi "42" = Some 42 /\ strconv.Atoi "-42" = Some (-42) /\
  strconv.Atoi "+7" = Some 7 /\ strconv.Atoi "" = None /\
  strconv.Atoi "-" = None /\ strconv.Atoi "4;2" = None /\
  strconv.Atoi "9223372036854775808" = None /\
  strconv.Atoi "-9223372036854775808" = Some minInt /\
  strconv.FormatInt 19200300 = "19200300" /\ strconv.FormatInt 0 = "0".
Proof. repeat split; reflexivity. Qed.
Example ParseIP_examples :
  net.ParseIP "192.0.2.1" = Some [0;0;0;0;0;0;0;0;0;0;255;255;192;0;2;1] /\
  net.ParseIP "2001:db8::68" = Some [32;1;13;184;0;0;0;0;0;0;0;0;0;0;0;104] /\
  net.ParseIP "::ffff:192.0.2.1"
    = Some [0;0;0;0;0;0;0;0;0;0;255;255;192;0;2;1] /\
  net.ParseIP "::" = Some (repeat 0 16) /\
  net.ParseIP "1:2:3:4:5:6:7:8" = Some [0;1;0;2;0;3;0;4;0;5;0;6;0;7;0;8] /\
  net.ParseIP "1:2:3:4:5:6:7::" = Some [0;1;0;2;0;3;0;4;0;5;0;6;0;7;0;0] /\
  net.ParseIP "not-an-ip" = None /\ net.ParseIP "1.2.3" = None /\
  net.ParseIP "1.2.3.04" = None /\ net.ParseIP "256.1.1.1" = None /\
  net.ParseIP "fe80::1%eth0" = None /\ net.ParseIP "1:2:3:4:5:6:7:8::" = None /\
  net.ParseIP "1::2::3" = None /\ net.ParseIP "" = None /\
  net.ParseIP "12345::" = None /\ net.ParseIP "1:2:3:4:5:6:7:8:9" = None.
Proof. repeat split; reflexivity. Qed.
Example asn1_examples :
  asn1.Marshal_int 42 = Ok [2; 1; 42] /\
  asn1.Marshal_int 128 = Ok [2; 2; 0; 128] /\
  asn1.Marshal_int (-129) = Ok [2; 2; 255; 127] /\
  asn1.Marshal_int 0 = Ok [2; 1; 0] /\
  asn1.Marshal_int (-1) = Ok [2; 1; 255] /\
  asn1.Marshal_int 256 = Ok [2; 2; 1; 0] /\
  asn1.Marshal_oid [1; 2; 3; 4] = Ok [6; 3; 42; 3; 4] /\
  asn1.Marshal_oid [2; 5; 29; 17] = Ok [6; 3; 85; 29; 17] /\
  asn1.Marshal_oid [1; 2; 840; 113549] = Ok [6; 6; 42; 134; 72; 134; 247; 13] /\
  asn1.Marshal_oid [1] = Err "asn1: structure error: invalid object identifier" /\
  asn1.MarshalWithParams_string "ab" asn1.PrintableString = Ok [19; 2; 97; 98] /\
  asn1.appendTagAndLength 0 16 300 true = [48; 130; 1; 44] /\
  asn1.Marshal_rawValues [] = [48; 0].
Proof. repeat split; reflexivity. Qed.

(** ** BasicConstraints *)

(** C4. [BasicConstraints.Set]: when [isCA] is false the certificate gets
    [MaxPathLen] 0 and [MaxPathLenZero] false whatever the input
    [maxPathLen]; when [isCA] is true, [maxPathLen == 0] gives 0 with the
    flag set, [maxPathLen < 0] gives -1 with the flag cleared, and
    [maxPathLen > 0] is used as it is with the flag cleared. *)
Theorem BasicConstraints_Set_policy :
  forall (URL : Type) (b : BasicConstraints.t) (c : x509.Certificate URL),
    let c' := BasicConstraints_Set b c in
    (BasicConstraints.IsCA b = false ->
       x509.MaxPathLen c' = 0 /\ x509.MaxPathLenZero c' = false) /\
    (BasicConstraints.IsCA b = true -> BasicConstraints.MaxPathLen b = 0 ->
       x509.MaxPathLen c' = 0 /\ x509.MaxPathLenZero c' = true) /\
    (BasicConstraints.IsCA b = true -> BasicConstraints.MaxPathLen b < 0 ->
       x509.MaxPathLen c' = -1 /\ x509.MaxPathLenZero c' = false) /\
    (BasicConstraints.IsCA b = true -> 0 < BasicConstraints.MaxPathLen b ->
       x509.MaxPathLen c' = BasicConstraints.MaxPathLen b
       /\ x509.MaxPathLenZero c' = false).
Proof.
  intros URL [isCA maxPathLen] c; unfold BasicConstraints_Set; simpl.
  repeat split; intros; subst; simpl; try reflexivity.
  - destruct (Z.eqb_spec maxPathLen 0); [lia|].
    destruct (Z.ltb_spec maxPathLen 0); [reflexivity | lia].
  - destruct (Z.eqb_spec maxPathLen 0); [lia|].
    destruct (Z.ltb_spec maxPathLen 0); [reflexivity | lia].
  - destruct (Z.eqb_spec maxPathLen 0); [lia|].
    destruct (Z.ltb_spec maxPathLen 0); [lia | reflexivity].
  - destruct (Z.eqb_spec maxPathLen 0); [lia|].
    destruct (Z.ltb_spec maxPathLen 0); [lia | reflexivity].
Qed.

Lemma BasicConstraints_Set_policy_witness :
  let set b := BasicConstraints_Set b (@x509.new textURL) in
  (x509.MaxPathLen (set (BasicConstraints.mk true 0)) = 0
   /\ x509.MaxPathLenZero (set (BasicConstraints.mk true 0)) = true) /\
  (x509.MaxPathLen (set (BasicConstraints.mk true (-1))) = -1
   /\ x509.MaxPathLenZero (set (BasicConstraints.mk true (-1))) = false) /\
  (x509.MaxPathLen (set (BasicConstraints.mk false 5)) = 0
   /\ x509.MaxPathLenZero (set (BasicConstraints.mk false 5)) = false) /\
  (x509.MaxPathLen (set (BasicConstraints.mk true 3)) = 3
   /\ x509.MaxPathLenZero (set (BasicConstraints.mk true 3)) = false).
Proof.
  intro set.
  pose proof (BasicConstraints_Set_policy textURL (BasicConstraints.mk true 0)
                x509.new) as (_ & Zero & _ & _).
  pose proof (BasicConstraints_Set_policy textURL
                (BasicConstraints.mk true (-1)) x509.new) as (_ & _ & Neg & _).
  pose proof (BasicConstraints_Set_policy textURL (BasicConstraints.mk false 5)
                x509.new) as (NotCA & _ & _ & _).
  pose proof (BasicConstraints_Set_policy textURL (BasicConstraints.mk true 3)
                x509.new) as (_ & _ & _ & Pos).
  split; [apply Zero; reflexivity|].
  split; [apply Neg; [reflexivity | simpl; lia]|].
  split; [apply NotCA; reflexivity|].
  apply Pos; [reflexivity | simpl; lia].
Defined.

(** ** The Subject projection *)

Lemma appendEach_app :
  forall oid values names,
    appendEach oid values names = names ++ map (attribute oid) values.
Proof.
  intros oid values; unfold appendEach.
  induction values as [|v values IH]; intro names; simpl.
  - now rewrite app_nil_r.
  - rewrite IH, <- app_assoc. reflexivity.
Qed.

Lemma appendIfSet_app :
  forall oid v names, appendIfSet oid v names = names ++ present oid v.
Proof.
  intros oid v names; unfold appendIfSet, present.
  destruct (String.eqb v EmptyString); [now rewrite app_nil_r | reflexivity].
Qed.

Lemma Forall_map_attribute :
  forall oid values, Forall isIA5Entry (map (attribute oid) values).
Proof.
  intros oid values; induction values; simpl; constructor; auto.
  repeat split.
Qed.

Lemma Forall_present : forall oid v, Forall isIA5Entry (present oid v).
Proof.
  intros oid v; unfold present.
  destruct (String.eqb v EmptyString); repeat constructor.
Qed.

(** C7. [Subject.Set] replaces the certificate's subject by a name whose
    attribute sequence holds one entry per value, in the order country,
    locality, province, streetAddress, postalCode, organization,
    domainController, organizationalUnit, title, givenName, surname,
    commonName, serialNumber, userID; a multi-valued attribute gives one
    entry per value in input order, a scalar attribute one entry when it is
    not the empty string; every entry carries the value's bytes under the
    IA5String tag. *)
Theorem Subject_Set_entries :
  forall (URL : Type) (s : Subject.t) (c : x509.Certificate URL),
    let entries := pkix.ExtraNames (x509.Subject (Subject_Set s c)) in
    entries =
      map (attribute oidCountry) (Name.Country s)
      ++ map (attribute oidLocality) (Name.Locality s)
      ++ map (attribute oidProvince) (Name.Province s)
      ++ map (attribute oidStreetAddress) (Name.StreetAddress s)
      ++ map (attribute oidPostalCode) (Name.PostalCode s)
      ++ map (attribute oidOrganization) (Name.Organization s)
      ++ map (attribute oidDC) (Name.DomainController s)
      ++ map (attribute oidOrganizationalUnit) (Name.OrganizationalUnit s)
      ++ present oidTitle (Name.Title s)
      ++ present oidGivenName (Name.GivenName s)
      ++ present oidSurname (Name.Surname s)
      ++ present oidCommonName (Name.CommonName s)
      ++ present oidSerialNumber (Name.SerialNumber s)
      ++ present oidUID (Name.UID s)
    /\ Forall isIA5Entry entries
    /\ (forall oid v, pkix.Type_ (attribute oid v) = oid
                      /\ asn1.Bytes (pkix.Value (attribute oid v))
                         = bytes_of_string v).
Proof.
  intros URL s c entries.
  assert (E : entries =
      map (attribute oidCountry) (Name.Country s)
      ++ map (attribute oidLocality) (Name.Locality s)
      ++ map (attribute oidProvince) (Name.Province s)
      ++ map (attribute oidStreetAddress) (Name.StreetAddress s)
      ++ map (attribute oidPostalCode) (Name.PostalCode s)
      ++ map (attribute oidOrganization) (Name.Organization s)
      ++ map (attribute oidDC) (Name.DomainController s)
      ++ map (attribute oidOrganizationalUnit) (Name.OrganizationalUnit s)
      ++ present oidTitle (Name.Title s)
      ++ present oidGivenName (Name.GivenName s)
      ++ present oidSurname (Name.Surname s)
      ++ present oidCommonName (Name.CommonName s)
      ++ present oidSerialNumber (Name.SerialNumber s)
      ++ present oidUID (Name.UID s)).
  { subst entries; unfold Subject_Set; simpl.
    rewrite !appendIfSet_app, !appendEach_app; simpl.
    rewrite <- !app_assoc. reflexivity. }
  split; [exact E|]. split.
  - rewrite E.
    repeat (apply Forall_app; split);
      auto using Forall_map_attribute, Forall_present.
  - intros; split; reflexivity.
Qed.

(** ** [SubjectAlternativeName.Set] on a type it does not know *)

(** C1, as the code has it.  For every entry with an ASCII type whose
    lower-case form is none of [dns], [email], [ip], [uri], [auto] and the
    empty string, [SubjectAlternativeName.Set] returns nothing: it panics
    with the message "unsupported subject alternative name type <type>". *)
Theorem SubjectAlternativeName_Set_unknown_type_panics :
  forall (URL : Type) url_Parse SplitSANs (s : SubjectAlternativeName.t)
         (c : x509.Certificate URL),
    strings.is_ascii (SubjectAlternativeName.Type_ s) = true ->
    string_in (strings.ToLower (SubjectAlternativeName.Type_ s)) setTypes
      = false ->
    SubjectAlternativeName_Set url_Parse SplitSANs s c =
      Panicked ("unsupported subject alternative name type "
                ++ SubjectAlternativeName.Type_ s)%string.
Proof.
  intros URL url_Parse SplitSANs [type value] c _ H; simpl in *.
  unfold SubjectAlternativeName_Set; simpl.
  unfold string_in, setTypes in H; simpl in H.
  repeat (apply orb_false_elim in H; destruct H as [? H]).
  repeat match goal with
         | E : String.eqb _ _ = false |- _ => rewrite E; clear E
         end.
  reflexivity.
Qed.

Lemma SubjectAlternativeName_Set_unknown_type_panics_witness :
  SubjectAlternativeName_Set textURL_Parse dnsSplitSANs
    (SubjectAlternativeName.mk "1.2.3.4" "int;42") x509.new
  = Panicked "unsupported subject alternative name type 1.2.3.4".
Proof.
  apply (SubjectAlternativeName_Set_unknown_type_panics textURL textURL_Parse
           dnsSplitSANs (SubjectAlternativeName.mk "1.2.3.4" "int;42")
           x509.new); reflexivity.
Defined.

(** C1, as stated, fails: on the entry [{type: "foo", value: "x"}], whose
    type is not a recognized tag, [Set] produces no result at all, it
    panics. *)
Lemma SubjectAlternativeName_Set_no_error_result :
  string_in (strings.ToLower "foo") setTypes = false /\
  SubjectAlternativeName_Set textURL_Parse dnsSplitSANs
    (SubjectAlternativeName.mk "foo" "x") x509.new
  = Panicked "unsupported subject alternative name type foo" /\
  ~ (exists c',
       SubjectAlternativeName_Set textURL_Parse dnsSplitSANs
         (SubjectAlternativeName.mk "foo" "x") x509.new = Returned c').
Proof.
  split; [reflexivity|]. split; [reflexivity|].
  intros [c' H]. discriminate H.
Qed.

(** ** The SAN extension: object identifier and criticality *)

(** C6. Whenever [createSubjectAltNameExtension] succeeds, the extension it
    returns has the OID 2.5.29.17 and is not critical, whatever entries were
    encoded and whatever the subject of the template is. *)
Theorem createSubjectAltNameExtension_id_critical :
  forall (URL : Type) (URL_String : URL -> string)
         (IP_String : net.IP -> string) (c : Certificate.t URL)
         (e : Extension.t),
    createSubjectAltNameExtension URL_String IP_String c = Ok e ->
    Extension.ID e = [2; 5; 29; 17] /\ Extension.Critical e = false.
Proof.
  intros URL URL_String IP_String c e H.
  unfold createSubjectAltNameExtension in H.
  destruct (encodeSANs (allSANs URL_String IP_String c) []); [|discriminate].
  injection H as <-. split; reflexivity.
Qed.

Lemma createSubjectAltNameExtension_id_critical_witness :
  exists e,
    createSubjectAltNameExtension textURL_String noIP_String
      (Certificate.mk emptyName ["example.com"] [] [] [] []) = Ok e
    /\ Extension.ID e = [2; 5; 29; 17] /\ Extension.Critical e = false.
Proof.
  eexists; split; [reflexivity|].
  apply (createSubjectAltNameExtension_id_critical textURL textURL_String
           noIP_String (Certificate.mk emptyName ["example.com"] [] [] [] [])).
  reflexivity.
Defined.

(** ** IP addresses *)

Lemma parseIPv4Fields_loop_length :
  forall s val pos digLen first prevDot fields out,
    List.length fields = pos -> (pos <= 3)%nat ->
    net.parseIPv4Fields_loop s val pos digLen first prevDot fields = Some out ->
    List.length out = 4%nat.
Proof.
  induction s as [|c r IH]; simpl; intros val pos digLen first prevDot fields
    out Hlen Hpos H.
  - destruct (Nat.ltb_spec pos 3); [discriminate|].
    injection H as <-. rewrite length_app; simpl; lia.
  - destruct (strconv.digit c) as [d|].
    + destruct ((digLen =? 1) && (val =? 0)); [discriminate|].
      destruct (255 <? val * 10 + d); [discriminate|].
      eapply IH; eauto.
    + destruct (Ascii.eqb c "."); [|discriminate].
      destruct (first || net.is_empty r || prevDot); [discriminate|].
      destruct (Nat.eqb_spec pos 3); [discriminate|].
      eapply IH; [| |exact H].
      * rewrite length_app; simpl; lia.
      * lia.
Qed.

Lemma parseIPv4Fields_length :
  forall s out, net.parseIPv4Fields s = Some out -> List.length out = 4%nat.
Proof.
  intros s out H. unfold net.parseIPv4Fields in H.
  eapply parseIPv4Fields_loop_length; [| |exact H]; simpl; lia.
Qed.

Lemma parseIPv6_loop_length :
  forall fuel s ip ellipsis rest ip' ellipsis',
    (exists k, List.length ip = 2 * k)%nat -> (List.length ip <= 16)%nat ->
    net.parseIPv6_loop fuel s ip ellipsis = Some (rest, ip', ellipsis') ->
    (List.length ip' <= 16)%nat.
Proof.
  induction fuel as [|fuel IH];
    intros s ip ellipsis rest ip' ellipsis' [k Hk] Hle H;
    cbn [net.parseIPv6_loop] in H.
  - injection H as _ <- _. exact Hle.
  - destruct (Nat.leb_spec 16 (List.length ip)).
    { injection H as _ <- _. exact Hle. }
    destruct (net.scan_hex s 0 0) as [[[acc off] rest0]|]; [|discriminate].
    destruct (off =? 0)%nat; [discriminate|].
    destruct (net.starts_with rest0 ".").
    + destruct ((match ellipsis with None => true | Some _ => false end)
                && negb (List.length ip =? 12)%nat); [discriminate|].
      destruct (Nat.ltb_spec 16 (List.length ip + 4)); [discriminate|].
      destruct (net.parseIPv4Fields s) as [f|] eqn:Hf; [|discriminate].
      injection H as _ <- _.
      rewrite length_app, (parseIPv4Fields_length _ _ Hf). lia.
    + set (ip2 := ip ++ [to_byte (Z.shiftr acc 8); to_byte acc]) in *.
      assert (L2 : List.length ip2 = (List.length ip + 2)%nat)
        by (unfold ip2; rewrite length_app; reflexivity).
      assert (E2 : exists k', (List.length ip2 = 2 * k')%nat)
        by (exists (S k); lia).
      assert (B2 : (List.length ip2 <= 16)%nat) by lia.
      destruct rest0 as [|c r1].
      { injection H as _ <- _. exact B2. }
      destruct (negb (Ascii.eqb c ":")); [discriminate|].
      destruct r1 as [|c2 r2]; [discriminate|].
      destruct (Ascii.eqb c2 ":").
      * destruct ellipsis; [discriminate|].
        destruct (net.is_empty r2).
        -- injection H as _ <- _. exact B2.
        -- eapply IH; eauto.
      * eapply IH; eauto.
Qed.

Lemma parseIPv6_length :
  forall s ip zone, net.parseIPv6 s = Some (ip, zone) -> List.length ip = 16%nat.
Proof.
  intros s ip zone H. unfold net.parseIPv6 in H.
  destruct (net.split_zone s) as [s0 z].
  set (lead := match s0 with
               | String ":" (String ":" r) => Some r
               | _ => None
               end) in *.
  set (zn := match z with Some zn => zn | None => EmptyString end) in *.
  assert (Main :
    match net.parseIPv6_loop 8
            (match lead with Some r => r | None => s0 end) []
            (match lead with Some _ => Some 0%nat | None => None end) with
    | None => None
    | Some (rest, ip0, ellipsis) =>
        if negb (net.is_empty rest) then None
        else if (List.length ip0 <? 16)%nat then
          match ellipsis with
          | None => None
          | Some e =>
              Some (firstn e ip0 ++ repeat 0 (16 - List.length ip0)
                      ++ skipn e ip0, zn)
          end
        else match ellipsis with Some _ => None | None => Some (ip0, zn) end
    end = Some (ip, zone) -> List.length ip = 16%nat).
  { clear H.
    destruct (net.parseIPv6_loop 8 _ [] _) as [[[rest ip0] ellipsis]|] eqn:L;
      [|discriminate].
    apply parseIPv6_loop_length in L;
      [| exists 0%nat; reflexivity | simpl; lia].
    destruct (negb (net.is_empty rest)); [discriminate|].
    destruct (Nat.ltb_spec (List.length ip0) 16).
    - destruct ellipsis as [e|]; [|discriminate].
      remember (16 - List.length ip0)%nat as pad eqn:Hpad.
      intro R; injection R as <- _.
      rewrite !length_app, repeat_length.
      pose proof (firstn_skipn e ip0) as FS.
      apply (f_equal (@List.length Z)) in FS. rewrite length_app in FS. lia.
    - destruct ellipsis; [discriminate|].
      intro R; injection R as <- _. lia. }
  destruct z as [[|zc zr]|]; [discriminate| |].
  - destruct lead as [[|lc lr]|]; [|exact (Main H)|exact (Main H)].
    injection H as <- _. reflexivity.
  - destruct lead as [[|lc lr]|]; [|exact (Main H)|exact (Main H)].
    injection H as <- _. reflexivity.
Qed.

(** [net.ParseIP] returns nil or the 16-byte form of the address. *)
Lemma ParseIP_length :
  forall s ip, net.ParseIP s = Some ip -> List.length ip = 16%nat.
Proof.
  intros s ip H. unfold net.ParseIP in H.
  destruct (net.first_mark s) as [m|]; [|discriminate].
  destruct (Ascii.eqb_spec m "."); [subst m|].
  - simpl in H.
    destruct (net.parseIPv4Fields s) as [f|] eqn:Hf; [|discriminate].
    injection H as <-.
    simpl. rewrite (parseIPv4Fields_length _ _ Hf). reflexivity.
  - destruct (Ascii.eqb_spec m ":"); [subst m|].
    + simpl in H.
      destruct (net.parseIPv6 s) as [[ip0 zone]|] eqn:H6; [|discriminate].
      destruct zone; [|discriminate].
      injection H as <-. eapply parseIPv6_length; eauto.
    + exfalso.
      destruct m as [[] [] [] [] [] [] [] []]; try discriminate H;
        contradiction.
Qed.

Lemma To4_length :
  forall ip b,
    List.length ip = 16%nat -> net.To4 ip = Some b -> List.length b = 4%nat.
Proof.
  intros ip b L H.
  assert (Hl : List.length (firstn 4 (skipn 12 ip)) = 4%nat)
    by (rewrite length_firstn, length_skipn, L; reflexivity).
  unfold net.To4 in H. rewrite L in H.
  change (16 =? net.IPv4len)%nat with false in H.
  cbv beta iota in H.
  match type of H with
  | (if ?cond then _ else _) = _ => destruct cond; [|discriminate]
  end.
  injection H as <-. exact Hl.
Qed.



Example ip_entry_examples :
  encodeSAN (SubjectAlternativeName.mk IPType "192.0.2.1") []
    = Ok [contextRaw 7 [192; 0; 2; 1]] /\
  encodeSAN (SubjectAlternativeName.mk IPType "::ffff:192.0.2.1") []
    = Ok [contextRaw 7 [192; 0; 2; 1]] /\
  encodeSAN (SubjectAlternativeName.mk IPType "2001:db8::68") []
    = Ok [contextRaw 7 [32; 1; 13; 184; 0; 0; 0; 0; 0; 0; 0; 0; 0; 0; 0; 104]] /\
  asn1.marshal_RawValue (contextRaw 7 [192; 0; 2; 1]) = [135; 4; 192; 0; 2; 1].
Proof. repeat split; reflexivity. Qed.

(** ** Serial numbers *)

Lemma byte_of_ascii_nonneg : forall c, 0 <= byte_of_ascii c.
Proof. intro c; unfold byte_of_ascii; lia. Qed.

Lemma digit_value_nonneg : forall c, 0 <= big.digit_value c.
Proof.
  intro c; unfold big.digit_value.
  repeat match goal with
         | |- context [if ?a && ?b then _ else _] =>
             destruct a eqn:?; destruct b eqn:?; simpl
         end; lia.
Qed.

Lemma scan_digits_nonneg :
  forall s b st,
    0 <= b -> 0 <= big.value st ->
    0 <= big.value (fst (big.scan_digits s b st)).
Proof.
  induction s as [|ch r IH]; intros b st Hb Hv; simpl; [assumption|].
  destruct (Ascii.eqb ch "_").
  - apply IH; assumption.
  - destruct (b <=? big.digit_value ch); simpl; [assumption|].
    apply IH; [assumption|]. simpl.
    pose proof (digit_value_nonneg ch). nia.
Qed.

Lemma scan_finish_nonneg :
  forall prefix r v rest,
    0 <= big.value (fst r) ->
    big.scan_finish prefix r = Some (v, rest) -> 0 <= v.
Proof.
  intros prefix [st rest0] v rest Hv H; unfold big.scan_finish in H.
  simpl in Hv.
  destruct (big.invalSep st || big.prev_is_sep (big.prev st)); [discriminate|].
  destruct (big.count st =? 0).
  - destruct prefix; try discriminate. injection H as <- _. lia.
  - injection H as <- _. assumption.
Qed.

Lemma nat_scan_nonneg :
  forall s v rest, big.nat_scan s = Some (v, rest) -> 0 <= v.
Proof.
  intros s v rest H. unfold big.nat_scan in H.
  assert (G : forall prefix body b st,
             0 <= b -> 0 <= big.value st ->
             big.scan_finish prefix (big.scan_digits body b st)
               = Some (v, rest) -> 0 <= v).
  { intros prefix body b st Hb Hst F.
    eapply scan_finish_nonneg; [|exact F].
    apply scan_digits_nonneg; assumption. }
  destruct s as [|c r].
  - eapply G; [| |exact H]; simpl; lia.
  - destruct (Ascii.eqb_spec c "0") as [->|Hc].
    + destruct r as [|ch r'].
      * eapply scan_finish_nonneg; [|exact H]. simpl; lia.
      * destruct (Ascii.eqb ch "b" || Ascii.eqb ch "B");
          [eapply G; [| |exact H]; simpl; lia|].
        destruct (Ascii.eqb ch "o" || Ascii.eqb ch "O");
          [eapply G; [| |exact H]; simpl; lia|].
        destruct (Ascii.eqb ch "x" || Ascii.eqb ch "X");
          [eapply G; [| |exact H]; simpl; lia|].
        eapply G; [| |exact H]; simpl; lia.
    + assert (H' : big.scan_finish big.NoPrefix
                     (big.scan_digits (String c r) 10
                        (big.mkScan 0 0 big.PrevOther false))
                   = Some (v, rest)).
      { destruct c as [[] [] [] [] [] [] [] []]; try exact H.
        exfalso; apply Hc; reflexivity. }
      eapply G; [| |exact H']; simpl; lia.
Qed.

Lemma SetString_nonneg :
  forall s v,
    leading_minus s = false -> big.SetString s = Some v -> 0 <= v.
Proof.
  intros s v Hm H. destruct s as [|c r]; [discriminate|].
  simpl in Hm. unfold big.SetString in H. rewrite Hm in H.
  destruct (big.nat_scan _) as [[v0 rest]|] eqn:N; [|discriminate].
  destruct rest; [|discriminate].
  injection H as <-. eapply nat_scan_nonneg; eauto.
Qed.

Lemma parse_digits_nonneg :
  forall s n v, 0 <= n -> strconv.parse_digits s n = Some v -> 0 <= v.
Proof.
  induction s as [|c r IH]; simpl; intros n v Hn H.
  - injection H as <-. assumption.
  - unfold strconv.digit in H.
    destruct ((48 <=? byte_of_ascii c) && (byte_of_ascii c <=? 57)) eqn:D;
      [|discriminate].
    apply andb_prop in D. destruct D as [D1 D2].
    apply Z.leb_le in D1. eapply IH; [|exact H]. lia.
Qed.

Lemma Atoi_nonneg :
  forall s v, leading_minus s = false -> strconv.Atoi s = Some v -> 0 <= v.
Proof.
  intros s v Hm H. destruct s as [|c r]; [discriminate|].
  simpl in Hm. unfold strconv.Atoi in H. rewrite Hm in H.
  match type of H with
  | match ?body with _ => _ end = _ => destruct body; [discriminate|]
  end.
  destruct (strconv.parse_digits _ 0) as [n|] eqn:P; [|discriminate].
  destruct ((minInt <=? n) && (n <=? maxInt)); [|discriminate].
  injection H as <-. eapply parse_digits_nonneg; [|exact P]. lia.
Qed.

(** C9, as the code has it.  A successful decode yields a non-negative
    serial number whenever the text of the input (the contents of the JSON
    string, the literal of the JSON number) does not begin with a minus
    sign; the decoder itself checks no sign. *)
Theorem SerialNumber_UnmarshalJSON_nonneg :
  forall (data : JSON) (sn : SerialNumber.t),
    leading_minus (json_text data) = false ->
    SerialNumber_UnmarshalJSON data = Ok sn ->
    0 <= SerialNumber.Int sn.
Proof.
  intros data sn Hm H. unfold SerialNumber_UnmarshalJSON in H.
  destruct data as [|b|literal|s| |]; simpl in *; try discriminate.
  - injection H as <-. simpl. lia.
  - destruct (strconv.Atoi literal) as [i|] eqn:A; [|discriminate].
    injection H as <-. simpl. eapply Atoi_nonneg; eauto.
  - destruct (big.SetString s) as [v|] eqn:S; [|discriminate].
    injection H as <-. simpl. eapply SetString_nonneg; eauto.
Qed.

Lemma SerialNumber_UnmarshalJSON_nonneg_witness :
  0 <= SerialNumber.Int (SerialNumber.mk 16) /\
  0 <= SerialNumber.Int (SerialNumber.mk 10).
Proof.
  split.
  - apply (SerialNumber_UnmarshalJSON_nonneg (JSONString "0x10")); reflexivity.
  - apply (SerialNumber_UnmarshalJSON_nonneg (JSONNumber "10")); reflexivity.
Defined.

(** C9, as stated, fails: the JSON string ["-5"] and the JSON number [-5]
    are both accepted and decode to the negative serial number -5. *)
Lemma SerialNumber_UnmarshalJSON_negative :
  SerialNumber_UnmarshalJSON (JSONString "-5") = Ok (SerialNumber.mk (-5)) /\
  SerialNumber_UnmarshalJSON (JSONNumber "-5") = Ok (SerialNumber.mk (-5)) /\
  ~ (forall data sn,
       SerialNumber_UnmarshalJSON data = Ok sn -> 0 <= SerialNumber.Int sn).
Proof.
  split; [reflexivity|]. split; [reflexivity|].
  intro H. specialize (H (JSONString "-5") (SerialNumber.mk (-5)) eq_refl).
  simpl in H. lia.
Qed.

Lemma scan_digits_plain :
  forall s b st,
    strings.Contains s "_" = false ->
    match digits_in_base b s (big.value st) with
    | Some v =>
        big.scan_digits s b st =
          (big.mkScan v (big.count st + Z.of_nat (String.length s))
             (match s with EmptyString => big.prev st | _ => big.PrevDigit end)
             (big.invalSep st),
           EmptyString)
    | None => snd (big.scan_digits s b st) <> EmptyString
    end.
Proof.
  induction s as [|ch r IH]; intros b st Hc.
  - destruct st; simpl. rewrite Z.add_0_r. reflexivity.
  - cbn [strings.Contains] in Hc.
    destruct (Ascii.eqb ch "_") eqn:U; [discriminate|].
    cbn [digits_in_base big.scan_digits]. rewrite U.
    unfold base_digit.
    destruct (Z.ltb_spec (big.digit_value ch) b) as [Hlt|Hge];
      destruct (Z.leb_spec b (big.digit_value ch)) as [Hle|Hgt]; try lia.
    + specialize (IH b (big.mkScan (big.value st * b + big.digit_value ch)
                          (big.count st + 1) big.PrevDigit (big.invalSep st))
                    Hc).
      cbn [big.value big.count big.prev big.invalSep] in IH.
      destruct (digits_in_base b r _) as [v|]; [|exact IH].
      rewrite IH. f_equal. f_equal; [|destruct r; reflexivity].
      cbn [String.length]. lia.
    + simpl. discriminate.
Qed.

Lemma scan_finish_plain :
  forall prefix digits b st0,
    strings.Contains digits "_" = false ->
    big.invalSep st0 = false -> big.prev_is_sep (big.prev st0) = false ->
    big.count st0 = 0 -> big.value st0 = 0 ->
    (digits = EmptyString -> prefix <> big.Prefix0) ->
    match parse_in_base b digits with
    | Some v =>
        big.scan_finish prefix (big.scan_digits digits b st0)
          = Some (v, EmptyString)
    | None =>
        match big.scan_finish prefix (big.scan_digits digits b st0) with
        | Some (_, EmptyString) => False
        | _ => True
        end
    end.
Proof.
  intros prefix digits b st0 Hc Hi Hp Hn Hv Hpre.
  destruct digits as [|ch r].
  - simpl. unfold big.scan_finish. rewrite Hi, Hp, Hn. simpl.
    destruct prefix; auto. exfalso; apply Hpre; reflexivity.
  - pose proof (scan_digits_plain (String ch r) b st0 Hc) as P.
    rewrite Hv in P. unfold parse_in_base.
    destruct (digits_in_base b (String ch r) 0) as [v|].
    + rewrite P. unfold big.scan_finish; cbn [big.invalSep big.prev big.count
        big.value big.prev_is_sep]. rewrite Hi, Hn. simpl orb. cbv iota.
      destruct (Z.eqb_spec (0 + Z.of_nat (String.length (String ch r))) 0)
        as [E|_]; [|reflexivity].
      cbn [String.length] in E. lia.
    + destruct (big.scan_digits (String ch r) b st0) as [st' rest].
      simpl in P. unfold big.scan_finish.
      destruct (big.invalSep st' || big.prev_is_sep (big.prev st')); [exact I|].
      destruct (big.count st' =? 0).
      * destruct prefix; try exact I. destruct rest; [congruence | exact I].
      * destruct rest; [congruence | exact I].
Qed.

Lemma select_base_equation :
  forall c r,
    select_base (String c r) =
      if Ascii.eqb c "0" then
        match r with
        | EmptyString => (10, String c r)
        | String ch r' =>
            if is_one_of ch "b" "B" then (2, r')
            else if is_one_of ch "o" "O" then (8, r')
            else if is_one_of ch "x" "X" then (16, r')
            else (8, String ch r')
        end
      else (10, String c r).
Proof.
  intros c r.
  destruct c as [[] [] [] [] [] [] [] []]; reflexivity.
Qed.

Lemma nat_scan_equation :
  forall c r,
    big.nat_scan (String c r) =
      if Ascii.eqb c "0" then
        match r with
        | EmptyString =>
            big.scan_finish big.NoPrefix
              (big.mkScan 0 1 big.PrevDigit false, EmptyString)
        | String ch r' =>
            let start := big.mkScan 0 0 big.PrevDigit false in
            if Ascii.eqb ch "b" || Ascii.eqb ch "B" then
              big.scan_finish big.PrefixB (big.scan_digits r' 2 start)
            else if Ascii.eqb ch "o" || Ascii.eqb ch "O" then
              big.scan_finish big.PrefixO (big.scan_digits r' 8 start)
            else if Ascii.eqb ch "x" || Ascii.eqb ch "X" then
              big.scan_finish big.PrefixX (big.scan_digits r' 16 start)
            else big.scan_finish big.Prefix0 (big.scan_digits r 8 start)
        end
      else big.scan_finish big.NoPrefix
             (big.scan_digits (String c r) 10
                (big.mkScan 0 0 big.PrevOther false)).
Proof.
  intros c r.
  destruct c as [[] [] [] [] [] [] [] []]; reflexivity.
Qed.

Lemma nat_scan_plain :
  forall body,
    strings.Contains body "_" = false ->
    match parse_in_base (fst (select_base body)) (snd (select_base body)) with
    | Some v => big.nat_scan body = Some (v, EmptyString)
    | None =>
        match big.nat_scan body with
        | Some (_, EmptyString) => False
        | _ => True
        end
    end.
Proof.
  intros body Hc.
  destruct body as [|c r]; [exact I|].
  rewrite select_base_equation, nat_scan_equation.
  pose proof Hc as Hc'. cbn [strings.Contains] in Hc'.
  destruct (Ascii.eqb c "_") eqn:U; [discriminate|].
  destruct (Ascii.eqb_spec c "0") as [->|Hc0].
  - destruct r as [|ch r']; [reflexivity|].
    cbn [strings.Contains] in Hc'.
    destruct (Ascii.eqb ch "_") eqn:U2; [discriminate|].
    unfold is_one_of. cbv zeta.
    destruct (Ascii.eqb ch "b" || Ascii.eqb ch "B");
      [apply scan_finish_plain; auto; discriminate|].
    destruct (Ascii.eqb ch "o" || Ascii.eqb ch "O");
      [apply scan_finish_plain; auto; discriminate|].
    destruct (Ascii.eqb ch "x" || Ascii.eqb ch "X");
      [apply scan_finish_plain; auto; discriminate|].
    cbn [fst snd].
    apply scan_finish_plain; auto; discriminate.
  - cbn [fst snd]. apply scan_finish_plain; auto; discriminate.
Qed.

Lemma SetString_plain :
  forall s,
    strings.Contains s "_" = false ->
    big.SetString s = text_value select_base s.
Proof.
  intros s Hc. destruct s as [|c r]; [reflexivity|].
  unfold big.SetString, text_value, is_one_of.
  set (body := if Ascii.eqb c "-" || Ascii.eqb c "+" then r else String c r).
  assert (Hb : strings.Contains body "_" = false).
  { subst body. destruct (Ascii.eqb c "-" || Ascii.eqb c "+"); [|exact Hc].
    cbn [strings.Contains] in Hc.
    destruct (Ascii.eqb c "_"); [discriminate | exact Hc]. }
  pose proof (nat_scan_plain body Hb) as P.
  destruct (select_base body) as [b digits]. cbn [fst snd] in P.
  destruct (parse_in_base b digits) as [v|].
  - rewrite P. reflexivity.
  - destruct (big.nat_scan body) as [[v rest]|]; [|reflexivity].
    destruct rest; [contradiction | reflexivity].
Qed.

(** C2, as the code has it.  For every JSON string without underscores, the
    decoder reads an optional sign and then selects the base from what
    follows: [0b/0B] base 2, [0o/0O] base 8, [0x/0X] base 16, a leading [0]
    followed by anything else base 8 for the rest, and base 10 otherwise;
    the digits must all be digits of that base and there must be at least
    one, else the decode fails with the "serialNumber ... is not valid"
    error. *)
Theorem SerialNumber_UnmarshalJSON_string :
  forall s : string,
    strings.Contains s "_" = false ->
    SerialNumber_UnmarshalJSON (JSONString s) =
      match text_value select_base s with
      | Some v => Ok (SerialNumber.mk v)
      | None =>
          Err ("error unmarshaling json: serialNumber " ++ s
               ++ " is not valid")%string
      end.
Proof.
  intros s Hc. unfold SerialNumber_UnmarshalJSON; simpl.
  rewrite (SetString_plain s Hc). reflexivity.
Qed.

Lemma SerialNumber_UnmarshalJSON_string_witness :
  SerialNumber_UnmarshalJSON (JSONString "0x10") = Ok (SerialNumber.mk 16) /\
  SerialNumber_UnmarshalJSON (JSONString "0b101") = Ok (SerialNumber.mk 5) /\
  SerialNumber_UnmarshalJSON (JSONString "0o17") = Ok (SerialNumber.mk 15) /\
  SerialNumber_UnmarshalJSON (JSONString "10") = Ok (SerialNumber.mk 10) /\
  SerialNumber_UnmarshalJSON (JSONString "12a")
    = Err "error unmarshaling json: serialNumber 12a is not valid".
Proof.
  repeat apply conj.
  - apply (SerialNumber_UnmarshalJSON_string "0x10"); reflexivity.
  - apply (SerialNumber_UnmarshalJSON_string "0b101"); reflexivity.
  - apply (SerialNumber_UnmarshalJSON_string "0o17"); reflexivity.
  - apply (SerialNumber_UnmarshalJSON_string "10"); reflexivity.
  - apply (SerialNumber_UnmarshalJSON_string "12a"); reflexivity.
Defined.

(** C2, as stated, fails: the string ["017"] carries none of the prefixes
    [0b], [0o], [0x], so it should read as the base-10 integer 17; the
    decoder takes the leading [0] as the octal prefix and yields 15. *)
Lemma SerialNumber_UnmarshalJSON_leading_zero_octal :
  text_value select_base_prefix_only "017" = Some 17 /\
  SerialNumber_UnmarshalJSON (JSONString "017") = Ok (SerialNumber.mk 15) /\
  SerialNumber_UnmarshalJSON (JSONString "017") <> Ok (SerialNumber.mk 17).
Proof.
  split; [reflexivity|]. split; [reflexivity|]. discriminate.
Qed.

Example SerialNumber_number_path :
  SerialNumber_UnmarshalJSON (JSONNumber "10") = Ok (SerialNumber.mk 10) /\
  SerialNumber_UnmarshalJSON (JSONNumber "1.5")
    = Err "error unmarshaling json: json: cannot unmarshal number 1.5 into Go value of type int64" /\
  SerialNumber_UnmarshalJSON (JSONString "1_000") = Ok (SerialNumber.mk 1000) /\
  SerialNumber_UnmarshalJSON (JSONString "08")
    = Err "error unmarshaling json: serialNumber 08 is not valid".
Proof. repeat split; reflexivity. Qed.

(** ** Letter case of SAN types *)

Lemma lower_byte_cases :
  forall a, a = strings.lower_byte a \/ a = upper_byte (strings.lower_byte a).
Proof.
  intro a. destruct a as [[] [] [] [] [] [] [] []]; vm_compute; auto.
Qed.

Lemma ToLower_case_variants :
  forall t tag, strings.ToLower t = tag -> In t (case_variants tag).
Proof.
  induction t as [|a t IH]; intros tag H; subst tag; simpl.
  - left; reflexivity.
  - apply in_flat_map. exists t. split; [apply IH; reflexivity|].
    destruct (lower_byte_cases a) as [E|E]; rewrite <- E; simpl; auto.
Qed.

Lemma encodeSANs_error_at :
  forall sans san,
    In san sans ->
    (forall rawValues, exists e, encodeSAN san rawValues = Err e) ->
    forall rawValues, exists e, encodeSANs sans rawValues = Err e.
Proof.
  induction sans as [|s sans IH]; intros san Hin Herr rawValues;
    [contradiction|].
  simpl. destruct Hin as [->|Hin].
  - destruct (Herr rawValues) as [e E]. rewrite E. eauto.
  - destruct (encodeSAN s rawValues) as [rawValues'|e]; eauto.
Qed.

Lemma Set_lower_case_only :
  forall (URL : Type) url_Parse SplitSANs t t' v (c : x509.Certificate URL),
    strings.ToLower t = strings.ToLower t' ->
    string_in (strings.ToLower t) setTypes = true ->
    SubjectAlternativeName_Set url_Parse SplitSANs
      (SubjectAlternativeName.mk t v) c
    = SubjectAlternativeName_Set url_Parse SplitSANs
        (SubjectAlternativeName.mk t' v) c
    /\ exists c',
         SubjectAlternativeName_Set url_Parse SplitSANs
           (SubjectAlternativeName.mk t v) c = Returned c'.
Proof.
  intros URL url_Parse SplitSANs t t' v c E Hin.
  unfold SubjectAlternativeName_Set; simpl. rewrite <- E.
  unfold string_in, setTypes in Hin; simpl in Hin.
  destruct (String.eqb (strings.ToLower t) DNSType); [eauto|].
  destruct (String.eqb (strings.ToLower t) EmailType); [eauto|].
  destruct (String.eqb (strings.ToLower t) IPType).
  { destruct (net.ParseIP v); eauto. }
  destruct (String.eqb (strings.ToLower t) URIType).
  { destruct (url_Parse v); eauto. }
  destruct (String.eqb (strings.ToLower t) EmptyString
            || String.eqb (strings.ToLower t) AutoType) eqn:A.
  { destruct (SplitSANs [v]) as [[[dnsNames ips] emails] uris]. eauto. }
  apply orb_false_elim in A. destruct A as [A1 A2].
  rewrite A1, A2 in Hin. discriminate.
Qed.

Lemma encodeSAN_case_variant_unsupported :
  forall t tag v rawValues,
    In tag [DNSType; EmailType; IPType; URIType; AutoType] ->
    strings.ToLower t = tag -> t <> tag ->
    encodeSAN (SubjectAlternativeName.mk t v) rawValues
      = Err ("unsupported SAN type " ++ t)%string.
Proof.
  intros t tag v rawValues Htag Hlow Hne.
  apply ToLower_case_variants in Hlow.
  simpl in Htag.
  repeat (destruct Htag as [<-|Htag]); try contradiction;
    vm_compute in Hlow;
    repeat (destruct Hlow as [<-|Hlow]);
    try contradiction; try (exfalso; apply Hne; reflexivity);
    reflexivity.
Qed.

(** C10, as the code has it.  For every entry whose type is a spelling, in
    other letter case, of one of the tags [SubjectAlternativeName.Set] knows
    ([dns], [email], [ip], [uri], [auto]): [createSubjectAltNameExtension]
    fails on the entry with "unsupported SAN type <type>", and so on any
    template that holds it, while [SubjectAlternativeName.Set] treats the
    entry exactly as it treats the lower-case tag and returns. *)
Theorem SAN_type_case_sensitivity :
  forall (URL : Type) (url_Parse : string -> option URL)
         (URL_String : URL -> string) (IP_String : net.IP -> string)
         SplitSANs (t tag v : string) (c : x509.Certificate URL),
    In tag [DNSType; EmailType; IPType; URIType; AutoType] ->
    strings.ToLower t = tag -> t <> tag ->
    (forall rawValues,
       encodeSAN (SubjectAlternativeName.mk t v) rawValues
         = Err ("unsupported SAN type " ++ t)%string) /\
    (forall template : Certificate.t URL,
       In (SubjectAlternativeName.mk t v)
          (allSANs URL_String IP_String template) ->
       exists e,
         createSubjectAltNameExtension URL_String IP_String template = Err e) /\
    SubjectAlternativeName_Set url_Parse SplitSANs
      (SubjectAlternativeName.mk t v) c
    = SubjectAlternativeName_Set url_Parse SplitSANs
        (SubjectAlternativeName.mk tag v) c /\
    (exists c',
       SubjectAlternativeName_Set url_Parse SplitSANs
         (SubjectAlternativeName.mk t v) c = Returned c').
Proof.
  intros URL url_Parse URL_String IP_String SplitSANs t tag v c Htag Hlow Hne.
  assert (Enc : forall rawValues,
             encodeSAN (SubjectAlternativeName.mk t v) rawValues
               = Err ("unsupported SAN type " ++ t)%string)
    by (intro; eapply encodeSAN_case_variant_unsupported; eauto).
  split; [exact Enc|]. split.
  - intros template Hin. unfold createSubjectAltNameExtension.
    destruct (encodeSANs_error_at _ _ Hin
                (fun rv => ex_intro _ _ (Enc rv)) []) as [e E].
    rewrite E. eauto.
  - assert (Known : string_in (strings.ToLower t) setTypes = true).
    { rewrite Hlow. simpl in Htag.
      repeat (destruct Htag as [<-|Htag]); try contradiction; reflexivity. }
    assert (Idem : strings.ToLower t = strings.ToLower tag).
    { rewrite Hlow. simpl in Htag.
      repeat (destruct Htag as [<-|Htag]); try contradiction; reflexivity. }
    exact (Set_lower_case_only URL url_Parse SplitSANs t tag v c Idem Known).
Qed.

Lemma SAN_type_case_sensitivity_witness :
  encodeSAN (SubjectAlternativeName.mk "DNS" "example.com") []
    = Err "unsupported SAN type DNS" /\
  (exists e,
     createSubjectAltNameExtension textURL_String noIP_String
       (sansOnly [SubjectAlternativeName.mk "DNS" "example.com"]) = Err e) /\
  SubjectAlternativeName_Set textURL_Parse dnsSplitSANs
    (SubjectAlternativeName.mk "DNS" "example.com") x509.new
  = Returned (x509.set_DNSNames x509.new ["example.com"]).
Proof.
  assert (Ne : "DNS" <> DNSType) by discriminate.
  destruct (SAN_type_case_sensitivity textURL textURL_Parse textURL_String
              noIP_String dnsSplitSANs "DNS" DNSType "example.com" x509.new
              (or_introl eq_refl) eq_refl Ne) as (Enc & Whole & Same & _).
  split; [apply Enc|]. split.
  - apply Whole. left; reflexivity.
  - rewrite Same. reflexivity.
Defined.

(** C10, as stated, fails: [RegisteredID] differs from the vocabulary tag
    [registeredID] only by letter case and is no dotted OID; the encoder
    returns an error on it, as claimed, but [SubjectAlternativeName.Set]
    has no case for its lower-case form and panics. *)
Lemma SAN_type_case_RegisteredID :
  strings.ToLower "RegisteredID" = strings.ToLower RegisteredIDType /\
  "RegisteredID" <> RegisteredIDType /\
  parseObjectIdentifier "RegisteredID" = Err (ParseError "RegisteredID") /\
  encodeSAN (SubjectAlternativeName.mk "RegisteredID" "1.2.3.4") []
    = Err "unsupported SAN type RegisteredID" /\
  SubjectAlternativeName_Set textURL_Parse dnsSplitSANs
    (SubjectAlternativeName.mk "RegisteredID" "1.2.3.4") x509.new
  = Panicked "unsupported subject alternative name type RegisteredID".
Proof.
  split; [reflexivity|]. split; [discriminate|]. repeat split; reflexivity.
Qed.

(** ** otherName entries *)

Lemma Split_nonempty : forall s sep, strings.Split s sep <> [].
Proof.
  induction s as [|c r IH]; intro sep; simpl; [discriminate|].
  destruct (Ascii.eqb c sep); [discriminate|].
  destruct (strings.Split r sep); discriminate.
Qed.

Lemma Contains_prefixed :
  forall k sep p, strings.Contains (k ++ String sep p)%string sep = true.
Proof.
  induction k as [|c k IH]; intros sep p; simpl.
  - rewrite Ascii.eqb_refl. reflexivity.
  - destruct (Ascii.eqb c sep); [reflexivity | apply IH].
Qed.

Lemma Split_prefixed :
  forall k sep p,
    strings.Contains k sep = false ->
    strings.Split (k ++ String sep p)%string sep = k :: strings.Split p sep.
Proof.
  induction k as [|c k IH]; intros sep p H; simpl in *.
  - rewrite Ascii.eqb_refl. reflexivity.
  - destruct (Ascii.eqb c sep); [discriminate|].
    rewrite (IH sep p H). reflexivity.
Qed.

(** The slice [san.Value[len(valueType)+1:]] is always in range, and is
    what follows the first semicolon. *)
Lemma slice_from_in_range :
  forall k sep p,
    (String.length k + 1 <= String.length (k ++ String sep p)%string)%nat /\
    strings.slice_from (String.length k + 1) (k ++ String sep p)%string = p.
Proof.
  induction k as [|c k IH]; intros sep p; simpl.
  - split; [lia | reflexivity].
  - destruct (IH sep p) as [L E]. split; [lia | exact E].
Qed.

Lemma tagged_nonempty :
  forall class tag isCompound body,
    asn1.tagged class tag isCompound body <> [].
Proof.
  intros class tag isCompound body.
  unfold asn1.tagged, asn1.appendTagAndLength.
  destruct (31 <=? tag); discriminate.
Qed.

Lemma marshal_fullRaw :
  forall b, b <> [] -> asn1.marshal_RawValue (fullRaw b) = b.
Proof.
  intros b Hb. unfold asn1.marshal_RawValue, fullRaw; simpl.
  destruct b; [contradiction | reflexivity].
Qed.

(** What the default branch of the encoder does once the value bytes are
    known. *)
Lemma otherName_branch :
  forall t v oid oidBody rawValues,
    string_in t encoderTypes = false ->
    parseObjectIdentifier t = Ok oid ->
    asn1.makeObjectIdentifier oid = Ok oidBody ->
    encodeSAN (SubjectAlternativeName.mk t v) rawValues =
      match otherNameValueBytes t v with
      | Err e => Err e
      | Ok rawBytes =>
          Ok (rawValues
              ++ [fullRaw (asn1.tagged 2 0 true
                             (asn1.tagged 0 6 false oidBody
                              ++ asn1.tagged 2 0 true
                                   (asn1.marshal_RawValue (fullRaw rawBytes))))])
      end.
Proof.
  intros t v oid oidBody rawValues Hvoc Hoid Hbody.
  unfold string_in, encoderTypes in Hvoc; simpl in Hvoc.
  repeat (apply orb_false_elim in Hvoc; destruct Hvoc as [? Hvoc]).
  unfold encodeSAN; simpl.
  repeat match goal with
         | E : String.eqb _ _ = false |- _ => rewrite E; clear E
         end.
  simpl.
  assert (Hne : String.eqb t EmptyString = false).
  { destruct t; [discriminate Hoid | reflexivity]. }
  rewrite Hne, Hoid; simpl.
  destruct (otherNameValueBytes t v) as [rawBytes|e]; [|reflexivity].
  unfold marshal_OtherName, asn1.Marshal_oid; simpl. rewrite Hbody.
  reflexivity.
Qed.

Lemma otherNameValueBytes_prefixed :
  forall t k p,
    strings.Contains k ";" = false ->
    otherNameValueBytes t (k ++ String ";" p)%string =
      let checked (r : result bytes) : result bytes :=
        match r with
        | Ok rawBytes => Ok rawBytes
        | Err e => Err ("could not marshal ASN1 values: " ++ e)%string
        end in
      if String.eqb k "int" then
        match strconv.Atoi p with
        | None =>
            Err ("invalid int value for int-typed SAN OtherName " ++ t)%string
        | Some i => checked (asn1.Marshal_int i)
        end
      else if String.eqb k "oid" then
        match parseObjectIdentifier p with
        | Err _ =>
            Err ("invalid OID value for OID-typed SAN OtherName " ++ t)%string
        | Ok oidVal => checked (asn1.Marshal_oid oidVal)
        end
      else
        match asn1.stringParam k with
        | Some st => checked (asn1.MarshalWithParams_string p st)
        | None =>
            checked (asn1.MarshalWithParams_string (k ++ String ";" p)%string
                       asn1.PrintableString)
        end.
Proof.
  intros t k p Hk. unfold otherNameValueBytes.
  rewrite Contains_prefixed, (Split_prefixed k ";" p Hk).
  cbn [hd]. rewrite (proj2 (slice_from_in_range k ";" p)).
  reflexivity.
Qed.

Lemma stringParam_no_semicolon :
  forall k st, asn1.stringParam k = Some st -> strings.Contains k ";" = false.
Proof.
  intros k st H. unfold asn1.stringParam in H.
  destruct (String.eqb_spec k "utf8"); [subst; reflexivity|].
  destruct (String.eqb_spec k "ia5"); [subst; reflexivity|].
  destruct (String.eqb_spec k "numeric"); [subst; reflexivity|].
  destruct (String.eqb_spec k "printable"); [subst; reflexivity|].
  discriminate.
Qed.

Lemma stringParam_not_int_oid :
  forall k st,
    asn1.stringParam k = Some st ->
    String.eqb k "int" = false /\ String.eqb k "oid" = false.
Proof.
  intros k st H. unfold asn1.stringParam in H.
  destruct (String.eqb_spec k "utf8"); [subst; split; reflexivity|].
  destruct (String.eqb_spec k "ia5"); [subst; split; reflexivity|].
  destruct (String.eqb_spec k "numeric"); [subst; split; reflexivity|].
  destruct (String.eqb_spec k "printable"); [subst; split; reflexivity|].
  discriminate.
Qed.

(** C3, as the code has it.  For every SAN entry whose type is none of the
    encoder's fixed tags and parses as a dotted OID that DER can hold, the
    encoder emits an otherName under that OID, a constructed [0] element
    holding the OID and the value under a constructed [0] tag:
    - a value [int;p] is the DER INTEGER of [p] read by [strconv.Atoi], and
      fails with "invalid int value ..." when [p] is no base-10 integer;
    - a value [oid;p] fails with "invalid OID value ..." when [p] is no
      dotted OID, and is the DER OBJECT IDENTIFIER of [p] when DER can hold
      it (a marshalling error otherwise);
    - a value [k;p] with [k] one of utf8, ia5, numeric, printable is [p] in
      the string type [k] when [p] lies within the character set of that
      type, and a marshalling error otherwise;
    - a value without semicolon is the whole value as a PrintableString
      when it lies within that character set, and a marshalling error
      otherwise. *)
Theorem encodeSAN_otherName :
  forall (t v : string) (oid : asn1.ObjectIdentifier) (oidBody : bytes)
         (rawValues : list asn1.RawValue),
    string_in t encoderTypes = false ->
    parseObjectIdentifier t = Ok oid ->
    asn1.makeObjectIdentifier oid = Ok oidBody ->
    let emits inner :=
      encodeSAN (SubjectAlternativeName.mk t v) rawValues
      = Ok (rawValues ++ [fullRaw (otherNameDER oidBody inner)]) in
    let fails e :=
      encodeSAN (SubjectAlternativeName.mk t v) rawValues = Err e in
    (forall p, v = ("int;" ++ p)%string ->
       match strconv.Atoi p with
       | Some i => emits (asn1.tagged 0 2 false (asn1.int64Encode i))
       | None =>
           fails ("invalid int value for int-typed SAN OtherName " ++ t)%string
       end) /\
    (forall p, v = ("oid;" ++ p)%string ->
       match parseObjectIdentifier p with
       | Err _ =>
           fails ("invalid OID value for OID-typed SAN OtherName " ++ t)%string
       | Ok o =>
           match asn1.makeObjectIdentifier o with
           | Ok body => emits (asn1.tagged 0 6 false body)
           | Err e => fails ("could not marshal ASN1 values: " ++ e)%string
           end
       end) /\
    (forall k st p,
       asn1.stringParam k = Some st -> v = (k ++ String ";" p)%string ->
       if asn1.validFor st p
       then emits (asn1.tagged 0 (asn1.stringTag st) false (bytes_of_string p))
       else fails ("could not marshal ASN1 values: "
                   ++ asn1.invalidCharacter st)%string) /\
    (strings.Contains v ";" = false ->
       if asn1.validFor asn1.PrintableString v
       then emits (asn1.tagged 0 19 false (bytes_of_string v))
       else fails ("could not marshal ASN1 values: "
                   ++ asn1.invalidCharacter asn1.PrintableString)%string).
Proof.
  intros t v oid oidBody rawValues Hvoc Hoid Hbody emits fails.
  subst emits fails.
  rewrite (otherName_branch t v oid oidBody rawValues Hvoc Hoid Hbody).
  unfold otherNameDER.
  repeat apply conj.
  - intros p ->.
    change ("int;" ++ p)%string with ("int" ++ String ";" p)%string.
    rewrite otherNameValueBytes_prefixed by reflexivity.
    cbv zeta. change (String.eqb "int" "int") with true. cbv iota.
    destruct (strconv.Atoi p) as [i|]; [|reflexivity].
    unfold asn1.Marshal_int.
    rewrite marshal_fullRaw by apply tagged_nonempty. reflexivity.
  - intros p ->.
    change ("oid;" ++ p)%string with ("oid" ++ String ";" p)%string.
    rewrite otherNameValueBytes_prefixed by reflexivity.
    cbv zeta. change (String.eqb "oid" "int") with false.
    change (String.eqb "oid" "oid") with true. cbv iota.
    destruct (parseObjectIdentifier p) as [o|]; [|reflexivity].
    unfold asn1.Marshal_oid.
    destruct (asn1.makeObjectIdentifier o) as [body|e]; [|reflexivity].
    rewrite marshal_fullRaw by apply tagged_nonempty. reflexivity.
  - intros k st p Hk ->.
    rewrite otherNameValueBytes_prefixed
      by (eapply stringParam_no_semicolon; eauto).
    cbv zeta. destruct (stringParam_not_int_oid k st Hk) as [E1 E2].
    rewrite E1, E2, Hk. unfold asn1.MarshalWithParams_string.
    destruct (asn1.validFor st p); [|reflexivity].
    rewrite marshal_fullRaw by apply tagged_nonempty. reflexivity.
  - intros Hc. unfold otherNameValueBytes. rewrite Hc.
    change (String.eqb "printable" "int") with false.
    change (String.eqb "printable" "oid") with false.
    change (asn1.stringParam "printable") with (Some asn1.PrintableString).
    cbv iota. unfold asn1.MarshalWithParams_string.
    destruct (asn1.validFor asn1.PrintableString v); [|reflexivity].
    rewrite marshal_fullRaw by apply tagged_nonempty. reflexivity.
Qed.

Lemma encodeSAN_otherName_witness :
  encodeSAN (SubjectAlternativeName.mk "1.2.3.4" "int;42") []
    = Ok [fullRaw (otherNameDER [42; 3; 4] [2; 1; 42])] /\
  otherNameDER [42; 3; 4] [2; 1; 42]
    = [160; 10; 6; 3; 42; 3; 4; 160; 3; 2; 1; 42] /\
  createSubjectAltNameExtension textURL_String noIP_String
    (sansOnly [SubjectAlternativeName.mk "1.2.3.4" "int;42"])
    = Ok (Extension.mk [2; 5; 29; 17] false
            [48; 12; 160; 10; 6; 3; 42; 3; 4; 160; 3; 2; 1; 42]).
Proof.
  split; [|split; reflexivity].
  destruct (encodeSAN_otherName "1.2.3.4" "int;42" [1; 2; 3; 4] [42; 3; 4] []
              eq_refl eq_refl eq_refl) as (Int & _).
  exact (Int "42" eq_refl).
Defined.

(** C3, as stated, fails: on [{type: "1.2.3.4", value: "numeric;12a"}] the
    prefix names the NumericString type, yet the payload is not encoded: the
    encoder returns a marshalling error.  The same holds for a value without
    prefix that is no PrintableString. *)
Lemma otherName_payload_refused :
  encodeSAN (SubjectAlternativeName.mk "1.2.3.4" "numeric;12a") []
    = Err "could not marshal ASN1 values: asn1: structure error: NumericString contains invalid character" /\
  encodeSAN (SubjectAlternativeName.mk "1.2.3.4" "user@example.com") []
    = Err "could not marshal ASN1 values: asn1: structure error: PrintableString contains invalid character" /\
  (forall rawValues inner,
     encodeSAN (SubjectAlternativeName.mk "1.2.3.4" "numeric;12a") rawValues
     <> Ok (rawValues ++ [fullRaw (otherNameDER [42; 3; 4] inner)])).
Proof.
  split; [reflexivity|]. split; [reflexivity|].
  intros rawValues inner. discriminate.
Qed.

Lemma printable_refuses_semicolon :
  forall v,
    strings.Contains v ";" = true ->
    asn1.validFor asn1.PrintableString v = false.
Proof.
  intro v. change (asn1.validFor asn1.PrintableString v)
    with (asn1.string_forallb asn1.isPrintable v).
  induction v as [|c v IH]; cbn [strings.Contains asn1.string_forallb];
    intro H; [discriminate|].
  destruct (Ascii.eqb_spec c ";") as [->|_]; [reflexivity|].
  rewrite (IH H). apply andb_false_r.
Qed.

(** A value with a semicolon whose prefix is none of the known kinds can
    never be encoded: the whole value is handed to the PrintableString
    encoder, which refuses the semicolon. *)
Lemma otherName_unknown_prefix_refused :
  forall t k p,
    strings.Contains k ";" = false ->
    String.eqb k "int" = false -> String.eqb k "oid" = false ->
    asn1.stringParam k = None ->
    otherNameValueBytes t (k ++ String ";" p)%string
      = Err "could not marshal ASN1 values: asn1: structure error: PrintableString contains invalid character".
Proof.
  intros t k p Hk E1 E2 E3.
  rewrite otherNameValueBytes_prefixed by assumption.
  cbv zeta. rewrite E1, E2, E3. unfold asn1.MarshalWithParams_string.
  rewrite printable_refuses_semicolon by apply Contains_prefixed.
  reflexivity.
Qed.

Example otherName_examples :
  encodeSAN (SubjectAlternativeName.mk "1.2.3.4" "foo;bar") []
    = Err "could not marshal ASN1 values: asn1: structure error: PrintableString contains invalid character" /\
  encodeSAN (SubjectAlternativeName.mk "1.2.3.4" "int;4;2") []
    = Err "invalid int value for int-typed SAN OtherName 1.2.3.4" /\
  encodeSAN (SubjectAlternativeName.mk "1.2.3.4" "oid;1.2.x") []
    = Err "invalid OID value for OID-typed SAN OtherName 1.2.3.4" /\
  encodeSAN (SubjectAlternativeName.mk "1.2.3.4" "utf8;hi") []
    = Ok [fullRaw [160; 11; 6; 3; 42; 3; 4; 160; 4; 12; 2; 104; 105]] /\
  encodeSAN (SubjectAlternativeName.mk "1.2.3.4" "hello") []
    = Ok [fullRaw (otherNameDER [42; 3; 4] [19; 5; 104; 101; 108; 108; 111])] /\
  encodeSAN (SubjectAlternativeName.mk "x400Address" "x") []
    = Err "unimplemented SAN type x400Address" /\
  encodeSAN (SubjectAlternativeName.mk "bogus" "x") []
    = Err "unsupported SAN type bogus" /\
  encodeSAN (SubjectAlternativeName.mk "" "x") [] = Ok [] /\
  encodeSAN (SubjectAlternativeName.mk "registeredID" "1.2.3.4") []
    = Ok [fullRaw [136; 3; 42; 3; 4]] /\
  encodeSAN (SubjectAlternativeName.mk "registeredID" "nope") [] = Ok [] /\
  encodeSAN (SubjectAlternativeName.mk "dns" "a.b") []
    = Ok [contextRaw 2 [97; 46; 98]].
Proof. repeat split; reflexivity. Qed.

(** ** Object identifiers: text form *)

Lemma digit_range : forall c d, strconv.digit c = Some d -> 0 <= d <= 9.
Proof.
  intros c d H. unfold strconv.digit in H.
  destruct (Z.leb_spec 48 (byte_of_ascii c));
    destruct (Z.leb_spec (byte_of_ascii c) 57); simpl in H;
    try discriminate.
  injection H as <-. lia.
Qed.

Lemma digit_char_digit :
  forall c d, strconv.digit c = Some d -> strconv.digit_char d = c.
Proof.
  intros c d H.
  destruct c as [[] [] [] [] [] [] [] []]; vm_compute in H;
    try discriminate; injection H as <-; reflexivity.
Qed.

Lemma digit_digit_char :
  forall d, 0 <= d <= 9 -> strconv.digit (strconv.digit_char d) = Some d.
Proof.
  intros d H.
  assert (C : d = 0 \/ d = 1 \/ d = 2 \/ d = 3 \/ d = 4 \/ d = 5 \/ d = 6
              \/ d = 7 \/ d = 8 \/ d = 9) by lia.
  repeat (destruct C as [->|C]; [reflexivity|]). subst d. reflexivity.
Qed.

Lemma digit_char_not_dot :
  forall d, 0 <= d <= 9 -> Ascii.eqb (strconv.digit_char d) "." = false.
Proof.
  intros d H.
  assert (C : d = 0 \/ d = 1 \/ d = 2 \/ d = 3 \/ d = 4 \/ d = 5 \/ d = 6
              \/ d = 7 \/ d = 8 \/ d = 9) by lia.
  repeat (destruct C as [->|C]; [reflexivity|]). subst d. reflexivity.
Qed.

Lemma format_digits_step :
  forall f n acc,
    strconv.format_digits (S f) n acc =
      if n <? 10 then String (strconv.digit_char (n mod 10)) acc
      else strconv.format_digits f (n / 10)
             (String (strconv.digit_char (n mod 10)) acc).
Proof. reflexivity. Qed.

(** Reading back what [format_digits] wrote. *)
Lemma parse_format_digits :
  forall fuel n acc,
    (0 < fuel)%nat -> 0 <= n < 10 ^ Z.of_nat fuel ->
    strconv.parse_digits (strconv.format_digits fuel n acc) 0
    = strconv.parse_digits acc n.
Proof.
  induction fuel as [|f IH]; intros n acc Hf Hn; [lia|].
  rewrite format_digits_step.
  assert (Hd : 0 <= n mod 10 <= 9)
    by (pose proof (Z.mod_pos_bound n 10); lia).
  destruct (Z.ltb_spec n 10) as [Hlt|Hge].
  - cbn [strconv.parse_digits]. rewrite (digit_digit_char _ Hd).
    rewrite Z.mod_small by lia. reflexivity.
  - assert (Hf' : (0 < f)%nat).
    { destruct f; [|lia]. simpl in Hn. lia. }
    rewrite IH.
    + cbn [strconv.parse_digits]. rewrite (digit_digit_char _ Hd).
      f_equal. pose proof (Z.div_mod n 10). lia.
    + exact Hf'.
    + split; [apply Z.div_pos; lia|].
      apply Z.div_lt_upper_bound; [lia|].
      rewrite Nat2Z.inj_succ, Z.pow_succ_r in Hn by lia. lia.
Qed.

Lemma format_digits_acc_nonempty :
  forall fuel n acc,
    acc <> EmptyString -> strconv.format_digits fuel n acc <> EmptyString.
Proof.
  induction fuel as [|f IH]; intros n acc H; [exact H|].
  rewrite format_digits_step.
  destruct (n <? 10); [discriminate | apply IH; discriminate].
Qed.

Lemma format_digits_nonempty :
  forall f n acc, strconv.format_digits (S f) n acc <> EmptyString.
Proof.
  intros f n acc. rewrite format_digits_step.
  destruct (n <? 10); [discriminate|].
  apply format_digits_acc_nonempty. discriminate.
Qed.

Lemma format_digits_no_dot :
  forall fuel n acc,
    0 <= n ->
    strings.Contains (strconv.format_digits fuel n acc) "."
    = strings.Contains acc ".".
Proof.
  induction fuel as [|f IH]; intros n acc Hn; [reflexivity|].
  rewrite format_digits_step.
  assert (Hd : 0 <= n mod 10 <= 9)
    by (pose proof (Z.mod_pos_bound n 10); lia).
  destruct (n <? 10).
  - cbn [strings.Contains]. rewrite (digit_char_not_dot _ Hd). reflexivity.
  - rewrite IH by (apply Z.div_pos; lia).
    cbn [strings.Contains]. rewrite (digit_char_not_dot _ Hd). reflexivity.
Qed.

Lemma maxInt_lt_pow20 : maxInt < 10 ^ Z.of_nat 20.
Proof. reflexivity. Qed.

Lemma FormatInt_nonneg :
  forall n, 0 <= n ->
    strconv.FormatInt n = strconv.format_digits 20 n EmptyString.
Proof.
  intros n Hn. unfold strconv.FormatInt.
  destruct (Z.ltb_spec n 0); [lia | reflexivity].
Qed.

Lemma parse_component_FormatInt :
  forall n, 0 <= n <= maxInt ->
    parseObjectIdentifier_component (strconv.FormatInt n) = Some n.
Proof.
  intros n Hn. rewrite FormatInt_nonneg by lia.
  unfold parseObjectIdentifier_component.
  pose proof (format_digits_nonempty 19 n EmptyString) as NE.
  pose proof maxInt_lt_pow20 as B.
  rewrite parse_format_digits by lia.
  cbn [strconv.parse_digits].
  destruct (strconv.format_digits 20 n EmptyString); [contradiction|].
  destruct (Z.leb_spec n maxInt); [reflexivity | lia].
Qed.

Lemma FormatInt_no_dot :
  forall n, 0 <= n -> strings.Contains (strconv.FormatInt n) "." = false.
Proof.
  intros n Hn. rewrite FormatInt_nonneg by lia.
  rewrite format_digits_no_dot by lia. reflexivity.
Qed.

Lemma Split_no_sep :
  forall s sep, strings.Contains s sep = false -> strings.Split s sep = [s].
Proof.
  induction s as [|c r IH]; intros sep H; simpl in *; [reflexivity|].
  destruct (Ascii.eqb c sep); [discriminate|].
  rewrite (IH sep H). reflexivity.
Qed.

Lemma Split_Join :
  forall parts sep,
    parts <> [] ->
    Forall (fun p => strings.Contains p sep = false) parts ->
    strings.Split (strings.Join parts sep) sep = parts.
Proof.
  induction parts as [|e rest IH]; intros sep Hne Hall; [contradiction|].
  inversion Hall as [|? ? He Hrest]; subst.
  destruct rest as [|e2 rest'].
  - simpl. apply Split_no_sep; assumption.
  - change (strings.Join (e :: e2 :: rest') sep)
      with (e ++ String sep (strings.Join (e2 :: rest') sep))%string.
    rewrite Split_prefixed by assumption.
    rewrite IH; [reflexivity | discriminate | assumption].
Qed.

Lemma Join_Split :
  forall s sep, strings.Join (strings.Split s sep) sep = s.
Proof.
  induction s as [|c r IH]; intro sep; [reflexivity|].
  cbn [strings.Split].
  pose proof (Split_nonempty r sep) as NE. specialize (IH sep).
  destruct (Ascii.eqb_spec c sep) as [->|_].
  - destruct (strings.Split r sep) as [|h t]; [contradiction|].
    change (strings.Join (EmptyString :: h :: t) sep)
      with (String sep (strings.Join (h :: t) sep)).
    rewrite IH. reflexivity.
  - destruct (strings.Split r sep) as [|h t]; [contradiction|].
    destruct t as [|h2 t'].
    + simpl in *. rewrite IH. reflexivity.
    + change (strings.Join (String c h :: h2 :: t') sep)
        with (String c (strings.Join (h :: h2 :: t') sep)).
      rewrite IH. reflexivity.
Qed.

Lemma parse_components_FormatInt :
  forall oid,
    Forall (fun c => 0 <= c <= maxInt) oid ->
    parseObjectIdentifier_components (map strconv.FormatInt oid) = Some oid.
Proof.
  induction oid as [|n oid IH]; intro H; [reflexivity|].
  inversion H as [|? ? Hn Hrest]; subst.
  cbn [map parseObjectIdentifier_components].
  rewrite (parse_component_FormatInt n Hn), (IH Hrest). reflexivity.
Qed.

(** [parse(format(oid)) == oid] *)
Lemma parse_format_oid :
  forall oid,
    valid_oid oid ->
    parseObjectIdentifier (asn1.ObjectIdentifier_String oid) = Ok oid.
Proof.
  intros oid [Hne Hall].
  unfold parseObjectIdentifier, asn1.ObjectIdentifier_String.
  rewrite Split_Join.
  - rewrite (parse_components_FormatInt oid Hall).
    destruct oid; [contradiction | reflexivity].
  - destruct oid; [contradiction | discriminate].
  - apply Forall_map. eapply Forall_impl; [|exact Hall].
    intros c Hc. cbv beta in Hc. apply FormatInt_no_dot. lia.
Qed.

Lemma string_app_nil_r : forall s : string, (s ++ EmptyString)%string = s.
Proof.
  induction s as [|c s IH]; simpl; [reflexivity | now rewrite IH].
Qed.

Lemma parse_digits_lower_bound :
  forall s a v,
    1 <= a -> strconv.parse_digits s a = Some v ->
    a * 10 ^ Z.of_nat (String.length s) <= v.
Proof.
  induction s as [|c r IH]; intros a v Ha H.
  - simpl in H. injection H as <-. simpl. lia.
  - cbn [strconv.parse_digits] in H.
    destruct (strconv.digit c) as [d|] eqn:D; [|discriminate].
    pose proof (digit_range _ _ D) as Hd.
    apply IH in H; [|lia].
    cbn [String.length]. rewrite Nat2Z.inj_succ, Z.pow_succ_r by lia.
    assert (0 < 10 ^ Z.of_nat (String.length r))
      by (apply Z.pow_pos_nonneg; lia).
    nia.
Qed.

(** Writing back what [parse_digits] read. *)
Lemma format_parse_digits :
  forall s a v acc fuel,
    1 <= a -> strconv.parse_digits s a = Some v ->
    (String.length s <= fuel)%nat ->
    strconv.format_digits fuel v acc
    = strconv.format_digits (fuel - String.length s) a (s ++ acc)%string.
Proof.
  induction s as [|c r IH]; intros a v acc fuel Ha H Hlen.
  - simpl in H. injection H as <-. cbn [String.length].
    rewrite Nat.sub_0_r. reflexivity.
  - cbn [strconv.parse_digits] in H.
    destruct (strconv.digit c) as [d|] eqn:D; [|discriminate].
    pose proof (digit_range _ _ D) as Hd.
    cbn [String.length] in Hlen.
    rewrite (IH (a * 10 + d) v acc fuel) by (try assumption; lia).
    replace (fuel - String.length r)%nat
      with (S (fuel - String.length (String c r)))
      by (cbn [String.length]; lia).
    rewrite format_digits_step.
    destruct (Z.ltb_spec (a * 10 + d) 10); [lia|].
    replace ((a * 10 + d) / 10) with a
      by (apply (Z.div_unique (a * 10 + d) 10 a d); lia).
    replace ((a * 10 + d) mod 10) with d
      by (apply (Z.mod_unique (a * 10 + d) 10 a d); lia).
    rewrite (digit_char_digit _ _ D). reflexivity.
Qed.

Lemma canonical_component_equation :
  forall c r,
    canonical_component (String c r) =
      if Ascii.eqb c "0" then
        match r with EmptyString => true | _ => false end
      else
        match strconv.parse_digits (String c r) 0 with
        | Some n => n <=? maxInt
        | None => false
        end.
Proof.
  intros c r. destruct c as [[] [] [] [] [] [] [] []]; reflexivity.
Qed.

Lemma pow19_gt_maxInt : maxInt < 10 ^ 19.
Proof. reflexivity. Qed.

Lemma canonical_component_round_trip :
  forall p,
    canonical_component p = true ->
    exists n,
      parseObjectIdentifier_component p = Some n
      /\ 0 <= n <= maxInt /\ strconv.FormatInt n = p.
Proof.
  intros p H. destruct p as [|c r]; [discriminate|].
  rewrite canonical_component_equation in H.
  destruct (Ascii.eqb_spec c "0") as [->|Hc].
  - destruct r; [|discriminate].
    exists 0. repeat split; try reflexivity; unfold maxInt; lia.
  - destruct (strconv.parse_digits (String c r) 0) as [n|] eqn:P;
      [|discriminate].
    apply Z.leb_le in H.
    exists n.
    assert (Hn : 0 <= n) by (eapply parse_digits_nonneg; [|exact P]; lia).
    split; [|split; [lia|]].
    + unfold parseObjectIdentifier_component. rewrite P.
      destruct (Z.leb_spec n maxInt); [reflexivity | lia].
    + cbn [strconv.parse_digits] in P.
      destruct (strconv.digit c) as [d|] eqn:D; [|discriminate].
      pose proof (digit_range _ _ D) as Hd.
      assert (Hd1 : 1 <= d).
      { destruct (Z.eq_dec d 0) as [->|]; [|lia].
        exfalso. apply Hc. symmetry. exact (digit_char_digit _ _ D). }
      replace (0 * 10 + d) with d in P by lia.
      pose proof (parse_digits_lower_bound _ _ _ Hd1 P) as LB.
      assert (Hlen : (String.length r < 19)%nat).
      { destruct (Nat.lt_ge_cases (String.length r) 19) as [|Hge];
          [assumption|].
        exfalso.
        assert (10 ^ 19 <= 10 ^ Z.of_nat (String.length r))
          by (apply Z.pow_le_mono_r; lia).
        pose proof pow19_gt_maxInt. nia. }
      rewrite FormatInt_nonneg by lia.
      rewrite (format_parse_digits r d n EmptyString 20 Hd1 P) by lia.
      replace (20 - String.length r)%nat
        with (S (19 - String.length r)) by lia.
      rewrite format_digits_step.
      destruct (Z.ltb_spec d 10); [|lia].
      rewrite Z.mod_small by lia.
      rewrite (digit_char_digit _ _ D), string_app_nil_r. reflexivity.
Qed.

Lemma canonical_components_round_trip :
  forall parts,
    forallb canonical_component parts = true ->
    exists ns,
      parseObjectIdentifier_components parts = Some ns
      /\ Forall (fun c => 0 <= c <= maxInt) ns
      /\ map strconv.FormatInt ns = parts.
Proof.
  induction parts as [|p parts IH]; intro H.
  - exists []. repeat split. constructor.
  - cbn [forallb] in H. apply andb_prop in H. destruct H as [Hp Hrest].
    destruct (canonical_component_round_trip p Hp) as (n & Pn & Rn & Fn).
    destruct (IH Hrest) as (ns & Pns & Rns & Fns).
    exists (n :: ns). cbn [parseObjectIdentifier_components map].
    rewrite Pn, Pns, Fn, Fns. repeat split. constructor; assumption.
Qed.

(** [format(parse(s)) == s] *)
Lemma format_parse_oid :
  forall s,
    well_formed_oid s = true ->
    exists oid,
      parseObjectIdentifier s = Ok oid /\ valid_oid oid
      /\ asn1.ObjectIdentifier_String oid = s.
Proof.
  intros s H. unfold well_formed_oid in H.
  destruct (canonical_components_round_trip _ H) as (ns & P & R & F).
  exists ns. unfold parseObjectIdentifier, asn1.ObjectIdentifier_String.
  rewrite P, F, Join_Split.
  pose proof (Split_nonempty s ".") as NE.
  destruct ns as [|n ns'].
  - simpl in F. rewrite <- F in NE. contradiction.
  - repeat split; [discriminate | assumption].
Qed.



Example ObjectIdentifier_text_examples :
  parseObjectIdentifier "2.5.29.17" = Ok [2; 5; 29; 17] /\
  asn1.ObjectIdentifier_String [2; 5; 29; 17] = "2.5.29.17" /\
  parseObjectIdentifier "" = Err (ParseError "") /\
  parseObjectIdentifier "1..2" = Err (ParseError "1..2") /\
  parseObjectIdentifier "1.-2" = Err (ParseError "1.-2") /\
  parseObjectIdentifier "01.2" = Ok [1; 2] /\
  asn1.ObjectIdentifier_String [1; 2] = "1.2" /\
  well_formed_oid "01.2" = false /\ well_formed_oid "1.2" = true /\
  well_formed_oid "7" = true.
Proof. repeat split; reflexivity. Qed.

(** ** Usage names *)

Lemma lower_byte_idempotent :
  forall c, strings.lower_byte (strings.lower_byte c) = strings.lower_byte c.
Proof.
  intro c. destruct c as [[] [] [] [] [] [] [] []]; reflexivity.
Qed.

Lemma lower_byte_underscore :
  forall c, Ascii.eqb (strings.lower_byte c) "_" = Ascii.eqb c "_".
Proof.
  intro c. destruct c as [[] [] [] [] [] [] [] []]; reflexivity.
Qed.

Lemma ToLower_idempotent :
  forall s, strings.ToLower (strings.ToLower s) = strings.ToLower s.
Proof.
  induction s as [|c s IH]; simpl; [reflexivity|].
  rewrite lower_byte_idempotent, IH. reflexivity.
Qed.

Lemma ToLower_app :
  forall a b,
    strings.ToLower (a ++ b)%string
    = (strings.ToLower a ++ strings.ToLower b)%string.
Proof.
  induction a as [|c a IH]; intro b; simpl; [reflexivity|].
  rewrite IH. reflexivity.
Qed.

Lemma strings_remove_app :
  forall a b old,
    strings_remove (a ++ b)%string old
    = (strings_remove a old ++ strings_remove b old)%string.
Proof.
  induction a as [|c a IH]; intros b old; simpl; [reflexivity|].
  destruct (Ascii.eqb c old); simpl; rewrite IH; reflexivity.
Qed.

Lemma strings_remove_idempotent :
  forall s old,
    strings_remove (strings_remove s old) old = strings_remove s old.
Proof.
  induction s as [|c s IH]; intro old; simpl; [reflexivity|].
  destruct (Ascii.eqb c old) eqn:E; [apply IH|].
  simpl. rewrite E, IH. reflexivity.
Qed.

Lemma strings_remove_gone :
  forall s old, strings.Contains (strings_remove s old) old = false.
Proof.
  induction s as [|c s IH]; intro old; simpl; [reflexivity|].
  destruct (Ascii.eqb c old) eqn:E; [apply IH|].
  simpl. rewrite E. apply IH.
Qed.

Lemma ToLower_strings_remove :
  forall s,
    strings.ToLower (strings_remove s "_")
    = strings_remove (strings.ToLower s) "_".
Proof.
  induction s as [|c s IH]; [reflexivity|].
  cbn [strings_remove strings.ToLower].
  rewrite lower_byte_underscore.
  destruct (Ascii.eqb c "_"); [exact IH|].
  cbn [strings.ToLower]. rewrite IH. reflexivity.
Qed.

Lemma convertName_app :
  forall a b, convertName (a ++ b)%string
              = (convertName a ++ convertName b)%string.
Proof.
  intros a b. unfold convertName.
  rewrite ToLower_app, strings_remove_app. reflexivity.
Qed.



Lemma KeyUsage_case_power :
  forall s ku,
    KeyUsage_case s = Some ku -> exists j, 0 <= j < 9 /\ ku = 2 ^ j.
Proof.
  intros s ku H. unfold KeyUsage_case in H.
  repeat match type of H with
         | (if ?c then _ else _) = _ =>
             destruct c;
             [injection H as <-;
              first [ exists 0; split; [lia | reflexivity]
                    | exists 1; split; [lia | reflexivity]
                    | exists 2; split; [lia | reflexivity]
                    | exists 3; split; [lia | reflexivity]
                    | exists 4; split; [lia | reflexivity]
                    | exists 5; split; [lia | reflexivity]
                    | exists 6; split; [lia | reflexivity]
                    | exists 7; split; [lia | reflexivity]
                    | exists 8; split; [lia | reflexivity] ] |]
         end.
  discriminate.
Qed.

Lemma lor_below_512 :
  forall a b, 0 <= a < 512 -> 0 <= b < 512 -> 0 <= Z.lor a b < 512.
Proof.
  intros a b Ha Hb.
  assert (N : 0 <= Z.lor a b) by (apply Z.lor_nonneg; lia).
  split; [exact N|].
  destruct (Z.eq_dec (Z.lor a b) 0) as [E|E]; [lia|].
  change 512 with (2 ^ 9). apply Z.log2_lt_pow2; [lia|].
  rewrite Z.log2_lor by lia.
  assert (La : Z.log2 a < 9).
  { destruct (Z.eq_dec a 0) as [->|]; [reflexivity|].
    apply Z.log2_lt_pow2; [lia|]. change (2 ^ 9) with 512. lia. }
  assert (Lb : Z.log2 b < 9).
  { destruct (Z.eq_dec b 0) as [->|]; [reflexivity|].
    apply Z.log2_lt_pow2; [lia|]. change (2 ^ 9) with 512. lia. }
  lia.
Qed.

Lemma KeyUsage_loop_known :
  forall ms k,
    0 <= k < 512 ->
    (forall s, In s ms -> KeyUsage_case s <> None) ->
    exists k',
      KeyUsage_loop ms k = (k', None) /\ 0 <= k' < 512 /\
      forall i, 0 <= i ->
        (Z.testbit k' i = true <->
         Z.testbit k i = true
         \/ exists s, In s ms /\ KeyUsage_case s = Some (2 ^ i)).
Proof.
  induction ms as [|s ms IH]; intros k Hk Hall.
  - exists k. split; [reflexivity|]. split; [exact Hk|].
    intros i Hi. split; [auto|]. intros [H|(s & [] & _)]. exact H.
  - cbn [KeyUsage_loop].
    destruct (KeyUsage_case s) as [ku|] eqn:C;
      [|exfalso; apply (Hall s); [left; reflexivity | exact C]].
    destruct (KeyUsage_case_power s ku C) as (j & Hj & ->).
    assert (B : 0 <= 2 ^ j < 512).
    { split; [apply Z.pow_nonneg; lia|].
      change 512 with (2 ^ 9). apply Z.pow_lt_mono_r; lia. }
    destruct (IH (Z.lor k (2 ^ j)) (lor_below_512 _ _ Hk B)
                (fun s' H' => Hall s' (or_intror H'))) as (k' & E & Bk & Bits).
    exists k'. split; [exact E|]. split; [exact Bk|].
    intros i Hi. rewrite (Bits i Hi), Z.lor_spec, orb_true_iff.
    rewrite Z.pow2_bits_eqb by lia. rewrite Z.eqb_eq.
    split.
    + intros [[H|H]|(s' & Hin & Hs')].
      * left; exact H.
      * right. exists s. split; [left; reflexivity|]. subst i. exact C.
      * right. exists s'. split; [right; exact Hin | exact Hs'].
    + intros [H|(s' & [<-|Hin] & Hs')].
      * left; left; exact H.
      * left; right. rewrite C in Hs'. injection Hs' as Hp.
        apply (Z.pow_inj_r 2); [lia | lia | lia | exact Hp].
      * right. exists s'. split; assumption.
Qed.

(** X2. [KeyUsage.UnmarshalJSON] on names it all knows: it returns no
    error and leaves in the receiver, whatever it held before, a value
    below 512 in which bit [i] is set exactly when one of the names stands
    for the usage [1 << i]; so neither the order of the names nor
    repetitions matter. *)
Theorem KeyUsage_UnmarshalJSON_bits :
  forall (Data : Type) (unmarshalMultiString : Data -> result (list string))
         (k0 : Z) (data : Data) (ms : list string),
    unmarshalMultiString data = Ok ms ->
    (forall s, In s ms -> KeyUsage_case s <> None) ->
    exists k,
      KeyUsage_UnmarshalJSON unmarshalMultiString k0 data = (k, None)
      /\ 0 <= k < 512
      /\ forall i, 0 <= i ->
           (Z.testbit k i = true <->
            exists s, In s ms /\ KeyUsage_case s = Some (2 ^ i)).
Proof.
  intros Data umms k0 data ms Hd Hall.
  unfold KeyUsage_UnmarshalJSON. rewrite Hd.
  destruct (KeyUsage_loop_known ms 0 ltac:(lia) Hall) as (k & E & B & Bits).
  exists k. split; [exact E|]. split; [exact B|].
  intros i Hi. rewrite (Bits i Hi), Z.bits_0.
  split; [intros [H|H]; [discriminate | exact H] | auto].
Qed.

Lemma KeyUsage_UnmarshalJSON_bits_witness :
  exists k,
    KeyUsage_UnmarshalJSON (fun ms : list string => Ok ms) 7
      ["cert_sign"; "CRLSign"; "certSign"] = (k, None)
    /\ 0 <= k < 512.
Proof.
  destruct (KeyUsage_UnmarshalJSON_bits (list string) (fun ms => Ok ms) 7
              ["cert_sign"; "CRLSign"; "certSign"]
              ["cert_sign"; "CRLSign"; "certSign"] eq_refl) as (k & E & B & _).
  - intros s [<-|[<-|[<-|[]]]]; discriminate.
  - exists k. split; assumption.
Defined.

Lemma KeyUsage_loop_first_unknown :
  forall pre s post k,
    0 <= k < 512 ->
    (forall p, In p pre -> KeyUsage_case p <> None) ->
    KeyUsage_case s = None ->
    exists k',
      KeyUsage_loop (pre ++ s :: post) k
        = (k', Some ("unsupported keyUsage " ++ s)%string)
      /\ KeyUsage_loop pre k = (k', None).
Proof.
  induction pre as [|p pre IH]; intros s post k Hk Hpre Hs.
  - exists k. cbn [app KeyUsage_loop]. rewrite Hs. split; reflexivity.
  - cbn [app KeyUsage_loop].
    destruct (KeyUsage_case p) as [ku|] eqn:C;
      [|exfalso; apply (Hpre p); [left; reflexivity | exact C]].
    destruct (KeyUsage_case_power p ku C) as (j & Hj & ->).
    assert (B : 0 <= 2 ^ j < 512).
    { split; [apply Z.pow_nonneg; lia|].
      change 512 with (2 ^ 9). apply Z.pow_lt_mono_r; lia. }
    apply IH; [apply lor_below_512; assumption | | exact Hs].
    intros p' H'. apply Hpre. right. exact H'.
Qed.

(** X3. [KeyUsage.UnmarshalJSON] on a list with an ASCII name it does not
    know: it returns "unsupported keyUsage <name>" for the first such name, and
    the receiver is not restored: it is left holding the usages of the
    names before that one (zero when the first name is unknown), whatever
    it held before the call. *)
Theorem KeyUsage_UnmarshalJSON_unknown :
  forall (Data : Type) (unmarshalMultiString : Data -> result (list string))
         (k0 : Z) (data : Data) (pre post : list string) (s : string),
    unmarshalMultiString data = Ok (pre ++ s :: post) ->
    (forall p, In p pre -> KeyUsage_case p <> None) ->
    strings.is_ascii s = true ->
    KeyUsage_case s = None ->
    exists k,
      KeyUsage_UnmarshalJSON unmarshalMultiString k0 data
        = (k, Some ("unsupported keyUsage " ++ s)%string)
      /\ KeyUsage_loop pre 0 = (k, None)
      /\ (pre = [] -> k = 0).
Proof.
  intros Data umms k0 data pre post s Hd Hpre _ Hs.
  unfold KeyUsage_UnmarshalJSON. rewrite Hd.
  destruct (KeyUsage_loop_first_unknown pre s post 0 ltac:(lia) Hpre Hs)
    as (k & E & P).
  exists k. split; [exact E|]. split; [exact P|].
  intros ->. simpl in P. injection P as <-. reflexivity.
Qed.

Lemma KeyUsage_UnmarshalJSON_unknown_witness :
  KeyUsage_UnmarshalJSON (fun ms : list string => Ok ms) 7
    ["certSign"; "sign"; "crlSign"]
  = (32, Some "unsupported keyUsage sign").
Proof.
  destruct (KeyUsage_UnmarshalJSON_unknown (list string) (fun ms => Ok ms) 7
              ["certSign"; "sign"; "crlSign"] ["certSign"] ["crlSign"] "sign"
              eq_refl) as (k & E & P & _).
  - intros p [<-|[]]; discriminate.
  - reflexivity.
  - reflexivity.
  - rewrite E. injection P as <-. reflexivity.
Defined.


Example usage_names_examples :
  KeyUsage_case "digital_signature" = Some 1 /\
  KeyUsage_case "DigitalSignature" = Some 1 /\
  KeyUsage_case "CRL_Sign" = Some 64 /\
  KeyUsage_case "decipherOnly" = Some 256 /\
  KeyUsage_case "serverAuth" = None /\
  ExtKeyUsage_case "serverAuth" = Some 1 /\
  ExtKeyUsage_case "ANY" = Some 0 /\
  ExtKeyUsage_case "microsoft_kernel_code_signing" = Some 13.
Proof. repeat split; reflexivity. Qed.

Lemma ExtKeyUsage_case_range :
  forall s ku, ExtKeyUsage_case s = Some ku -> 0 <= ku <= 13.
Proof.
  intros s ku H. unfold ExtKeyUsage_case in H.
  repeat match type of H with
         | (if ?c then _ else _) = _ =>
             destruct c; [injection H as <-; vm_compute; split; discriminate|]
         end.
  discriminate.
Qed.

(** X5. The loop of [ExtKeyUsage.UnmarshalJSON] succeeds exactly when it
    knows every name, and then yields one usage per name, in the order of
    the names and with repetitions kept, each between 0 and 13. *)
Theorem ExtKeyUsage_loop_elementwise :
  forall (ms : list string) (eku : list Z),
    ExtKeyUsage_loop ms = Ok eku <->
    map ExtKeyUsage_case ms = map Some eku.
Proof.
  induction ms as [|s ms IH]; intro eku; cbn [ExtKeyUsage_loop map].
  - split.
    + intro H. injection H as <-. reflexivity.
    + destruct eku; [reflexivity | discriminate].
  - destruct (ExtKeyUsage_case s) as [ku|].
    + destruct (ExtKeyUsage_loop ms) as [rest|e].
      * split.
        -- intro H. injection H as <-. cbn [map]. f_equal.
           apply IH. reflexivity.
        -- destruct eku as [|k eku']; [discriminate|].
           cbn [map]. intro H. injection H as -> H.
           apply IH in H. injection H as ->. reflexivity.
      * split; [discriminate|].
        destruct eku as [|k eku']; [discriminate|].
        cbn [map]. intro H. injection H as _ H.
        apply IH in H. discriminate.
    + split; [discriminate|].
      destruct eku; discriminate.
Qed.

Lemma ExtKeyUsage_loop_elementwise_witness :
  ExtKeyUsage_loop ["client_auth"; "ServerAuth"; "clientAuth"] = Ok [2; 1; 2].
Proof.
  apply (ExtKeyUsage_loop_elementwise
           ["client_auth"; "ServerAuth"; "clientAuth"] [2; 1; 2]).
  reflexivity.
Defined.

Lemma ExtKeyUsage_loop_first_unknown :
  forall pre s post,
    (forall p, In p pre -> ExtKeyUsage_case p <> None) ->
    ExtKeyUsage_case s = None ->
    ExtKeyUsage_loop (pre ++ s :: post)
    = Err ("unsupported extKeyUsage " ++ s)%string.
Proof.
  induction pre as [|p pre IH]; intros s post Hpre Hs;
    cbn [app ExtKeyUsage_loop].
  - rewrite Hs. reflexivity.
  - destruct (ExtKeyUsage_case p) eqn:C;
      [|exfalso; apply (Hpre p); [left; reflexivity | exact C]].
    rewrite IH; [reflexivity | | exact Hs].
    intros p' H'. apply Hpre. right. exact H'.
Qed.

(** X6. [ExtKeyUsage.UnmarshalJSON] on a list with an ASCII name it does
    not know returns "unsupported extKeyUsage <name>" for the first such
    name and leaves the receiver as it was; on names it all knows it
    replaces the receiver by one usage per name, in order. *)
Theorem ExtKeyUsage_UnmarshalJSON_result :
  forall (Data : Type) (unmarshalMultiString : Data -> result (list string))
         (k0 : list Z) (data : Data),
    (forall pre s post,
       unmarshalMultiString data = Ok (pre ++ s :: post) ->
       (forall p, In p pre -> ExtKeyUsage_case p <> None) ->
       strings.is_ascii s = true ->
       ExtKeyUsage_case s = None ->
       ExtKeyUsage_UnmarshalJSON unmarshalMultiString k0 data
       = (k0, Some ("unsupported extKeyUsage " ++ s)%string)) /\
    (forall ms eku,
       unmarshalMultiString data = Ok ms ->
       map ExtKeyUsage_case ms = map Some eku ->
       ExtKeyUsage_UnmarshalJSON unmarshalMultiString k0 data = (eku, None)
       /\ List.length eku = List.length ms
       /\ Forall (fun ku => 0 <= ku <= 13) eku).
Proof.
  intros Data umms k0 data. split.
  - intros pre s post Hd Hpre _ Hs. unfold ExtKeyUsage_UnmarshalJSON.
    rewrite Hd, (ExtKeyUsage_loop_first_unknown pre s post Hpre Hs).
    reflexivity.
  - intros ms eku Hd Hm. unfold ExtKeyUsage_UnmarshalJSON.
    rewrite Hd. rewrite (proj2 (ExtKeyUsage_loop_elementwise ms eku) Hm).
    split; [reflexivity|]. split.
    + apply (f_equal (@List.length (option Z))) in Hm.
      rewrite !length_map in Hm. symmetry. exact Hm.
    + clear Hd. revert ms Hm.
      induction eku as [|ku eku IH]; intros ms Hm; constructor.
      * destruct ms as [|s ms]; [discriminate|].
        cbn [map] in Hm. injection Hm as Hs _.
        eapply ExtKeyUsage_case_range; eauto.
      * destruct ms as [|s ms]; [discriminate|].
        cbn [map] in Hm. injection Hm as _ Hm. eapply IH; eauto.
Qed.

Lemma ExtKeyUsage_UnmarshalJSON_result_witness :
  ExtKeyUsage_UnmarshalJSON (fun ms : list string => Ok ms) [9]
    ["serverAuth"; "tls"; "clientAuth"]
  = ([9], Some "unsupported extKeyUsage tls") /\
  ExtKeyUsage_UnmarshalJSON (fun ms : list string => Ok ms) [9]
    ["client_auth"; "ServerAuth"; "clientAuth"]
  = ([2; 1; 2], None).
Proof.
  destruct (ExtKeyUsage_UnmarshalJSON_result (list string) (fun ms => Ok ms)
              [9] ["serverAuth"; "tls"; "clientAuth"]) as [U _].
  destruct (ExtKeyUsage_UnmarshalJSON_result (list string) (fun ms => Ok ms)
              [9] ["client_auth"; "ServerAuth"; "clientAuth"]) as [_ K].
  split.
  - apply (U ["serverAuth"] "tls" ["clientAuth"] eq_refl);
      [intros p [<-|[]]; discriminate | reflexivity | reflexivity].
  - apply (K ["client_auth"; "ServerAuth"; "clientAuth"] [2; 1; 2] eq_refl).
    reflexivity.
Defined.

(** ** Serial numbers: writing and reading back *)

Lemma decimal_fuel_enough :
  forall n, 0 <= n -> n < 10 ^ Z.of_nat (S (Z.to_nat (Z.log2 n))).
Proof.
  intros n Hn.
  rewrite Nat2Z.inj_succ, Z2Nat.id by apply Z.log2_nonneg.
  destruct (Z.eq_dec n 0) as [->|Hz]; [reflexivity|].
  pose proof (Z.log2_spec n ltac:(lia)) as [_ Hlt].
  pose proof (Z.log2_nonneg n) as Hl.
  assert (2 ^ Z.succ (Z.log2 n) <= 10 ^ Z.succ (Z.log2 n))
    by (apply Z.pow_le_mono_l; lia).
  lia.
Qed.

Lemma format_digits_head :
  forall fuel n acc,
    0 <= n -> starts_with_digit acc ->
    starts_with_digit (strconv.format_digits fuel n acc).
Proof.
  induction fuel as [|f IH]; intros n acc Hn Hacc; [exact Hacc|].
  rewrite format_digits_step.
  assert (Hd : 0 <= n mod 10 <= 9)
    by (pose proof (Z.mod_pos_bound n 10); lia).
  destruct (n <? 10).
  - exists (n mod 10), acc. split; [reflexivity | exact Hd].
  - apply IH; [apply Z.div_pos; lia|].
    exists (n mod 10), acc. split; [reflexivity | exact Hd].
Qed.

Lemma format_digits_head_S :
  forall f n acc,
    0 <= n -> starts_with_digit (strconv.format_digits (S f) n acc).
Proof.
  intros f n acc Hn. rewrite format_digits_step.
  assert (Hd : 0 <= n mod 10 <= 9)
    by (pose proof (Z.mod_pos_bound n 10); lia).
  destruct (n <? 10).
  - exists (n mod 10), acc. split; [reflexivity | exact Hd].
  - apply format_digits_head; [apply Z.div_pos; lia|].
    exists (n mod 10), acc. split; [reflexivity | exact Hd].
Qed.

Lemma digit_char_no_sign :
  forall d, 0 <= d <= 9 ->
    Ascii.eqb (strconv.digit_char d) "-" = false
    /\ Ascii.eqb (strconv.digit_char d) "+" = false.
Proof.
  intros d H.
  assert (C : d = 0 \/ d = 1 \/ d = 2 \/ d = 3 \/ d = 4 \/ d = 5 \/ d = 6
              \/ d = 7 \/ d = 8 \/ d = 9) by lia.
  repeat (destruct C as [->|C]; [split; reflexivity|]).
  subst d. split; reflexivity.
Qed.

(** [strconv.Atoi] on the decimal text of a number: the number when it
    fits an [int], an error otherwise. *)
Lemma Atoi_big_Int_text :
  forall x,
    strconv.Atoi (big_Int_text x)
    = if (minInt <=? x) && (x <=? maxInt) then Some x else None.
Proof.
  intro x. unfold big_Int_text.
  pose proof (decimal_fuel_enough (Z.abs x) (Z.abs_nonneg x)) as F.
  pose proof (parse_format_digits (S (Z.to_nat (Z.log2 (Z.abs x)))) (Z.abs x)
                EmptyString ltac:(lia) (conj (Z.abs_nonneg x) F)) as P.
  cbn [strconv.parse_digits] in P.
  destruct (format_digits_head_S (Z.to_nat (Z.log2 (Z.abs x))) (Z.abs x)
              EmptyString (Z.abs_nonneg x)) as (d & r & E & Hd).
  rewrite E in P |- *.
  destruct (digit_char_no_sign d Hd) as [M Pl].
  destruct (Z.ltb_spec x 0) as [Hneg|Hpos].
  - unfold strconv.Atoi.
    change (Ascii.eqb "-" "-") with true. cbv beta iota zeta. simpl orb.
    cbv iota. rewrite P.
    replace (- Z.abs x) with x by lia. reflexivity.
  - unfold strconv.Atoi. rewrite M, Pl. cbv beta iota zeta. simpl orb.
    cbv iota. rewrite P.
    replace (Z.abs x) with x by lia. reflexivity.
Qed.

(** X7. [SerialNumber.MarshalJSON] writes a serial number as a bare JSON
    number.  [SerialNumber.UnmarshalJSON] reads that number back to the
    same serial number when it fits 64 bits, and rejects it when it does
    not; a nil serial number is written as [null], which reads back as the
    serial number 0. *)
Theorem SerialNumber_JSON_round_trip :
  forall sn : SerialNumber.t,
    exists literal,
      SerialNumber_MarshalJSON (Some sn) = Ok (JSONNumber literal)
      /\ (minInt <= SerialNumber.Int sn <= maxInt ->
          SerialNumber_UnmarshalJSON (JSONNumber literal) = Ok sn)
      /\ (SerialNumber.Int sn < minInt \/ maxInt < SerialNumber.Int sn ->
          SerialNumber_UnmarshalJSON (JSONNumber literal)
          = Err ("error unmarshaling json: json: cannot unmarshal number "
                 ++ literal ++ " into Go value of type int64")%string)
      /\ SerialNumber_MarshalJSON None = Ok JSONNull
      /\ SerialNumber_UnmarshalJSON JSONNull = Ok (SerialNumber.mk 0).
Proof.
  intros [x]. exists (big_Int_text x). cbn [SerialNumber.Int].
  split; [reflexivity|].
  unfold SerialNumber_UnmarshalJSON.
  cbn [maybeString json_Unmarshal_int64].
  rewrite Atoi_big_Int_text.
  repeat split.
  - intros [Hlo Hhi].
    destruct (Z.leb_spec minInt x); [|lia].
    destruct (Z.leb_spec x maxInt); [|lia]. reflexivity.
  - intros [H|H].
    + destruct (Z.leb_spec minInt x); [lia|]. reflexivity.
    + destruct (Z.leb_spec x maxInt); [lia|].
      rewrite andb_false_r. reflexivity.
Qed.

Lemma SerialNumber_JSON_round_trip_witness :
  exists literal,
    SerialNumber_MarshalJSON
      (Some (SerialNumber.mk 340282366920938463463374607431768211455))
    = Ok (JSONNumber literal)
    /\ SerialNumber_UnmarshalJSON (JSONNumber literal)
       = Err ("error unmarshaling json: json: cannot unmarshal number "
              ++ literal ++ " into Go value of type int64")%string.
Proof.
  destruct (SerialNumber_JSON_round_trip
              (SerialNumber.mk 340282366920938463463374607431768211455))
    as (literal & M & _ & Big & _).
  exists literal. split; [exact M|].
  apply Big. right. vm_compute. reflexivity.
Defined.

Example SerialNumber_MarshalJSON_examples :
  SerialNumber_MarshalJSON (Some (SerialNumber.mk 16)) = Ok (JSONNumber "16") /\
  SerialNumber_MarshalJSON (Some (SerialNumber.mk (-5)))
    = Ok (JSONNumber "-5") /\
  SerialNumber_MarshalJSON (Some (SerialNumber.mk 0)) = Ok (JSONNumber "0") /\
  SerialNumber_MarshalJSON
    (Some (SerialNumber.mk 340282366920938463463374607431768211455))
    = Ok (JSONNumber "340282366920938463463374607431768211455").
Proof. repeat split; reflexivity. Qed.

(** ** Raw extensions *)

Lemma setExtensions_app :
  forall (URL Key : Type) (es : list Extension.t)
         (c : x509cert.Certificate URL Key),
    setExtensions es c
    = match es with
      | [] => c
      | _ => x509cert.set_ExtraExtensions c
               (x509cert.ExtraExtensions c ++ map Extension_pkix es)
      end.
Proof.
  intros URL Key es. unfold setExtensions.
  induction es as [|e es IH]; intro c; [reflexivity|].
  cbn [fold_left]. rewrite IH.
  destruct es as [|e2 es']; [reflexivity|].
  unfold Extension_Set. destruct c; cbn.
  rewrite <- app_assoc. reflexivity.
Qed.

(** X8. Applying, with [Extension.Set] in order, the extensions that
    [newExtensions] makes of a list of [pkix.Extension]s appends exactly
    that list, in the same order, to the certificate's [ExtraExtensions]:
    what was there before is kept in front, no other field changes, and
    each extension keeps its identifier, criticality and value. *)
Theorem newExtensions_Set_round_trip :
  forall (URL Key : Type) (extensions : list pkixExtension.t)
         (c : x509cert.Certificate URL Key),
    let c' := setExtensions (newExtensions extensions) c in
    x509cert.ExtraExtensions c' = x509cert.ExtraExtensions c ++ extensions
    /\ c' = x509cert.set_ExtraExtensions c (x509cert.ExtraExtensions c')
    /\ List.length (newExtensions extensions) = List.length extensions.
Proof.
  intros URL Key extensions c c'. subst c'.
  assert (R : map Extension_pkix (newExtensions extensions) = extensions).
  { unfold newExtensions. rewrite map_map.
    induction extensions as [|e es IH]; [reflexivity|].
    cbn [map]. rewrite IH. destruct e; reflexivity. }
  assert (L : List.length (newExtensions extensions) = List.length extensions)
    by apply length_map.
  rewrite setExtensions_app.
  destruct (newExtensions extensions) as [|e es].
  - cbn [map] in R. subst extensions.
    rewrite app_nil_r. repeat split. destruct c; reflexivity.
  - rewrite R. split; [destruct c; reflexivity|].
    split; [destruct c; reflexivity | exact L].
Qed.

(** ** The SAN extension as a sequence *)

Lemma encodeSAN_sanValues :
  forall san rawValues,
    encodeSAN san rawValues
    = match sanValues san with
      | Ok added => Ok (rawValues ++ added)
      | Err e => Err e
      end.
Proof.
  intros [type value] rawValues. unfold sanValues, encodeSAN.
  cbn [SubjectAlternativeName.Type_ SubjectAlternativeName.Value].
  repeat match goal with
         | |- context [if ?c then _ else _] =>
             destruct c; [try reflexivity|]
         | |- context [match net.ParseIP ?v with _ => _ end] =>
             destruct (net.ParseIP v)
         | |- context [match parseObjectIdentifier ?v with _ => _ end] =>
             destruct (parseObjectIdentifier v)
         | |- context [match otherNameValueBytes ?t ?v with _ => _ end] =>
             destruct (otherNameValueBytes t v)
         end;
    cbn [app]; rewrite ?app_nil_r; reflexivity.
Qed.

Lemma encodeSANs_sansValues :
  forall sans rawValues,
    encodeSANs sans rawValues
    = match sansValues sans with
      | Ok added => Ok (rawValues ++ added)
      | Err e => Err e
      end.
Proof.
  induction sans as [|san sans IH]; intro rawValues;
    cbn [encodeSANs sansValues].
  - rewrite app_nil_r. reflexivity.
  - rewrite encodeSAN_sanValues.
    destruct (sanValues san) as [added|e]; [|reflexivity].
    rewrite IH. destruct (sansValues sans) as [more|e]; [|reflexivity].
    rewrite app_assoc. reflexivity.
Qed.

Lemma sansValues_app :
  forall a b,
    sansValues (a ++ b)
    = match sansValues a with
      | Err e => Err e
      | Ok x =>
          match sansValues b with
          | Err e => Err e
          | Ok y => Ok (x ++ y)
          end
      end.
Proof.
  induction a as [|san a IH]; intro b; cbn [app sansValues].
  - destruct (sansValues b); reflexivity.
  - destruct (sanValues san) as [added|e]; [|reflexivity].
    rewrite IH. destruct (sansValues a) as [x|e]; [|reflexivity].
    destruct (sansValues b) as [y|e]; [|reflexivity].
    rewrite app_assoc. reflexivity.
Qed.

Lemma sanValues_at_most_one :
  forall san added, sanValues san = Ok added -> (List.length added <= 1)%nat.
Proof.
  intros [type value] added. unfold sanValues, encodeSAN.
  cbn [SubjectAlternativeName.Type_ SubjectAlternativeName.Value].
  repeat match goal with
         | |- context [if ?c then _ else _] => destruct c
         | |- context [match net.ParseIP ?v with _ => _ end] =>
             destruct (net.ParseIP v)
         | |- context [match parseObjectIdentifier ?v with _ => _ end] =>
             destruct (parseObjectIdentifier v)
         | |- context [match otherNameValueBytes ?t ?v with _ => _ end] =>
             destruct (otherNameValueBytes t v)
         end;
    intro H; try discriminate; injection H as <-; simpl; lia.
Qed.

(** X9. The value of the SAN extension is the DER SEQUENCE of what the
    entries encode to, taken in the order explicit SANs, DNS names, email
    addresses, URIs, IP addresses.  What an entry encodes to - nothing or
    one element - does not depend on the entries around it, and the
    encoder fails exactly with the error of the first entry that fails. *)
Theorem createSubjectAltNameExtension_sequence :
  forall (URL : Type) (URL_String : URL -> string)
         (IP_String : net.IP -> string) (c : Certificate.t URL),
    let entries kind values := map (SubjectAlternativeName.mk kind) values in
    createSubjectAltNameExtension URL_String IP_String c
    = match
        sansValues
          (Certificate.SANs c
           ++ entries DNSType (Certificate.DNSNames c)
           ++ entries EmailType (Certificate.EmailAddresses c)
           ++ entries URIType (map URL_String (Certificate.URIs c))
           ++ entries IPType (map IP_String (Certificate.IPAddresses c)))
      with
      | Ok values =>
          Ok (Extension.mk [2; 5; 29; 17] false (asn1.Marshal_rawValues values))
      | Err e => Err e
      end
    /\ (forall a b,
          sansValues (a ++ b)
          = match sansValues a with
            | Err e => Err e
            | Ok x =>
                match sansValues b with
                | Err e => Err e
                | Ok y => Ok (x ++ y)
                end
            end)
    /\ (forall san added,
          sanValues san = Ok added -> (List.length added <= 1)%nat).
Proof.
  intros URL URL_String IP_String c entries. subst entries.
  split; [|split; [exact sansValues_app | exact sanValues_at_most_one]].
  unfold createSubjectAltNameExtension, allSANs.
  rewrite encodeSANs_sansValues, !map_map. cbn [app].
  destruct (sansValues _); reflexivity.
Qed.

Lemma createSubjectAltNameExtension_sequence_witness :
  sanValues (SubjectAlternativeName.mk "dns" "a.b")
    = Ok [contextRaw 2 [97; 46; 98]] /\
  (List.length [contextRaw 2 [97; 46; 98]%Z] <= 1)%nat.
Proof.
  destruct (createSubjectAltNameExtension_sequence textURL textURL_String
              noIP_String (sansOnly [])) as (_ & _ & One).
  split; [reflexivity|].
  exact (One (SubjectAlternativeName.mk "dns" "a.b") _ eq_refl).
Defined.

(** ** Which entries the encoder accepts *)

Lemma string_in_false_eqb :
  forall s t l, string_in s l = false -> In t l -> String.eqb s t = false.
Proof.
  intros s t l H Hin. unfold string_in in H.
  destruct (String.eqb s t) eqn:E; [|reflexivity].
  assert (T : existsb (String.eqb s) l = true)
    by (apply existsb_exists; exists t; split; assumption).
  congruence.
Qed.

(** X10. An entry makes the encoder fail in three cases only: its type is
    [x400Address], [dn] or [ediPartyName] ("unimplemented SAN type"); its
    type is not empty, none of the encoder's tags and no dotted OID
    ("unsupported SAN type"); or its type is a dotted OID and the value of
    the otherName is refused.  Entries of type [email], [dns], [uri], [ip],
    [registeredID] and of the empty type never fail, whatever their
    value. *)
Theorem sanValues_error_cases :
  forall (type value : string) (e : error),
    sanValues (SubjectAlternativeName.mk type value) = Err e <->
    (string_in type [X400AddressType; DirectoryNameType; EDIPartyNameType]
       = true
     /\ e = ("unimplemented SAN type " ++ type)%string)
    \/ (string_in type encoderTypes = false /\ type <> EmptyString
        /\ ((exists pe, parseObjectIdentifier type = Err pe)
            /\ e = ("unsupported SAN type " ++ type)%string
            \/ (exists oid, parseObjectIdentifier type = Ok oid)
               /\ otherNameValueBytes type value = Err e)).
Proof.
  intros type value e. unfold sanValues, encodeSAN.
  cbn [SubjectAlternativeName.Type_ SubjectAlternativeName.Value].
  unfold string_in, encoderTypes. cbn [existsb].
  destruct (String.eqb_spec type EmailType) as [->|N1].
  { split; [discriminate|].
    intros [[H _]|[H _]]; vm_compute in H; discriminate. }
  destruct (String.eqb_spec type DNSType) as [->|N2].
  { split; [discriminate|].
    intros [[H _]|[H _]]; vm_compute in H; discriminate. }
  destruct (String.eqb_spec type X400AddressType) as [->|N3].
  { split.
    - intro H. injection H as <-. left. split; reflexivity.
    - intros [[_ ->]|[H _]]; [reflexivity | vm_compute in H; discriminate]. }
  destruct (String.eqb_spec type DirectoryNameType) as [->|N4].
  { split.
    - intro H. injection H as <-. left. split; reflexivity.
    - intros [[_ ->]|[H _]]; [reflexivity | vm_compute in H; discriminate]. }
  destruct (String.eqb_spec type EDIPartyNameType) as [->|N5].
  { split.
    - intro H. injection H as <-. left. split; reflexivity.
    - intros [[_ ->]|[H _]]; [reflexivity | vm_compute in H; discriminate]. }
  cbn [orb].
  destruct (String.eqb_spec type URIType) as [->|N6].
  { split; [discriminate|].
    intros [[H _]|[H _]]; vm_compute in H; discriminate. }
  destruct (String.eqb_spec type IPType) as [->|N7].
  { split.
    - destruct (net.ParseIP value); discriminate.
    - intros [[H _]|[H _]]; vm_compute in H; discriminate. }
  destruct (String.eqb_spec type RegisteredIDType) as [->|N8].
  { split.
    - destruct (negb (String.eqb value EmptyString)); [|discriminate].
      destruct (parseObjectIdentifier value); discriminate.
    - intros [[H _]|[H _]]; vm_compute in H; discriminate. }
  destruct (String.eqb_spec type EmptyString) as [->|N9].
  { cbn [negb]. split; [discriminate|].
    intros [[H _]|(_ & H & _)]; [discriminate | contradiction]. }
  cbn [negb].
  destruct (parseObjectIdentifier type) as [oid|pe].
  - destruct (otherNameValueBytes type value) as [rawBytes|e'].
    + split; [discriminate|].
      intros [[H _]|(_ & _ & [[(pe & H) _]|[_ H]])]; discriminate.
    + split.
      * intro H. injection H as <-. right. repeat split; auto.
        right. split; [eauto | reflexivity].
      * intros [[H _]|(_ & _ & [[(pe & H) _]|[_ H]])];
          [discriminate | discriminate | injection H as ->; reflexivity].
  - split.
    + intro H. injection H as <-. right. repeat split; auto.
      left. split; [eauto | reflexivity].
    + intros [[H _]|(_ & _ & [[_ ->]|[(oid & H) _]])];
        [discriminate | reflexivity | discriminate].
Qed.

Lemma sanValues_error_cases_witness :
  sanValues (SubjectAlternativeName.mk "x400Address" "x")
  = Err "unimplemented SAN type x400Address".
Proof.
  apply (sanValues_error_cases "x400Address" "x").
  left. split; reflexivity.
Defined.

Lemma sansValues_all_ok :
  forall sans,
    (forall san, In san sans -> exists added, sanValues san = Ok added) ->
    exists values, sansValues sans = Ok values.
Proof.
  induction sans as [|san sans IH]; intro H; cbn [sansValues]; [eauto|].
  destruct (H san (or_introl eq_refl)) as [added ->].
  destruct (IH (fun s Hs => H s (or_intror Hs))) as [more ->]. eauto.
Qed.

Lemma sanValues_plain_type :
  forall type value,
    string_in type
      [EmailType; DNSType; URIType; IPType; RegisteredIDType; EmptyString]
    = true ->
    exists added, sanValues (SubjectAlternativeName.mk type value) = Ok added.
Proof.
  intros type value H.
  unfold string_in in H. cbn [existsb] in H.
  repeat (apply orb_prop in H; destruct H as [H|H]);
    try discriminate;
    apply String.eqb_eq in H; subst type;
    unfold sanValues, encodeSAN; cbn;
    repeat match goal with
           | |- context [match ?x with _ => _ end] => destruct x
           end;
    eauto.
Qed.

(** X11. A template whose explicit SANs all have one of the types [email],
    [dns], [uri], [ip], [registeredID] or the empty type always gets its
    SAN extension, whatever the values and whatever its DNS names, email
    addresses, URIs and IP addresses hold: no value is validated, and what
    does not parse is left out. *)
Theorem createSubjectAltNameExtension_plain_types :
  forall (URL : Type) (URL_String : URL -> string)
         (IP_String : net.IP -> string) (c : Certificate.t URL),
    (forall san, In san (Certificate.SANs c) ->
       string_in (SubjectAlternativeName.Type_ san)
         [EmailType; DNSType; URIType; IPType; RegisteredIDType; EmptyString]
       = true) ->
    exists e, createSubjectAltNameExtension URL_String IP_String c = Ok e.
Proof.
  intros URL URL_String IP_String c H.
  unfold createSubjectAltNameExtension. rewrite encodeSANs_sansValues.
  destruct (sansValues_all_ok (allSANs URL_String IP_String c)) as [v ->];
    [|eauto].
  intros san Hin. unfold allSANs in Hin.
  repeat (apply in_app_or in Hin; destruct Hin as [Hin|Hin]).
  - destruct san as [type value]. apply sanValues_plain_type.
    exact (H _ Hin).
  - apply in_map_iff in Hin. destruct Hin as (x & <- & _).
    apply sanValues_plain_type. reflexivity.
  - apply in_map_iff in Hin. destruct Hin as (x & <- & _).
    apply sanValues_plain_type. reflexivity.
  - apply in_map_iff in Hin. destruct Hin as (x & <- & _).
    apply sanValues_plain_type. reflexivity.
  - apply in_map_iff in Hin. destruct Hin as (x & <- & _).
    apply sanValues_plain_type. reflexivity.
Qed.

Lemma createSubjectAltNameExtension_plain_types_witness :
  exists e,
    createSubjectAltNameExtension textURL_String noIP_String
      (Certificate.mk emptyName ["not a host name"] ["nobody"] [[1; 2; 3]]
         ["::not a uri::"]
         [SubjectAlternativeName.mk "ip" "300.1.1.1";
          SubjectAlternativeName.mk "registeredID" "x.y"])
    = Ok e.
Proof.
  apply createSubjectAltNameExtension_plain_types.
  intros san [<-|[<-|[]]]; reflexivity.
Defined.

Lemma bytes_of_string_length :
  forall s, List.length (bytes_of_string s) = String.length s.
Proof.
  induction s as [|c s IH]; simpl; [reflexivity | now rewrite IH].
Qed.

(** X12. Entries of type [email], [dns] and [uri] add one primitive
    context-specific element with tag 1, 2 and 6, whose contents are the
    bytes of the value as they are; when the value is shorter than 128
    bytes the element is the identifier octet [0x80 + tag], the length and
    the bytes. *)
Theorem sanValues_text_entry :
  forall (type value : string) (tag : Z),
    In (type, tag) [(EmailType, 1); (DNSType, 2); (URIType, 6)] ->
    sanValues (SubjectAlternativeName.mk type value)
    = Ok [contextRaw tag (bytes_of_string value)]
    /\ ((String.length value < 128)%nat ->
        asn1.marshal_RawValue (contextRaw tag (bytes_of_string value))
        = [128 + tag; Z.of_nat (String.length value)]
          ++ bytes_of_string value).
Proof.
  intros type value tag Hin.
  assert (M : forall t, In t [1; 2; 6] ->
            (String.length value < 128)%nat ->
            asn1.marshal_RawValue (contextRaw t (bytes_of_string value))
            = [128 + t; Z.of_nat (String.length value)]
              ++ bytes_of_string value).
  { intros t Ht Hlen.
    unfold asn1.marshal_RawValue, contextRaw.
    cbn [asn1.FullBytes asn1.Class asn1.Tag asn1.IsCompound asn1.Bytes].
    unfold asn1.tagged, asn1.appendTagAndLength.
    rewrite bytes_of_string_length.
    destruct (Z.leb_spec 128 (Z.of_nat (String.length value))); [lia|].
    replace (to_byte (Z.of_nat (String.length value)))
      with (Z.of_nat (String.length value))
      by (unfold to_byte; rewrite Z.mod_small; lia).
    cbn [In] in Ht.
    destruct Ht as [<-|[<-|[<-|[]]]]; reflexivity. }
  cbn [In] in Hin.
  destruct Hin as [H|[H|[H|[]]]]; injection H as <- <-;
    (split; [reflexivity | apply M; cbn [In]; auto]).
Qed.

Lemma sanValues_text_entry_witness :
  sanValues (SubjectAlternativeName.mk "dns" "example.com")
  = Ok [contextRaw 2 (bytes_of_string "example.com")] /\
  asn1.marshal_RawValue (contextRaw 2 (bytes_of_string "example.com"))
  = [130; 11; 101; 120; 97; 109; 112; 108; 101; 46; 99; 111; 109].
Proof.
  destruct (sanValues_text_entry "dns" "example.com" 2) as [E M].
  - right; left; reflexivity.
  - split; [exact E|]. apply M. vm_compute. repeat constructor.
Defined.

(** X13. An entry of type [registeredID] never fails.  An empty value and a
    value that is no dotted OID add nothing.  A dotted OID that DER can
    hold adds its OBJECT IDENTIFIER contents under the context-specific
    tag 8.  A dotted OID that DER cannot hold (a single component, a first
    component above 2, ...) is not left out: the marshalling error is
    discarded and an element without bytes is added, which the enclosing
    sequence writes as the two octets 0, 0. *)
Theorem sanValues_registeredID :
  forall value : string,
    let san := SubjectAlternativeName.mk RegisteredIDType value in
    (value = EmptyString -> sanValues san = Ok []) /\
    (forall e, parseObjectIdentifier value = Err e -> sanValues san = Ok []) /\
    (forall oid body,
       parseObjectIdentifier value = Ok oid ->
       asn1.makeObjectIdentifier oid = Ok body ->
       sanValues san = Ok [fullRaw (asn1.tagged 2 8 false body)]
       /\ asn1.marshal_RawValue (fullRaw (asn1.tagged 2 8 false body))
          = asn1.tagged 2 8 false body) /\
    (forall oid e,
       parseObjectIdentifier value = Ok oid ->
       asn1.makeObjectIdentifier oid = Err e ->
       sanValues san = Ok [fullRaw []]
       /\ asn1.marshal_RawValue (fullRaw []) = [0; 0]).
Proof.
  intros value san. subst san. unfold sanValues, encodeSAN.
  cbn [SubjectAlternativeName.Type_ SubjectAlternativeName.Value].
  change (String.eqb RegisteredIDType EmailType) with false.
  change (String.eqb RegisteredIDType DNSType) with false.
  change (String.eqb RegisteredIDType X400AddressType) with false.
  change (String.eqb RegisteredIDType DirectoryNameType) with false.
  change (String.eqb RegisteredIDType EDIPartyNameType) with false.
  change (String.eqb RegisteredIDType URIType) with false.
  change (String.eqb RegisteredIDType IPType) with false.
  change (String.eqb RegisteredIDType RegisteredIDType) with true.
  cbn [orb]. cbv iota.
  assert (NE : forall oid, parseObjectIdentifier value = Ok oid ->
                 negb (String.eqb value EmptyString) = true).
  { intros oid H. destruct value; [discriminate H | reflexivity]. }
  split; [intros ->; reflexivity|].
  split.
  { intros e H. rewrite H.
    destruct (negb (String.eqb value EmptyString)); reflexivity. }
  split.
  - intros oid body H Hb. split.
    + rewrite (NE _ H), H. unfold asn1.MarshalWithParams_oid_tag.
      rewrite Hb. reflexivity.
    + apply marshal_fullRaw, tagged_nonempty.
  - intros oid e H Hb. split; [|reflexivity].
    rewrite (NE _ H), H. unfold asn1.MarshalWithParams_oid_tag.
    rewrite Hb. reflexivity.
Qed.

Lemma sanValues_registeredID_witness :
  sanValues (SubjectAlternativeName.mk RegisteredIDType "1.2.3.4")
    = Ok [fullRaw [136; 3; 42; 3; 4]] /\
  sanValues (SubjectAlternativeName.mk RegisteredIDType "7") = Ok [fullRaw []] /\
  createSubjectAltNameExtension textURL_String noIP_String
    (sansOnly [SubjectAlternativeName.mk RegisteredIDType "7"])
  = Ok (Extension.mk [2; 5; 29; 17] false [48; 2; 0; 0]) /\
  sanValues (SubjectAlternativeName.mk RegisteredIDType "seven") = Ok [].
Proof.
  destruct (sanValues_registeredID "1.2.3.4") as (_ & _ & Good & _).
  destruct (sanValues_registeredID "7") as (_ & _ & _ & Bad).
  destruct (sanValues_registeredID "seven") as (_ & No & _).
  split; [exact (proj1 (Good [1; 2; 3; 4] [42; 3; 4] eq_refl eq_refl))|].
  split; [exact (proj1 (Bad [7] _ eq_refl eq_refl))|].
  split; [reflexivity|].
  exact (No _ eq_refl).
Defined.

(** ** [SubjectAlternativeName.Set] appends *)

Lemma Set_returned_fields :
  forall (URL : Type) (url_Parse : string -> option URL) SplitSANs
         (s : SubjectAlternativeName.t) (c c' : x509.Certificate URL),
    SubjectAlternativeName_Set url_Parse SplitSANs s c = Returned c' ->
    c' = x509.mkCertificate (x509.Subject c)
           (x509.DNSNames c ++ sanDNSNames SplitSANs s)
           (x509.EmailAddresses c ++ sanEmailAddresses SplitSANs s)
           (x509.IPAddresses c ++ sanIPAddresses SplitSANs s)
           (x509.URIs c ++ sanURIs url_Parse SplitSANs s)
           (x509.BasicConstraintsValid c) (x509.IsCA c) (x509.MaxPathLen c)
           (x509.MaxPathLenZero c).
Proof.
  intros URL url_Parse SplitSANs [type value] c c' H.
  unfold SubjectAlternativeName_Set in H.
  unfold sanDNSNames, sanEmailAddresses, sanIPAddresses, sanURIs,
    hasType, isAutoType.
  cbn [SubjectAlternativeName.Type_ SubjectAlternativeName.Value] in *.
  destruct c as [subject dns emails ips uris valid isCA len zero].
  destruct (String.eqb_spec (strings.ToLower type) DNSType) as [E|_].
  { rewrite E. injection H as <-. cbn. rewrite !app_nil_r. reflexivity. }
  destruct (String.eqb_spec (strings.ToLower type) EmailType) as [E|_].
  { rewrite E. injection H as <-. cbn. rewrite !app_nil_r. reflexivity. }
  destruct (String.eqb_spec (strings.ToLower type) IPType) as [E|_].
  { rewrite E. cbn.
    destruct (net.ParseIP value); injection H as <-; cbn;
      rewrite !app_nil_r; reflexivity. }
  destruct (String.eqb_spec (strings.ToLower type) URIType) as [E|_].
  { rewrite E. cbn.
    destruct (url_Parse value); injection H as <-; cbn;
      rewrite !app_nil_r; reflexivity. }
  destruct (String.eqb (strings.ToLower type) EmptyString
            || String.eqb (strings.ToLower type) AutoType); [|discriminate].
  destruct (SplitSANs [value]) as [[[dnsNames ips'] emails'] uris'].
  injection H as <-. reflexivity.
Qed.

Lemma Set_known_or_panics :
  forall (URL : Type) (url_Parse : string -> option URL) SplitSANs
         (s : SubjectAlternativeName.t) (c : x509.Certificate URL),
    (knownToSet s = true ->
     SubjectAlternativeName_Set url_Parse SplitSANs s c
     = Returned
         (x509.mkCertificate (x509.Subject c)
            (x509.DNSNames c ++ sanDNSNames SplitSANs s)
            (x509.EmailAddresses c ++ sanEmailAddresses SplitSANs s)
            (x509.IPAddresses c ++ sanIPAddresses SplitSANs s)
            (x509.URIs c ++ sanURIs url_Parse SplitSANs s)
            (x509.BasicConstraintsValid c) (x509.IsCA c) (x509.MaxPathLen c)
            (x509.MaxPathLenZero c))) /\
    (knownToSet s = false ->
     SubjectAlternativeName_Set url_Parse SplitSANs s c
     = Panicked ("unsupported subject alternative name type "
                 ++ SubjectAlternativeName.Type_ s)%string).
Proof.
  intros URL url_Parse SplitSANs s c. split; intro K.
  - destruct (SubjectAlternativeName_Set url_Parse SplitSANs s c) as [c'|msg]
      eqn:E.
    + f_equal. eapply Set_returned_fields; eauto.
    + exfalso. destruct s as [type value].
      unfold knownToSet, string_in, setTypes in K.
      unfold SubjectAlternativeName_Set in E.
      cbn [SubjectAlternativeName.Type_ SubjectAlternativeName.Value existsb]
        in *.
      destruct (String.eqb (strings.ToLower type) DNSType); [discriminate|].
      destruct (String.eqb (strings.ToLower type) EmailType); [discriminate|].
      destruct (String.eqb (strings.ToLower type) IPType);
        [destruct (net.ParseIP value); discriminate|].
      destruct (String.eqb (strings.ToLower type) URIType);
        [destruct (url_Parse value); discriminate|].
      cbn [orb] in K. rewrite orb_false_r in K. rewrite K in E.
      destruct (SplitSANs [value]) as [[[? ?] ?] ?]. discriminate.
  - destruct s as [type value].
    unfold knownToSet, string_in, setTypes in K.
    unfold SubjectAlternativeName_Set.
    cbn [SubjectAlternativeName.Type_ SubjectAlternativeName.Value existsb]
      in *.
    repeat (apply orb_false_elim in K; destruct K as [? K]).
    repeat match goal with
           | E : String.eqb _ _ = false |- _ => rewrite E; clear E
           end.
    reflexivity.
Qed.


(** X14. When [SubjectAlternativeName.Set] returns, it has only appended:
    the DNS names, email addresses, IP addresses and URIs of the
    certificate are the former ones followed by what the entry adds (its
    value for a [dns] or [email] entry; the parsed value, or nothing when
    it does not parse, for an [ip] or [uri] entry; what [SplitSANs] finds
    for an [auto] or untyped entry), and the subject and the basic
    constraints are untouched.  It returns when the lower-case type
    is one of its tags, and panics on any other ASCII type. *)
Theorem SubjectAlternativeName_Set_appends :
  forall (URL : Type) (url_Parse : string -> option URL) SplitSANs
         (s : SubjectAlternativeName.t) (c : x509.Certificate URL),
    (knownToSet s = true ->
     SubjectAlternativeName_Set url_Parse SplitSANs s c
     = Returned
         (x509.mkCertificate (x509.Subject c)
            (x509.DNSNames c ++ sanDNSNames SplitSANs s)
            (x509.EmailAddresses c ++ sanEmailAddresses SplitSANs s)
            (x509.IPAddresses c ++ sanIPAddresses SplitSANs s)
            (x509.URIs c ++ sanURIs url_Parse SplitSANs s)
            (x509.BasicConstraintsValid c) (x509.IsCA c) (x509.MaxPathLen c)
            (x509.MaxPathLenZero c))) /\
    (strings.is_ascii (SubjectAlternativeName.Type_ s) = true ->
     knownToSet s = false ->
     SubjectAlternativeName_Set url_Parse SplitSANs s c
     = Panicked ("unsupported subject alternative name type "
                 ++ SubjectAlternativeName.Type_ s)%string).
Proof.
  intros URL url_Parse SplitSANs s c.
  destruct (Set_known_or_panics URL url_Parse SplitSANs s c) as [K P].
  split; [exact K | intros _; exact P].
Qed.

Lemma SubjectAlternativeName_Set_appends_witness :
  SubjectAlternativeName_Set textURL_Parse dnsSplitSANs
    (SubjectAlternativeName.mk "Email" "a@b")
    (x509.set_EmailAddresses x509.new ["x@y"])
  = Returned (x509.set_EmailAddresses x509.new ["x@y"; "a@b"]).
Proof.
  destruct (SubjectAlternativeName_Set_appends textURL textURL_Parse
              dnsSplitSANs (SubjectAlternativeName.mk "Email" "a@b")
              (x509.set_EmailAddresses x509.new ["x@y"])) as [K _].
  rewrite (K eq_refl). reflexivity.
Defined.

Lemma setSANs_known :
  forall (URL : Type) (url_Parse : string -> option URL) SplitSANs
         (sans : list SubjectAlternativeName.t) (c : x509.Certificate URL),
    forallb knownToSet sans = true ->
    setSANs url_Parse SplitSANs sans c
    = Returned
        (x509.mkCertificate (x509.Subject c)
           (x509.DNSNames c ++ flat_map (sanDNSNames SplitSANs) sans)
           (x509.EmailAddresses c
            ++ flat_map (sanEmailAddresses SplitSANs) sans)
           (x509.IPAddresses c ++ flat_map (sanIPAddresses SplitSANs) sans)
           (x509.URIs c ++ flat_map (sanURIs url_Parse SplitSANs) sans)
           (x509.BasicConstraintsValid c) (x509.IsCA c) (x509.MaxPathLen c)
           (x509.MaxPathLenZero c)).
Proof.
  intros URL url_Parse SplitSANs.
  induction sans as [|s sans IH]; intros c K.
  - cbn [setSANs flat_map]. rewrite !app_nil_r. destruct c; reflexivity.
  - cbn [forallb] in K. apply andb_prop in K. destruct K as [Ks K].
    cbn [setSANs flat_map].
    rewrite (proj1 (Set_known_or_panics URL url_Parse
                      SplitSANs s c) Ks).
    rewrite (IH _ K). cbn. rewrite <- !app_assoc. reflexivity.
Qed.

Lemma setSANs_first_unknown :
  forall (URL : Type) (url_Parse : string -> option URL) SplitSANs
         (pre : list SubjectAlternativeName.t) s post
         (c : x509.Certificate URL),
    forallb knownToSet pre = true -> knownToSet s = false ->
    setSANs url_Parse SplitSANs (pre ++ s :: post) c
    = Panicked ("unsupported subject alternative name type "
                ++ SubjectAlternativeName.Type_ s)%string.
Proof.
  intros URL url_Parse SplitSANs.
  induction pre as [|p pre IH]; intros s post c Kpre Ks;
    cbn [app setSANs].
  - rewrite (proj2 (Set_known_or_panics URL url_Parse
                      SplitSANs s c) Ks). reflexivity.
  - cbn [forallb] in Kpre. apply andb_prop in Kpre.
    destruct Kpre as [Kp Kpre].
    rewrite (proj1 (Set_known_or_panics URL url_Parse
                      SplitSANs p c) Kp).
    apply IH; assumption.
Qed.

Lemma split_first_unknown :
  forall sans : list SubjectAlternativeName.t,
    forallb knownToSet sans = false ->
    exists pre s post,
      sans = pre ++ s :: post /\ forallb knownToSet pre = true
      /\ knownToSet s = false.
Proof.
  induction sans as [|a sans IH]; intro H; [discriminate|].
  cbn [forallb] in H.
  destruct (knownToSet a) eqn:Ka.
  - cbn [andb] in H. destruct (IH H) as (pre & s & post & -> & Kp & Ks).
    exists (a :: pre), s, post. repeat split; [|exact Ks].
    cbn [forallb]. rewrite Ka, Kp. reflexivity.
  - exists [], a, sans. repeat split. exact Ka.
Qed.

(** ** [GetCertificate] *)

(** X15. [GetCertificate] on a template whose explicit SANs all have a type
    [SubjectAlternativeName.Set] knows, given that [SignatureAlgorithm.Set]
    writes the signature algorithm only.  The certificate it returns has:
    the DNS names, email addresses, IP addresses and URIs of the template
    followed by what the explicit SANs add, in their order; the subject
    that [Subject.Set] builds; the basic constraints of
    [BasicConstraints.Set] when the template has some and invalid, empty
    ones otherwise; the template's raw extensions, in declaration order, as
    its extra extensions; the other extension fields, the serial number and
    the public key as the template has them; and an empty issuer: the
    template's issuer and version are not used. *)
Theorem GetCertificate_assembles :
  forall (URL Key SigAlg : Type) (url_Parse : string -> option URL)
         SplitSANs
         (SignatureAlgorithm_Set :
            SigAlg -> x509cert.Certificate URL Key
            -> x509cert.Certificate URL Key)
         (t : Certificate.t URL) (f : CertificateFields.t Key SigAlg),
    (forall s c, exists v,
        SignatureAlgorithm_Set s c = x509cert.set_SignatureAlgorithm c v) ->
    forallb knownToSet (Certificate.SANs t) = true ->
    let sans := Certificate.SANs t in
    let named :=
      Subject_Set (Certificate.Subject t)
        (x509.mkCertificate pkix.empty
           (Certificate.DNSNames t ++ flat_map (sanDNSNames SplitSANs) sans)
           (Certificate.EmailAddresses t
            ++ flat_map (sanEmailAddresses SplitSANs) sans)
           (Certificate.IPAddresses t
            ++ flat_map (sanIPAddresses SplitSANs) sans)
           (Certificate.URIs t ++ flat_map (sanURIs url_Parse SplitSANs) sans)
           false false 0 false) in
    let base :=
      match CertificateFields.BasicConstraints f with
      | Some b => BasicConstraints_Set b named
      | None => named
      end in
    let constraints :=
      match CertificateFields.NameConstraints f with
      | Some n =>
          x509cert.mkConstraints (NameConstraints.Critical n)
            (NameConstraints.PermittedDNSDomains n)
            (NameConstraints.ExcludedDNSDomains n)
            (NameConstraints.PermittedIPRanges n)
            (NameConstraints.ExcludedIPRanges n)
            (NameConstraints.PermittedEmailAddresses n)
            (NameConstraints.ExcludedEmailAddresses n)
            (NameConstraints.PermittedURIDomains n)
            (NameConstraints.ExcludedURIDomains n)
      | None => x509cert.noConstraints
      end in
    exists signatureAlgorithm,
      GetCertificate url_Parse SplitSANs SignatureAlgorithm_Set t f
      = Returned
          (x509cert.mk base pkix.empty (CertificateFields.PublicKey f)
             (CertificateFields.PublicKeyAlgorithm f)
             (map Extension_pkix (CertificateFields.Extensions f))
             (CertificateFields.KeyUsage f) (CertificateFields.ExtKeyUsage f)
             (CertificateFields.UnknownExtKeyUsage f)
             (CertificateFields.SubjectKeyID f)
             (CertificateFields.AuthorityKeyID f)
             (CertificateFields.OCSPServer f)
             (CertificateFields.IssuingCertificateURL f)
             (CertificateFields.CRLDistributionPoints f)
             (CertificateFields.PolicyIdentifiers f) constraints
             (option_map SerialNumber.Int (CertificateFields.SerialNumber f))
             signatureAlgorithm).
Proof.
  intros URL Key SigAlg url_Parse SplitSANs SigSet t f Hsig K sans named base
    constraints.
  unfold GetCertificate.
  rewrite (setSANs_known URL url_Parse SplitSANs _ _ K).
  match goal with
  | |- exists v, Returned (SigSet ?s ?c) = _ =>
      destruct (Hsig s c) as [v ->]; exists v
  end.
  f_equal. subst base named constraints sans.
  rewrite setExtensions_app.
  destruct f as [version issuer serial extensions ku eku ueku skid akid ocsp
                   icu crl pol bc nc sa pka pk].
  cbn [CertificateFields.BasicConstraints CertificateFields.NameConstraints
       CertificateFields.Extensions CertificateFields.SerialNumber
       CertificateFields.PublicKey CertificateFields.PublicKeyAlgorithm
       CertificateFields.KeyUsage CertificateFields.ExtKeyUsage
       CertificateFields.UnknownExtKeyUsage CertificateFields.SubjectKeyID
       CertificateFields.AuthorityKeyID CertificateFields.OCSPServer
       CertificateFields.IssuingCertificateURL
       CertificateFields.CRLDistributionPoints
       CertificateFields.PolicyIdentifiers
       CertificateFields.SignatureAlgorithm].
  destruct bc as [b|]; destruct nc as [n|]; destruct serial as [sn|];
    destruct extensions as [|e es]; reflexivity.
Qed.

Lemma GetCertificate_assembles_witness :
  exists c,
    GetCertificate textURL_Parse dnsSplitSANs storeSignatureAlgorithm
      (Certificate.mk emptyName ["example.com"] [] [] []
         [SubjectAlternativeName.mk "DNS" "www.example.com";
          SubjectAlternativeName.mk "email" "a@example.com"])
      noFields
    = Returned c
    /\ x509.DNSNames (x509cert.base c) = ["example.com"; "www.example.com"]
    /\ x509.EmailAddresses (x509cert.base c) = ["a@example.com"]
    /\ x509.BasicConstraintsValid (x509cert.base c) = false.
Proof.
  destruct (GetCertificate_assembles textURL Z Z textURL_Parse dnsSplitSANs
              storeSignatureAlgorithm
              (Certificate.mk emptyName ["example.com"] [] [] []
                 [SubjectAlternativeName.mk "DNS" "www.example.com";
                  SubjectAlternativeName.mk "email" "a@example.com"])
              noFields) as [v E].
  - intros s c. exists s. reflexivity.
  - reflexivity.
  - eexists. split; [exact E|]. repeat split.
Defined.

(** X16. [GetCertificate] panics as soon as the explicit SAN list holds an
    entry whose ASCII type [SubjectAlternativeName.Set] does not know: the
    message names the type of the first such entry and no certificate is
    returned, whatever the rest of the template holds. *)
Theorem GetCertificate_panics :
  forall (URL Key SigAlg : Type) (url_Parse : string -> option URL)
         SplitSANs
         (SignatureAlgorithm_Set :
            SigAlg -> x509cert.Certificate URL Key
            -> x509cert.Certificate URL Key)
         (t : Certificate.t URL) (f : CertificateFields.t Key SigAlg)
         (pre post : list SubjectAlternativeName.t)
         (s : SubjectAlternativeName.t),
    Certificate.SANs t = pre ++ s :: post ->
    forallb knownToSet pre = true ->
    strings.is_ascii (SubjectAlternativeName.Type_ s) = true ->
    knownToSet s = false ->
    GetCertificate url_Parse SplitSANs SignatureAlgorithm_Set t f
    = Panicked ("unsupported subject alternative name type "
                ++ SubjectAlternativeName.Type_ s)%string.
Proof.
  intros URL Key SigAlg url_Parse SplitSANs SigSet t f pre post s Hs Kpre _ Ks.
  unfold GetCertificate. rewrite Hs.
  rewrite (setSANs_first_unknown URL url_Parse SplitSANs pre s post _ Kpre Ks).
  reflexivity.
Qed.

Lemma GetCertificate_panics_witness :
  GetCertificate textURL_Parse dnsSplitSANs storeSignatureAlgorithm
    (sansOnly [SubjectAlternativeName.mk "dns" "example.com";
               SubjectAlternativeName.mk "x400Address" "x";
               SubjectAlternativeName.mk "bogus" "y"])
    noFields
  = Panicked "unsupported subject alternative name type x400Address".
Proof.
  apply (GetCertificate_panics textURL Z Z textURL_Parse dnsSplitSANs
           storeSignatureAlgorithm _ noFields
           [SubjectAlternativeName.mk "dns" "example.com"]
           [SubjectAlternativeName.mk "bogus" "y"]
           (SubjectAlternativeName.mk "x400Address" "x")); reflexivity.
Defined.

Lemma Split_head :
  forall c r sep h tl,
    strings.Split (String c r) sep = h :: tl ->
    h = EmptyString \/ exists h', h = String c h'.
Proof.
  intros c r sep h tl H. cbn [strings.Split] in H.
  destruct (Ascii.eqb c sep).
  - injection H as <- _. left; reflexivity.
  - destruct (strings.Split r sep) as [|h0 t0];
      injection H as <- _; right; eauto.
Qed.

Lemma digit_first_not_known :
  forall c d r,
    strconv.digit c = Some d ->
    string_in (strings.ToLower (String c r)) setTypes = false.
Proof.
  intros c d r H.
  destruct c as [[] [] [] [] [] [] [] []]; vm_compute in H;
    try discriminate; reflexivity.
Qed.

Lemma dotted_OID_not_known :
  forall type value oid,
    parseObjectIdentifier type = Ok oid ->
    knownToSet (SubjectAlternativeName.mk type value) = false.
Proof.
  intros type value oid H. unfold knownToSet.
  cbn [SubjectAlternativeName.Type_].
  unfold parseObjectIdentifier in H.
  destruct type as [|c r]; [discriminate H|].
  destruct (strings.Split (String c r) ".") as [|h tl] eqn:S;
    [discriminate H|].
  cbn [parseObjectIdentifier_components] in H.
  destruct (parseObjectIdentifier_component h) as [n|] eqn:P;
    [|discriminate H].
  destruct (Split_head _ _ _ _ _ S) as [->|[h' ->]]; [discriminate P|].
  unfold parseObjectIdentifier_component in P.
  cbn [strconv.parse_digits] in P.
  destruct (strconv.digit c) as [d|] eqn:D; [|discriminate P].
  eapply digit_first_not_known; eauto.
Qed.

Lemma setSANs_some_unknown :
  forall (URL : Type) (url_Parse : string -> option URL) SplitSANs
         (sans : list SubjectAlternativeName.t) (c : x509.Certificate URL),
    forallb knownToSet sans = false ->
    exists msg, setSANs url_Parse SplitSANs sans c = Panicked msg.
Proof.
  intros URL url_Parse SplitSANs sans c H.
  destruct (split_first_unknown sans H) as (pre & s & post & -> & Kp & Ks).
  rewrite (setSANs_first_unknown URL url_Parse SplitSANs pre s post c Kp Ks).
  eauto.
Qed.

(** X17. The two consumers of the explicit SAN list disagree: an entry of
    type [registeredID], or of a type that is a dotted OID (an otherName),
    is what [createSubjectAltNameExtension] is there to encode, yet any
    template that holds such an entry makes [GetCertificate] panic. *)
Theorem GetCertificate_refuses_encoder_types :
  forall (URL Key SigAlg : Type) (url_Parse : string -> option URL)
         SplitSANs
         (SignatureAlgorithm_Set :
            SigAlg -> x509cert.Certificate URL Key
            -> x509cert.Certificate URL Key)
         (t : Certificate.t URL) (f : CertificateFields.t Key SigAlg)
         (san : SubjectAlternativeName.t),
    In san (Certificate.SANs t) ->
    SubjectAlternativeName.Type_ san = RegisteredIDType
    \/ (exists oid,
          parseObjectIdentifier (SubjectAlternativeName.Type_ san) = Ok oid) ->
    exists msg,
      GetCertificate url_Parse SplitSANs SignatureAlgorithm_Set t f
      = Panicked msg.
Proof.
  intros URL Key SigAlg url_Parse SplitSANs SigSet t f san Hin Htype.
  assert (Ks : knownToSet san = false).
  { destruct san as [type value].
    cbn [SubjectAlternativeName.Type_] in Htype.
    destruct Htype as [->|[oid H]]; [reflexivity|].
    eapply dotted_OID_not_known; eauto. }
  assert (K : forallb knownToSet (Certificate.SANs t) = false).
  { destruct (forallb knownToSet (Certificate.SANs t)) eqn:A; [|reflexivity].
    rewrite forallb_forall in A. rewrite (A san Hin) in Ks. discriminate. }
  unfold GetCertificate.
  match goal with
  | |- context [setSANs _ _ _ ?b] =>
      destruct (setSANs_some_unknown URL url_Parse SplitSANs _ b K) as [msg E]
  end.
  exists msg. rewrite E. reflexivity.
Qed.

Lemma GetCertificate_refuses_encoder_types_witness :
  (exists e,
     createSubjectAltNameExtension textURL_String noIP_String
       (sansOnly [SubjectAlternativeName.mk "1.2.3.4" "int;42"]) = Ok e) /\
  (exists msg,
     GetCertificate textURL_Parse dnsSplitSANs storeSignatureAlgorithm
       (sansOnly [SubjectAlternativeName.mk "1.2.3.4" "int;42"]) noFields
     = Panicked msg).
Proof.
  split; [eexists; reflexivity|].
  apply (GetCertificate_refuses_encoder_types textURL Z Z textURL_Parse
           dnsSplitSANs storeSignatureAlgorithm
           (sansOnly [SubjectAlternativeName.mk "1.2.3.4" "int;42"]) noFields
           (SubjectAlternativeName.mk "1.2.3.4" "int;42")).
  - left; reflexivity.
  - right. exists [1; 2; 3; 4]. reflexivity.
Defined.

(** ** Names *)

(** [Subject.Set] replaces the subject: only the last call counts, the
    plain fields of the stored name are empty, and no other field of the
    certificate changes. *)
Lemma Subject_Set_replaces :
  forall (URL : Type) (s s' : Subject.t) (c : x509.Certificate URL),
    let c' := Subject_Set s c in
    Subject_Set s (Subject_Set s' c) = c'
    /\ pkix.set_ExtraNames (x509.Subject c') [] = pkix.empty
    /\ pkix.CommonName (x509.Subject c') = EmptyString
    /\ x509.set_Subject c' (x509.Subject c) = c.
Proof.
  intros URL s s' c c'. subst c'. unfold Subject_Set.
  destruct c; repeat split.
Qed.

(** X18. Decoding a subject or an issuer from a JSON string yields a name
    that has this string as its common name and nothing else, whatever the
    receiver held; the subject that [Subject.Set] then builds has the
    common name as its only attribute, and no attribute at all when the
    string is empty.  [Name.UnmarshalJSON] itself only overwrites the
    common name of its receiver. *)
Theorem Subject_UnmarshalJSON_string :
  forall (Data : Type) (shape : Data -> JSON)
         (json_Unmarshal_Name : Data -> result Name.t)
         (URL : Type) (data : Data) (cn : string) (s0 : Subject.t)
         (c : x509.Certificate URL),
    shape data = JSONString cn ->
    Subject_UnmarshalJSON shape json_Unmarshal_Name s0 data
      = (set_CommonName emptyName cn, None)
    /\ Issuer_UnmarshalJSON shape json_Unmarshal_Name s0 data
       = (set_CommonName emptyName cn, None)
    /\ Name_UnmarshalJSON shape json_Unmarshal_Name s0 data
       = (set_CommonName s0 cn, None)
    /\ pkix.ExtraNames
         (x509.Subject (Subject_Set (set_CommonName emptyName cn) c))
       = (if String.eqb cn EmptyString then []
          else [attribute oidCommonName cn]).
Proof.
  intros Data shape jun URL data cn s0 c H.
  unfold Subject_UnmarshalJSON, Issuer_UnmarshalJSON, Name_UnmarshalJSON.
  rewrite H. cbn [maybeString].
  split; [reflexivity|]. split; [reflexivity|]. split; [reflexivity|].
  unfold Subject_Set, set_CommonName, emptyName, appendEach, appendIfSet.
  cbn. destruct (String.eqb cn EmptyString); reflexivity.
Qed.

Lemma Subject_UnmarshalJSON_string_witness :
  Subject_UnmarshalJSON (fun d : JSON => d) (fun _ => Err "no object")
    emptyName (JSONString "example.com")
  = (set_CommonName emptyName "example.com", None) /\
  pkix.ExtraNames
    (x509.Subject
       (Subject_Set (set_CommonName emptyName "example.com")
          (@x509.new textURL)))
  = [attribute [2; 5; 4; 3] "example.com"].
Proof.
  destruct (Subject_UnmarshalJSON_string JSON (fun d => d)
              (fun _ => Err "no object") textURL (JSONString "example.com")
              "example.com" emptyName x509.new eq_refl) as (S & _ & _ & E).
  split; [exact S | exact E].
Defined.


(** ** Basic constraints: what always holds after [Set] *)

(** X20. After [BasicConstraints.Set] the certificate's basic constraints
    are marked valid and consistent, whatever the input: [MaxPathLen] is at
    least -1; it is 0 when the certificate is no CA; the explicit-zero
    flag is set exactly for a CA with an input [maxPathLen] of 0, and then
    [MaxPathLen] is 0.  The call is idempotent and touches no other
    field. *)
Theorem BasicConstraints_Set_invariant :
  forall (URL : Type) (b : BasicConstraints.t) (c : x509.Certificate URL),
    let c' := BasicConstraints_Set b c in
    x509.BasicConstraintsValid c' = true
    /\ x509.IsCA c' = BasicConstraints.IsCA b
    /\ -1 <= x509.MaxPathLen c'
    /\ (x509.IsCA c' = false -> x509.MaxPathLen c' = 0)
    /\ (x509.MaxPathLenZero c' = true <->
        BasicConstraints.IsCA b = true /\ BasicConstraints.MaxPathLen b = 0)
    /\ (x509.MaxPathLenZero c' = true -> x509.MaxPathLen c' = 0)
    /\ BasicConstraints_Set b c' = c'
    /\ x509.set_BasicConstraints c' (x509.BasicConstraintsValid c)
         (x509.IsCA c) (x509.MaxPathLen c) (x509.MaxPathLenZero c) = c.
Proof.
  intros URL [isCA maxPathLen] c c'. subst c'.
  unfold BasicConstraints_Set.
  cbn [BasicConstraints.IsCA BasicConstraints.MaxPathLen].
  destruct c as [subject dns emails ips uris valid ca len zero].
  destruct isCA;
    [destruct (Z.eqb_spec maxPathLen 0) as [->|Hz];
     [|destruct (Z.ltb_spec maxPathLen 0)]|];
    cbn; repeat split; try lia; try reflexivity; try discriminate; auto;
    intros [H1 H2]; first [discriminate | contradiction].
Qed.

Lemma BasicConstraints_Set_invariant_witness :
  x509.MaxPathLen
    (BasicConstraints_Set (BasicConstraints.mk false 5) (@x509.new textURL))
  = 0.
Proof.
  destruct (BasicConstraints_Set_invariant textURL
              (BasicConstraints.mk false 5) x509.new)
    as (_ & _ & _ & NotCA & _).
  apply NotCA. reflexivity.
Defined.

(** ** otherName values with an unknown prefix *)

(** X21. An otherName value that holds a semicolon, with a prefix before
    the first semicolon that is none of [int], [oid], [utf8], [ia5],
    [numeric] and [printable], is never encoded: the whole value, semicolon
    included, is handed to the PrintableString encoder, which refuses it,
    and the encoder fails with "could not marshal ASN1 values". *)
Theorem sanValues_unknown_prefix :
  forall (type k p : string) (oid : asn1.ObjectIdentifier),
    string_in type encoderTypes = false ->
    parseObjectIdentifier type = Ok oid ->
    strings.Contains k ";" = false ->
    string_in k ["int"; "oid"; "utf8"; "ia5"; "numeric"; "printable"] = false ->
    sanValues (SubjectAlternativeName.mk type (k ++ String ";" p)%string)
    = Err "could not marshal ASN1 values: asn1: structure error: PrintableString contains invalid character".
Proof.
  intros type k p oid Hvoc Hoid Hk Hkind.
  assert (V : otherNameValueBytes type (k ++ String ";" p)%string
              = Err "could not marshal ASN1 values: asn1: structure error: PrintableString contains invalid character").
  { unfold string_in in Hkind. cbn [existsb] in Hkind.
    repeat (apply orb_false_elim in Hkind; destruct Hkind as [? Hkind]).
    rewrite otherNameValueBytes_prefixed by assumption.
    cbv zeta. unfold asn1.stringParam.
    repeat match goal with
           | E : String.eqb _ _ = false |- _ => rewrite E; clear E
           end.
    unfold asn1.MarshalWithParams_string.
    rewrite printable_refuses_semicolon by apply Contains_prefixed.
    reflexivity. }
  unfold string_in, encoderTypes in Hvoc; cbn [existsb] in Hvoc.
  repeat (apply orb_false_elim in Hvoc; destruct Hvoc as [? Hvoc]).
  unfold sanValues, encodeSAN.
  cbn [SubjectAlternativeName.Type_ SubjectAlternativeName.Value].
  repeat match goal with
         | E : String.eqb _ _ = false |- _ => rewrite E; clear E
         end.
  cbn [orb].
  assert (Hne : String.eqb type EmptyString = false).
  { destruct type; [discriminate Hoid | reflexivity]. }
  rewrite Hne, Hoid. cbn [negb]. rewrite V. reflexivity.
Qed.

Lemma sanValues_unknown_prefix_witness :
  sanValues (SubjectAlternativeName.mk "1.2.3.4" "foo;bar")
  = Err "could not marshal ASN1 values: asn1: structure error: PrintableString contains invalid character".
Proof.
  apply (sanValues_unknown_prefix "1.2.3.4" "foo" "bar" [1; 2; 3; 4]);
    reflexivity.
Defined.
